(** * ArticleGenerator1.py: configuration persistence, credential
    resolution and the generate action

    A shallow embedding of [src/ArticleGenerator1.py].  The script is a
    Streamlit page: it loads a JSON configuration file, resolves an API
    key from the environment or a key vault, lets the user edit prompts,
    and on a button press probes the Azure endpoint and runs a three-task
    crew.  Everything the script touches outside itself (the file store,
    the environment, the key vault, the HTTP endpoint, the crew library)
    is an explicit argument of the embedded functions; what the script
    shows on the page is recorded as a trace of events. *)

From Stdlib Require Import NArith List Lia Bool Ascii String QArith.
From stdpp Require Import gmap strings list.

Local Open Scope N_scope.
Local Open Scope list_scope.

(** ** Python values *)

(** A Python [str] is a sequence of Unicode code points; surrogate code
    points are allowed in it, as in CPython. *)
Abbreviation text := (list N).

Definition ord (a : ascii) : N := N_of_ascii a.

(** [lit s] is the [str] of an ASCII literal of the script. *)
Fixpoint lit (s : string) : text :=
  match s with
  | EmptyString => []
  | String a r => ord a :: lit r
  end.

(** What [requests.post] answers. *)
Record response := { status_code : N; reason : text; body : text }.

(** The exceptions the script can meet.  [HTTPError] is the subclass of
    [requests.exceptions.RequestException] that [raise_for_status]
    raises; [RequestException] stands for the other members of that
    family and [Exception] for any other error of a library.
    [StopException] is what [st.stop()] raises; it derives from
    [BaseException], so no [except Exception] clause catches it. *)
Inductive exn :=
| FileNotFoundError
| JSONDecodeError (msg : string)
| KeyError (key : text)
| TypeError
| AttributeError
| UnicodeDecodeError
| HTTPError (r : response)
| RequestException (msg : text)
| Exception (msg : text)
| StopException.

Definition is_Exception (e : exn) : bool :=
  match e with StopException => false | _ => true end.

Definition is_RequestException (e : exn) : bool :=
  match e with HTTPError _ | RequestException _ => true | _ => false end.

(** The result of running a piece of Python.  [Unmodelled] marks inputs
    whose treatment needs Python numbers (JSON number literals, [NaN],
    [Infinity]), which this development leaves out; [OutOfFuel] is the
    recursion budget of the decoder, shown below never to be reached. *)
Inductive outcome (A : Type) :=
| Ok (a : A)
| Raise (e : exn)
| Unmodelled
| OutOfFuel.
Arguments Ok {A} a.
Arguments Raise {A} e.
Arguments Unmodelled {A}.
Arguments OutOfFuel {A}.

Definition obind {A B} (m : outcome A) (f : A -> outcome B) : outcome B :=
  match m with
  | Ok a => f a
  | Raise e => Raise e
  | Unmodelled => Unmodelled
  | OutOfFuel => OutOfFuel
  end.

#[global] Instance outcome_bind : MBind outcome := fun A B f m => obind m f.
#[global] Instance outcome_ret : MRet outcome := @Ok.

(** [try: body except <clauses>]: [handler e] is [Some k] when a clause
    matches [e]. *)
Definition try_except {A} (body : outcome A) (handler : exn -> option (outcome A))
  : outcome A :=
  match body with
  | Raise e => match handler e with Some k => k | None => Raise e end
  | r => r
  end.

(** ** The JSON codec the script calls ([json.dump], [json.load])

    The codec belongs to Python's standard library; it is embedded after
    [Lib/json/encoder.py], [Lib/json/decoder.py] and [Lib/json/scanner.py]
    of CPython, for the values a prompt configuration is made of. *)

Module Json.

(** The values of the modelled fragment.  A [dict] is kept as its items
    in insertion order; its keys are pairwise distinct. *)
Unset Elimination Schemes.
Inductive json :=
| JNull
| JBool (b : bool)
| JStr (s : text)
| JArr (items : list json)
| JObj (items : list (text * json)).
Set Elimination Schemes.

(** *** Encoder: [json.dumps] with its defaults (ensure_ascii, a comma
    and a space between items, a colon and a space after a key) *)

Definition hexdigit (d : N) : N := if d <? 10 then 48 + d else 87 + d.

(** ['{0:04x}'.format(n)] for [n < 0x10000]. *)
Definition hex4 (n : N) : text :=
  [hexdigit (n / 4096); hexdigit (n / 256 mod 16);
   hexdigit (n / 16 mod 16); hexdigit (n mod 16)].

Definition u_escape (n : N) : text := 92 :: 117 :: hex4 n.

(** The two [\uXXXX] units written for a code point above the basic
    plane; [n] is the code point minus [0x10000]. *)
Definition pair_s1 (n : N) : N := N.lor 55296 (N.land (N.shiftr n 10) 1023).
Definition pair_s2 (n : N) : N := N.lor 56320 (N.land n 1023).

(** The [replace] callback of [py_encode_basestring_ascii], together with
    the test of [ESCAPE_ASCII] that selects the characters it is applied
    to: the backslash, the double quote and everything outside the range
    from the space to the tilde. *)
Definition replace (c : N) : text :=
  if c =? 92 then [92; 92]
  else if c =? 34 then [92; 34]
  else if (32 <=? c) && (c <=? 126) then [c]
  else if c =? 8 then [92; 98]
  else if c =? 12 then [92; 102]
  else if c =? 10 then [92; 110]
  else if c =? 13 then [92; 114]
  else if c =? 9 then [92; 116]
  else if c <? 65536 then u_escape c
  else
    let n := c - 65536 in
    u_escape (pair_s1 n) ++ u_escape (pair_s2 n).

Definition escape (s : text) : text := concat (map replace s).

Definition py_encode_basestring_ascii (s : text) : text :=
  34 :: escape s ++ [34].

Definition ITEM_SEPARATOR : text := lit ", ".
Definition KEY_SEPARATOR : text := lit ": ".

(** [_iterencode]: the first item of a list or dict is written as it is,
    every later one after the item separator. *)
Fixpoint dumps (o : json) : text :=
  match o with
  | JNull => lit "null"
  | JBool true => lit "true"
  | JBool false => lit "false"
  | JStr s => py_encode_basestring_ascii s
  | JArr [] => lit "[]"
  | JArr (x :: l) =>
      91 :: dumps x ++ concat (map (fun y => ITEM_SEPARATOR ++ dumps y) l) ++ [93]
  | JObj [] => lit "{}"
  | JObj ((k, v) :: l) =>
      123 :: py_encode_basestring_ascii k ++ KEY_SEPARATOR ++ dumps v
        ++ concat (map (fun kv => ITEM_SEPARATOR ++ py_encode_basestring_ascii (fst kv)
                                   ++ KEY_SEPARATOR ++ dumps (snd kv)) l)
        ++ [125]
  end.

(** The text of a list after its first item, of a dict member, and of a
    dict after its first member. *)
Definition arr_tail (l : list json) : text :=
  concat (map (fun y => ITEM_SEPARATOR ++ dumps y) l).

Definition member (kv : text * json) : text :=
  py_encode_basestring_ascii (fst kv) ++ KEY_SEPARATOR ++ dumps (snd kv).

Definition obj_tail (l : list (text * json)) : text :=
  concat (map (fun kv => ITEM_SEPARATOR ++ member kv) l).

(** *** Decoder: [json.loads], after [py_scanstring], [JSONObject],
    [JSONArray] and [py_make_scanner] of CPython's [json] package.  The
    functions take the text that starts at the index the Python code is
    at, and return the decoded value with the text that remains. *)

Definition is_ws (c : N) : bool :=
  (c =? 32) || (c =? 9) || (c =? 10) || (c =? 13).

(** [WHITESPACE.match(s, end).end()] *)
Fixpoint skip_ws (s : text) : text :=
  match s with
  | c :: r => if is_ws c then skip_ws r else s
  | [] => []
  end.

Definition hexval (c : N) : option N :=
  if (48 <=? c) && (c <=? 57) then Some (c - 48)
  else if (97 <=? c) && (c <=? 102) then Some (c - 87)
  else if (65 <=? c) && (c <=? 70) then Some (c - 55)
  else None.

(** [_decode_uXXXX]: the four hexadecimal digits after the [u]. *)
Definition decode_uXXXX (s : text) : outcome N :=
  match s with
  | a :: b :: c :: d :: _ =>
      match hexval a, hexval b, hexval c, hexval d with
      | Some a, Some b, Some c, Some d => Ok (((a * 16 + b) * 16 + c) * 16 + d)
      | _, _, _, _ => Raise (JSONDecodeError "Invalid \uXXXX escape")
      end
  | _ => Raise (JSONDecodeError "Invalid \uXXXX escape")
  end.

(** The [BACKSLASH] table. *)
Definition BACKSLASH (esc : N) : option N :=
  if esc =? 34 then Some 34
  else if esc =? 92 then Some 92
  else if esc =? 47 then Some 47
  else if esc =? 98 then Some 8
  else if esc =? 102 then Some 12
  else if esc =? 110 then Some 10
  else if esc =? 114 then Some 13
  else if esc =? 116 then Some 9
  else None.

Definition starts_with (p s : text) : bool :=
  bool_decide (take (length p) s = p).

Definition is_high_surrogate (c : N) : bool := (55296 <=? c) && (c <=? 56319).
Definition is_low_surrogate (c : N) : bool := (56320 <=? c) && (c <=? 57343).

Definition join_surrogates (uni uni2 : N) : N :=
  65536 + N.lor (N.shiftl (uni - 55296) 10) (uni2 - 56320).

(** Appending one decoded character to what the rest of the scan gives. *)
Definition cons_char (c : N) (m : outcome (text * text)) : outcome (text * text) :=
  '(str, rest) ← m; Ok (c :: str, rest).

(** [py_scanstring(s, end)] with [strict=True]; [s] starts after the
    opening quote. *)
Fixpoint py_scanstring (fuel : nat) (s : text) : outcome (text * text) :=
  match fuel with
  | O => OutOfFuel
  | S fuel =>
    match s with
    | [] => Raise (JSONDecodeError "Unterminated string starting at")
    | c :: r =>
      if c =? 34 then Ok ([], r)
      else if c =? 92 then
        match r with
        | [] => Raise (JSONDecodeError "Unterminated string starting at")
        | esc :: r1 =>
          if esc =? 117 then
            uni ← decode_uXXXX r1;
            let r2 := drop 4 r1 in
            if is_high_surrogate uni && starts_with [92; 117] r2 then
              uni2 ← decode_uXXXX (drop 2 r2);
              if is_low_surrogate uni2 then
                cons_char (join_surrogates uni uni2) (py_scanstring fuel (drop 6 r2))
              else cons_char uni (py_scanstring fuel r2)
            else cons_char uni (py_scanstring fuel r2)
          else
            match BACKSLASH esc with
            | Some char => cons_char char (py_scanstring fuel r1)
            | None => Raise (JSONDecodeError "Invalid \\escape")
            end
        end
      else if c <? 32 then Raise (JSONDecodeError "Invalid control character at")
      else cons_char c (py_scanstring fuel r)
    end
  end.

Definition scanstring (s : text) : outcome (text * text) :=
  py_scanstring (S (length s)) s.

(** [dict(pairs)]: a later pair with a key already present replaces the
    value and keeps the key's place. *)
Fixpoint dict_set (k : text) (v : json) (d : list (text * json)) : list (text * json) :=
  match d with
  | [] => [(k, v)]
  | (k', v') :: d' =>
      if decide (k = k') then (k, v) :: d' else (k', v') :: dict_set k v d'
  end.

Definition dict (pairs : list (text * json)) : list (text * json) :=
  fold_left (fun d kv => dict_set (fst kv) (snd kv) d) pairs [].

Section Containers.

(** [JSONObject] and [JSONArray] receive the scanner as an argument, as
    in the Python code. *)
Variable scan_once : text -> outcome (json * text).

(** The [while True] loop of [JSONObject]; [s] starts after the opening
    quote of a key. *)
Fixpoint object_loop (fuel : nat) (s : text) (pairs : list (text * json))
  : outcome (json * text) :=
  match fuel with
  | O => OutOfFuel
  | S fuel =>
    '(key, s) ← scanstring s;
    match skip_ws s with
    | [] => Raise (JSONDecodeError "Expecting ':' delimiter")
    | c :: s =>
      if negb (c =? 58) then Raise (JSONDecodeError "Expecting ':' delimiter")
      else
        '(value, s) ← scan_once (skip_ws s);
        let pairs := pairs ++ [(key, value)] in
        match skip_ws s with
        | [] => Raise (JSONDecodeError "Expecting ',' delimiter")
        | nextchar :: s =>
          if nextchar =? 125 then Ok (JObj (dict pairs), s)
          else if negb (nextchar =? 44) then
            Raise (JSONDecodeError "Expecting ',' delimiter")
          else
            match skip_ws s with
            | [] => Raise (JSONDecodeError
                      "Expecting property name enclosed in double quotes")
            | nextchar :: s =>
              if negb (nextchar =? 34) then
                Raise (JSONDecodeError
                  "Expecting property name enclosed in double quotes")
              else object_loop fuel s pairs
            end
        end
    end
  end.

Definition JSONObject (s : text) : outcome (json * text) :=
  match skip_ws s with
  | [] => Raise (JSONDecodeError
            "Expecting property name enclosed in double quotes")
  | nextchar :: s =>
    if nextchar =? 125 then Ok (JObj [], s)
    else if negb (nextchar =? 34) then
      Raise (JSONDecodeError "Expecting property name enclosed in double quotes")
    else object_loop (S (length s)) s []
  end.

(** The [while True] loop of [JSONArray]; [s] starts at a value. *)
Fixpoint array_loop (fuel : nat) (s : text) (values : list json)
  : outcome (json * text) :=
  match fuel with
  | O => OutOfFuel
  | S fuel =>
    '(value, s) ← scan_once s;
    let values := values ++ [value] in
    match skip_ws s with
    | [] => Raise (JSONDecodeError "Expecting ',' delimiter")
    | nextchar :: s =>
      if nextchar =? 93 then Ok (JArr values, s)
      else if negb (nextchar =? 44) then
        Raise (JSONDecodeError "Expecting ',' delimiter")
      else array_loop fuel (skip_ws s) values
    end
  end.

Definition JSONArray (s : text) : outcome (json * text) :=
  let s := skip_ws s in
  match s with
  | [] => Raise (JSONDecodeError "Expecting value")
  | nextchar :: s' =>
    if nextchar =? 93 then Ok (JArr [], s')
    else array_loop (S (length s)) s []
  end.

End Containers.

(** [NUMBER_RE.match(string, idx) is not None]: an optional minus sign
    and a digit. *)
Definition is_digit (c : N) : bool := (48 <=? c) && (c <=? 57).

Definition match_number (s : text) : bool :=
  match s with
  | 45 :: d :: _ => is_digit d
  | d :: _ => is_digit d
  | [] => false
  end.

(** [_scan_once(string, idx)]; [StopIteration] is what every caller turns
    into the decode error "Expecting value". *)
Fixpoint scan_once (fuel : nat) (s : text) : outcome (json * text) :=
  match fuel with
  | O => OutOfFuel
  | S fuel =>
    match s with
    | [] => Raise (JSONDecodeError "Expecting value")
    | nextchar :: r =>
      if nextchar =? 34 then
        '(str, rest) ← scanstring r; Ok (JStr str, rest)
      else if nextchar =? 123 then JSONObject (scan_once fuel) r
      else if nextchar =? 91 then JSONArray (scan_once fuel) r
      else if starts_with (lit "null") s then Ok (JNull, drop 4 s)
      else if starts_with (lit "true") s then Ok (JBool true, drop 4 s)
      else if starts_with (lit "false") s then Ok (JBool false, drop 5 s)
      else if match_number s then Unmodelled
      else if starts_with (lit "NaN") s then Unmodelled
      else if starts_with (lit "Infinity") s then Unmodelled
      else if starts_with (lit "-Infinity") s then Unmodelled
      else Raise (JSONDecodeError "Expecting value")
    end
  end.

(** [JSONDecoder.decode], with the byte-order-mark check of [json.loads]. *)
Definition loads (s : text) : outcome json :=
  if starts_with [65279] s then Raise (JSONDecodeError "Unexpected UTF-8 BOM")
  else
    '(obj, rest) ← scan_once (S (length s)) (skip_ws s);
    match skip_ws rest with
    | [] => Ok obj
    | _ => Raise (JSONDecodeError "Extra data")
    end.

(** *** Well-formed values *)

(** What every Python value of the fragment satisfies: the code points of
    a [str] are below [0x110000] and the keys of a [dict] are pairwise
    distinct. *)
Definition is_str (s : text) : bool := forallb (fun c => c <? 1114112) s.

Fixpoint well_formed (v : json) : bool :=
  match v with
  | JNull | JBool _ => true
  | JStr s => is_str s
  | JArr items => forallb well_formed items
  | JObj items =>
      forallb (fun kv => is_str (fst kv) && well_formed (snd kv)) items
      && bool_decide (NoDup items.*1)
  end.

(** A [str] in which no high surrogate is directly followed by a low
    surrogate; every [str] decoded from UTF-8 is of this kind, as it holds
    no surrogate at all. *)
Fixpoint no_surrogate_pair (s : text) : bool :=
  match s with
  | [] => true
  | c :: r =>
      match r with
      | c' :: _ => negb (is_high_surrogate c && is_low_surrogate c')
      | [] => true
      end && no_surrogate_pair r
  end.

Fixpoint no_surrogate_pairs (v : json) : bool :=
  match v with
  | JNull | JBool _ => true
  | JStr s => no_surrogate_pair s
  | JArr items => forallb no_surrogate_pairs items
  | JObj items => forallb (fun kv => no_surrogate_pair (fst kv) && no_surrogate_pairs (snd kv)) items
  end.

(** After a lone high surrogate the scanner looks ahead: if another
    [\u] escape follows, it must not be a low surrogate. *)
Definition peek_ok (t : text) : Prop :=
  starts_with [92; 117] t = true ->
  exists uni2, decode_uXXXX (drop 2 t) = Ok uni2 /\ is_low_surrogate uni2 = false.

(** [scan] decodes the text of [v] in front of any other text. *)
Definition decodes (scan : text -> outcome (json * text)) (v : json) : Prop :=
  forall rest, scan (dumps v ++ rest) = Ok (v, rest).

(** The number of values in a value; the decoder's recursion is no deeper. *)
Fixpoint size (v : json) : nat :=
  match v with
  | JNull | JBool _ | JStr _ => 1
  | JArr items => S (list_sum (map size items))
  | JObj items => S (list_sum (map (fun kv => size (snd kv)) items))
  end.

End Json.

Import Json.

(** ** Configuration persistence (lines 42-55) *)

(** The file store maps a path to the text a text-mode read of the file
    returns.  Opening a missing path for reading raises
    [FileNotFoundError]; opening for writing creates or truncates. *)
Definition CONFIG_PATH : string := "agent_task_config.json".

Definition open_r (fs : gmap string text) (path : string) : outcome text :=
  match fs !! path with
  | Some f => Ok f
  | None => Raise FileNotFoundError
  end.

Definition load_config (fs : gmap string text) : outcome json :=
  try_except
    (f ← open_r fs CONFIG_PATH; loads f)
    (fun e => match e with
              | FileNotFoundError => Some (Ok (JObj []))
              | _ => None
              end).

Definition save_config (config : json) (fs : gmap string text) : gmap string text :=
  <[CONFIG_PATH := dumps config]> fs.

(** ** Runs of the page script *)

(** What the crew library is given.  The temperature is the slider's
    value, carried as a rational. *)
Record Agent := {
  role : json; goal : json; backstory : json;
  allow_delegation : bool; verbose : bool; temperature : Q }.

Record Task := { description : json; agent : Agent }.

Record Crew := { agents : list Agent; tasks : list Task; crew_verbose : bool }.

(** The pieces of a formatted message: literal text, a [str] value,
    [str(e)] of an exception, a status code and [traceback.format_exc()]. *)
Inductive piece :=
| Lit (s : string)
| Val (t : text)
| Str (e : exn)
| Code (n : N)
| FormatExc (e : exn).

(** What a run does that is visible outside the script, in order. *)
Inductive event :=
| StError (msg : list piece)
| StSuccess (msg : list piece)
| StMarkdown (body : text)
| KeyVaultGetSecret (vault_url name : text)
| RequestsPost (url api_key : text)
| NewAgent (a : Agent)
| NewTask (t : Task)
| NewCrew (c : Crew)
| Kickoff (c : Crew).

(** A run yields the events it caused and how it ended. *)
Definition run (A : Type) : Type := list event * outcome A.

Definition ret {A} (a : A) : run A := ([], Ok a).
Definition raise {A} (e : exn) : run A := ([], Raise e).
Definition emit (ev : event) : run unit := ([ev], Ok tt).
Definition pure {A} (o : outcome A) : run A := ([], o).

Definition rbind {A B} (m : run A) (f : A -> run B) : run B :=
  match m with
  | (t, Ok a) => let (t', r) := f a in (t ++ t', r)
  | (t, Raise e) => (t, Raise e)
  | (t, Unmodelled) => (t, Unmodelled)
  | (t, OutOfFuel) => (t, OutOfFuel)
  end.

#[global] Instance run_bind : MBind run := fun A B f m => rbind m f.

(** [try: body except ...] for runs; the events of the body stay. *)
Definition try_run {A} (body : run A) (handler : exn -> option (run A)) : run A :=
  match body with
  | (t, Raise e) =>
      match handler e with
      | Some k => let (t', r) := k in (t ++ t', r)
      | None => (t, Raise e)
      end
  | r => r
  end.

Definition st_error (msg : list piece) : run unit := emit (StError msg).
Definition st_success (msg : list piece) : run unit := emit (StSuccess msg).
Definition st_markdown (body : text) : run unit := emit (StMarkdown body).
Definition st_stop {A} : run A := raise StopException.

(** The services the script calls.  A service answers or fails; a
    failure is an exception of the [Exception] family. *)
Inductive failure :=
| RequestFailure (msg : text)
| Failure (msg : text).

Definition exn_of (f : failure) : exn :=
  match f with
  | RequestFailure msg => RequestException msg
  | Failure msg => Exception msg
  end.

Definition reply (A : Type) : Type := failure + A.

Definition answer {A} (r : reply A) : outcome A :=
  match r with
  | inl f => Raise (exn_of f)
  | inr a => Ok a
  end.

Record world := {
  (** [SecretClient(vault_url, DefaultAzureCredential()).get_secret(name).value] *)
  key_vault : text -> text -> reply (option text);
  (** [requests.post(url, headers, json)] *)
  post : text -> text -> reply response;
  (** the constructors of the crew library *)
  Agent_init : Agent -> reply unit;
  Task_init : Task -> reply unit;
  Crew_init : Crew -> reply unit;
  (** [crew.kickoff()] *)
  kickoff : Crew -> reply text }.

(** ** Credential resolution (lines 19-40) *)

(** Truth value of an [Optional[str]]. *)
Definition truthy_str (s : option text) : bool :=
  match s with
  | Some (_ :: _) => true
  | _ => false
  end.

Definition get_secret (w : world) (vault_url name : text) : run (option text) :=
  _ ← emit (KeyVaultGetSecret vault_url name);
  pure (answer (key_vault w vault_url name)).

(** [f"https://{key_vault_name}.vault.azure.net/"] *)
Definition key_vault_uri (key_vault_name : text) : text :=
  lit "https://" ++ key_vault_name ++ lit ".vault.azure.net/".

Definition SECRET_NAME : text := lit "AZURE-OPENAI-API-KEY".

Definition get_azure_credentials (w : world) (environ : gmap string text)
  : run (option text) :=
  try_run
    (let azure_api_key := environ !! "AZURE_OPENAI_API_KEY" in
     if truthy_str azure_api_key then ret azure_api_key
     else
       match environ !! "AZURE_KEY_VAULT_NAME" with
       | Some ((_ :: _) as key_vault_name) =>
           azure_api_key ← get_secret w (key_vault_uri key_vault_name) SECRET_NAME;
           ret azure_api_key
       | _ => ret None
       end)
    (fun e =>
       if is_Exception e then
         Some (_ ← st_error [Lit "Error getting Azure credentials: "; Str e];
               ret None)
       else None).

(** ** Initial prompts (lines 108-131) *)

Definition DEFAULT_PROMPTS : json :=
  JObj [
    (lit "planner", JObj [
      (lit "role", JStr (lit "Content Planner"));
      (lit "goal", JStr (lit
        "Plan engaging and factually accurate content on the given topic"));
      (lit "backstory", JStr (lit
        "You're working on planning a research report about a given topic."))]);
    (lit "writer", JObj [
      (lit "role", JStr (lit "Content Writer"));
      (lit "goal", JStr (lit
        "Write insightful and factually accurate research report"));
      (lit "backstory", JStr (lit
        "You're working on writing a new opinion piece about a given topic."))]);
    (lit "editor", JObj [
      (lit "role", JStr (lit "Editor"));
      (lit "goal", JStr (lit "Edit a given blog post"));
      (lit "backstory", JStr (lit
        "You are an editor who receives a research article from the Content Writer."))]);
    (lit "tasks", JObj [
      (lit "plan", JStr (lit "Plan content for the topic"));
      (lit "write", JStr (lit "Write a research article based on the content plan"));
      (lit "edit", JStr (lit "Edit and finalize the research article"))])].

(** Truth value of a decoded JSON value, as [config or ...] tests it. *)
Definition truthy (v : json) : bool :=
  match v with
  | JNull => false
  | JBool b => b
  | JStr s => negb (bool_decide (s = []))
  | JArr l => negb (bool_decide (l = []))
  | JObj l => negb (bool_decide (l = []))
  end.

(** [if 'prompts' not in st.session_state:
       st.session_state['prompts'] = config or {...}] *)
Definition init_prompts (config : json) (session_state : gmap string json)
  : gmap string json :=
  match session_state !! "prompts" with
  | Some _ => session_state
  | None =>
      <["prompts" := if truthy config then config else DEFAULT_PROMPTS]> session_state
  end.

(** [key in d] for a decoded value that is a dict. *)
Definition contains (d : json) (key : text) : bool :=
  match d with
  | JObj items => bool_decide (key ∈ items.*1)
  | _ => false
  end.

(** The four top-level keys of the prompt configuration. *)
Definition has_fixed_keys (prompts : json) : bool :=
  contains prompts (lit "planner") && contains prompts (lit "writer")
  && contains prompts (lit "editor") && contains prompts (lit "tasks").

(** [d[key]]: a missing key raises [KeyError]; a value that is not a
    dict raises [TypeError]. *)
Fixpoint dict_get (items : list (text * json)) (key : text) : option json :=
  match items with
  | [] => None
  | (k, v) :: items' => if decide (key = k) then Some v else dict_get items' key
  end.

Definition getitem (d : json) (key : text) : outcome json :=
  match d with
  | JObj items =>
      match dict_get items key with
      | Some v => Ok v
      | None => Raise (KeyError key)
      end
  | _ => Raise TypeError
  end.

(** [prompts[k1][k2]] *)
Definition getitem2 (prompts : json) (k1 k2 : string) : outcome json :=
  d ← getitem prompts (lit k1); getitem d (lit k2).

(** ** The endpoint settings and the connectivity probe (lines 72-102) *)

Definition getenv (environ : gmap string text) (name : string) (dflt : text) : text :=
  default dflt (environ !! name).

Definition azure_endpoint (environ : gmap string text) : text :=
  getenv environ "AZURE_OPENAI_ENDPOINT" (lit "https://rstapestryopenai2.openai.azure.com/").
Definition azure_deployment (environ : gmap string text) : text :=
  getenv environ "AZURE_OPENAI_DEPLOYMENT" (lit "gpt-4").
Definition azure_api_version (environ : gmap string text) : text :=
  getenv environ "AZURE_OPENAI_API_VERSION" (lit "2024-02-15-preview").

(** [response.raise_for_status()] *)
Definition raise_for_status (r : response) : outcome unit :=
  if (400 <=? status_code r) && (status_code r <? 600) then Raise (HTTPError r)
  else Ok tt.

(** The request carries one system message and [max_tokens = 5]; the
    event records where it goes and with which key. *)
Definition requests_post (w : world) (url api_key : text) : run response :=
  _ ← emit (RequestsPost url api_key);
  pure (answer (post w url api_key)).

(** The address of the probe: the chat-completions path of the deployment. *)
Definition probe_url (environ : gmap string text) : text :=
  azure_endpoint environ ++ lit "openai/deployments/"
    ++ azure_deployment environ ++ lit "/chat/completions?api-version="
    ++ azure_api_version environ.

(** The assignments to the attributes of the [openai] module are not
    visible outside the process and leave no event. *)
Definition setup_azure_openai (w : world) (environ : gmap string text)
    (azure_api_key : text) : run bool :=
  try_run
    (r ← requests_post w (probe_url environ) azure_api_key;
     _ ← pure (raise_for_status r);
     ret true)
    (fun e =>
       if is_Exception e then
         Some (_ ← st_error [Lit "Azure OpenAI Setup Error: "; Str e];
               ret false)
       else None).

(** ** The generate action (lines 162-251) *)

(** An uploaded file, given by what [read().decode('utf-8')] makes of its
    bytes: the text, or nothing when the bytes are not UTF-8. *)
Record UploadedFile := { decoded : option text }.

Definition read_decode (f : UploadedFile) : outcome text :=
  match decoded f with
  | Some t => Ok t
  | None => Raise UnicodeDecodeError
  end.

(** The text an f-string puts for a value.  The text of a list or dict is
    Python's [repr], which is not modelled. *)
Definition format_value (v : json) : outcome text :=
  match v with
  | JStr s => Ok s
  | JNull => Ok (lit "None")
  | JBool true => Ok (lit "True")
  | JBool false => Ok (lit "False")
  | JArr _ | JObj _ => Unmodelled
  end.

Definition new_Agent (w : world) (a : Agent) : run Agent :=
  _ ← emit (NewAgent a); _ ← pure (answer (Agent_init w a)); ret a.

Definition new_Task (w : world) (t : Task) : run Task :=
  _ ← emit (NewTask t); _ ← pure (answer (Task_init w t)); ret t.

Definition new_Crew (w : world) (c : Crew) : run Crew :=
  _ ← emit (NewCrew c); _ ← pure (answer (Crew_init w c)); ret c.

Definition crew_kickoff (w : world) (c : Crew) : run text :=
  _ ← emit (Kickoff c); pure (answer (kickoff w c)).

(** [Agent(role=prompts[who]['role'], goal=..., backstory=...,
          allow_delegation=False, verbose=True, temperature=temperature)] *)
Definition make_agent (w : world) (prompts : json) (who : string) (temp : Q)
  : run Agent :=
  r ← pure (getitem2 prompts who "role");
  g ← pure (getitem2 prompts who "goal");
  b ← pure (getitem2 prompts who "backstory");
  new_Agent w {| role := r; goal := g; backstory := b;
                 allow_delegation := false; verbose := true; temperature := temp |}.

(** The [description] arguments of the three tasks (lines 210, 215, 220). *)
Definition plan_description (prompts : json) (transcripts : text) : outcome json :=
  d ← getitem2 prompts "tasks" "plan";
  s ← format_value d;
  Ok (JStr (s ++ lit ": " ++ transcripts)).

Definition write_description (prompts : json) : outcome json :=
  getitem2 prompts "tasks" "write".

Definition edit_description (prompts : json) : outcome json :=
  getitem2 prompts "tasks" "edit".

(** Lines 181-237: the body of the inner [try]. *)
Definition pipeline (w : world) (prompts : json) (temp : Q) (transcripts : text)
  : run unit :=
  planner ← make_agent w prompts "planner" temp;
  writer ← make_agent w prompts "writer" temp;
  editor ← make_agent w prompts "editor" temp;
  d ← pure (plan_description prompts transcripts);
  plan ← new_Task w {| description := d; agent := planner |};
  d ← pure (write_description prompts);
  write ← new_Task w {| description := d; agent := writer |};
  d ← pure (edit_description prompts);
  edit ← new_Task w {| description := d; agent := editor |};
  crew ← new_Crew w {| agents := [planner; writer; editor];
                       tasks := [plan; write; edit];
                       crew_verbose := true |};
  result ← crew_kickoff w crew;
  _ ← st_success [Lit "Research article generated successfully!"];
  st_markdown result.

Definition generate (w : world) (environ : gmap string text)
    (uploaded_file : option UploadedFile) (azure_api_key : text)
    (prompts : json) (temp : Q) : run unit :=
  match uploaded_file with
  | None => st_error [Lit "Please upload a transcript file."]
  | Some f =>
    if negb (truthy_str (Some azure_api_key)) then
      st_error [Lit "Please enter your Azure OpenAI API Key."]
    else
      transcripts ← pure (read_decode f);
      try_run
        (ok ← setup_azure_openai w environ azure_api_key;
         _ ← (if negb ok then
                _ ← st_error [Lit
                  "Failed to setup Azure OpenAI connection. Please check your credentials."];
                st_stop
              else ret tt);
         _ ← st_success [Lit "API connection successful!"];
         try_run
           (pipeline w prompts temp transcripts)
           (fun agent_error =>
              if is_Exception agent_error then
                Some (_ ← st_error [Lit "Error in agent/task setup: "; Str agent_error];
                      st_error [Lit "Detailed error: "; FormatExc agent_error])
              else None))
        (fun e =>
           if is_RequestException e then
             Some (_ ← st_error [Lit "API Error occurred:"];
                   _ ← st_error [Lit "Error details: "; Str e];
                   match e with
                   | HTTPError r =>
                       _ ← st_error [Lit "Response Status Code: "; Code (status_code r)];
                       st_error [Lit "Response Content: "; Val (body r)]
                   | _ => raise AttributeError
                   end)
           else if is_Exception e then
             Some (_ ← st_error [Lit "An unexpected error occurred: "; Str e];
                   st_error [Lit "Traceback: "; FormatExc e])
           else None)
  end.

(** ** Reading a trace *)

Definition is_key_vault_access (ev : event) : bool :=
  match ev with KeyVaultGetSecret _ _ => true | _ => false end.

(** How often a run went to the key vault. *)
Definition vault_attempts (t : list event) : nat :=
  length (List.filter is_key_vault_access t).

(** The connectivity probe. *)
Definition is_probe (ev : event) : bool :=
  match ev with RequestsPost _ _ => true | _ => false end.

(** Building the agents, the tasks and the crew, and running the crew. *)
Definition is_pipeline_event (ev : event) : bool :=
  match ev with
  | NewAgent _ | NewTask _ | NewCrew _ | Kickoff _ => true
  | _ => false
  end.

(** The events that go over the network. *)
Definition is_network_call (ev : event) : bool :=
  match ev with
  | KeyVaultGetSecret _ _ | RequestsPost _ _ | Kickoff _ => true
  | _ => false
  end.

Definition UPLOAD_MISSING : list piece := [Lit "Please upload a transcript file."].
Definition KEY_MISSING : list piece := [Lit "Please enter your Azure OpenAI API Key."].
Definition SETUP_FAILED : list piece :=
  [Lit "Failed to setup Azure OpenAI connection. Please check your credentials."].

(** ** Inputs used in the examples below *)

(** A world in which every service answers, and one in which the key
    vault and the endpoint cannot be reached. *)
Definition world_up : world := {|
  key_vault := fun _ _ => inr (Some (lit "secret-from-vault"));
  post := fun _ _ => inr {| status_code := 200; reason := lit "OK"; body := [] |};
  Agent_init := fun _ => inr tt;
  Task_init := fun _ => inr tt;
  Crew_init := fun _ => inr tt;
  kickoff := fun _ => inr (lit "# Article") |}.

Definition world_down : world := {|
  key_vault := fun _ _ => inl (Failure (lit "vault unreachable"));
  post := fun _ _ => inl (RequestFailure (lit "connection refused"));
  Agent_init := fun _ => inr tt;
  Task_init := fun _ => inr tt;
  Crew_init := fun _ => inr tt;
  kickoff := fun _ => inr (lit "# Article") |}.

(** A configuration that holds the planner's prompts only. *)
Definition partial_config : json :=
  JObj [(lit "planner", JObj [
    (lit "role", JStr (lit "Content Planner"));
    (lit "goal", JStr (lit "Plan content"));
    (lit "backstory", JStr (lit "You plan a report."))])].

Definition transcript_file : UploadedFile := {| decoded := Some (lit "hello") |}.

(** The default prompts with another description of the plan task. *)
Definition prompts_with_plan (plan : text) : json :=
  match DEFAULT_PROMPTS with
  | JObj items =>
      JObj (dict_set (lit "tasks")
              (JObj [(lit "plan", JStr plan);
                     (lit "write", JStr (lit "Write a research article"));
                     (lit "edit", JStr (lit "Edit the research article"))])
              items)
  | v => v
  end.

(** A plan description that is the two surrogate code points U+D83D and
    U+DE00, and the single code point U+1F600 they encode. *)
Definition surrogate_prompts : json := prompts_with_plan [55357; 56832].
Definition joined_prompts : json := prompts_with_plan [128512].

(** A plan description with an accented letter, a code point above the
    basic plane, a line feed, a double quote and a lone high surrogate. *)
Definition unicode_prompts : json := prompts_with_plan [233; 128512; 10; 34; 55357].

(** ** The key typed on the page (lines 67-70) *)

(** The characters [str.strip()] removes: those for which
    [str.isspace()] holds. *)
Definition is_space (c : N) : bool :=
  ((9 <=? c) && (c <=? 13)) || ((28 <=? c) && (c <=? 32))
  || (c =? 133) || (c =? 160) || (c =? 5760)
  || ((8192 <=? c) && (c <=? 8202))
  || (c =? 8232) || (c =? 8233) || (c =? 8239) || (c =? 8287) || (c =? 12288).

Fixpoint lstrip (s : text) : text :=
  match s with
  | c :: r => if is_space c then lstrip r else s
  | [] => []
  end.

Definition rstrip (s : text) : text := reverse (lstrip (reverse s)).

Definition strip (s : text) : text := rstrip (lstrip s).

(** [azure_api_key = get_azure_credentials()
     if not azure_api_key:
         azure_api_key = st.text_input(...)
         azure_api_key = azure_api_key.strip() if azure_api_key else <empty str>];
    [typed] is what the password field returns. *)
Definition resolve_api_key (credential : option text) (typed : text) : text :=
  match credential with
  | Some ((_ :: _) as azure_api_key) => azure_api_key
  | _ => match typed with
         | _ :: _ => strip typed
         | [] => []
         end
  end.

(** ** The prompt fields (lines 133-155) *)

(** [d[key] = v]; only a dict takes an item under a [str] key. *)
Definition setitem (d : json) (key : text) (v : json) : outcome json :=
  match d with
  | JObj items => Ok (JObj (dict_set key v items))
  | _ => Raise TypeError
  end.

(** The [value] a text widget is given.  A [str] is taken as it is; any
    other value is cast by Streamlit, which is not modelled. *)
Definition widget_value (v : json) : outcome text :=
  match v with
  | JStr s => Ok s
  | _ => Unmodelled
  end.

(** [prompts[field] = st.text_input(label, value=prompts[field],
                                    key=f"{agent}_{field}")];
    [ui key value] is the text the widget with that key returns when it
    is given [value]: the value itself until the user edits the field. *)
Definition render_field (ui : text -> text -> text) (agent : text) (field : string)
    (prompts : json) : outcome json :=
  v ← getitem prompts (lit field);
  value ← widget_value v;
  setitem prompts (lit field) (JStr (ui (agent ++ lit "_" ++ lit field) value)).

Definition render_agent (ui : text -> text -> text) (agent : text) (prompts : json)
  : outcome json :=
  prompts ← render_field ui agent "role" prompts;
  prompts ← render_field ui agent "goal" prompts;
  render_field ui agent "backstory" prompts.

(** [for agent, prompts in st.session_state['prompts'].items():
       if agent != "tasks": ...] *)
Fixpoint render_agents (ui : text -> text -> text) (items : list (text * json))
  : outcome (list (text * json)) :=
  match items with
  | [] => Ok []
  | (agent, prompts) :: items' =>
      prompts ← (if bool_decide (agent = lit "tasks") then Ok prompts
                 else render_agent ui agent prompts);
      items' ← render_agents ui items';
      Ok ((agent, prompts) :: items')
  end.

(** [for task, description in st.session_state['prompts']["tasks"].items():
       st.session_state['prompts']["tasks"][task] = st.text_area(...)] *)
Fixpoint render_tasks (ui : text -> text -> text) (items : list (text * json))
  : outcome (list (text * json)) :=
  match items with
  | [] => Ok []
  | (task, description) :: items' =>
      value ← widget_value description;
      items' ← render_tasks ui items';
      Ok ((task, JStr (ui (task ++ lit "_description") value)) :: items')
  end.

(** The two loops.  [.items()] of a value that is not a dict raises
    [AttributeError]. *)
Definition render_prompts (ui : text -> text -> text) (prompts : json) : outcome json :=
  match prompts with
  | JObj items =>
      items ← render_agents ui items;
      tasks ← getitem (JObj items) (lit "tasks");
      match tasks with
      | JObj descriptions =>
          descriptions ← render_tasks ui descriptions;
          Ok (JObj (dict_set (lit "tasks") (JObj descriptions) items))
      | _ => Raise AttributeError
      end
  | _ => Raise AttributeError
  end.

(** ** One run of the page script *)

(** What the user has put on the page. *)
Record inputs := {
  upload : option UploadedFile;
  typed_key : text;
  slider : Q;
  widget : text -> text -> text;
  save_button : bool;
  generate_button : bool }.

(** What lasts from one run to the next. *)
Record state := { files : gmap string text; session_state : gmap string json }.

(** The script from top to bottom.  Titles, headers and the widgets are
    drawn on the page and leave no event; a run that raises leaves its
    state undescribed. *)
Definition page (w : world) (environ : gmap string text) (i : inputs) (st : state)
  : run state :=
  config ← pure (load_config (files st));
  credential ← get_azure_credentials w environ;
  let azure_api_key := resolve_api_key credential (typed_key i) in
  let session := init_prompts config (session_state st) in
  prompts ← pure (match session !! "prompts" with
                  | Some prompts => render_prompts (widget i) prompts
                  | None => Raise (KeyError (lit "prompts"))
                  end);
  let session := <["prompts" := prompts]> session in
  fs ← (if save_button i then
          _ ← st_success [Lit "Configuration saved successfully!"];
          ret (save_config prompts (files st))
        else ret (files st));
  _ ← (if generate_button i then
         generate w environ (upload i) azure_api_key prompts (slider i)
       else ret tt);
  _ ← st_markdown (lit "---");
  _ ← st_markdown (lit "Tapestry Networks");
  ret {| files := fs; session_state := session |}.

(** ** Text read from a file *)

(** Text decoded from UTF-8 holds Unicode scalar values only: code points
    below [0x110000] that are no surrogates. *)
Definition is_scalar (c : N) : bool :=
  (c <? 55296) || ((57343 <? c) && (c <? 1114112)).

Definition is_scalar_text (s : text) : bool := forallb is_scalar s.

(** The characters from the space to the tilde. *)
Definition is_printable_ascii (c : N) : bool := (32 <=? c) && (c <=? 126).

(** ** Predicates on values, prompts and runs *)

(** An outcome that, when it is an exception, is the decode error of the
    [json] module. *)
Definition decode_error_only {A} (o : outcome A) : Prop :=
  forall e, o = Raise e -> exists msg, e = JSONDecodeError msg.

(** The string a scan gives: it is a [str], holds no surrogate pair, and
    a low surrogate at its front was written as a [\u] escape at the front
    of the text. *)
Definition scanned (s str : text) : Prop :=
  is_str str = true /\ no_surrogate_pair str = true /\
  forall c str', str = c :: str' -> is_low_surrogate c = true ->
    starts_with [92; 117] s = true /\ decode_uXXXX (drop 2 s) = Ok c.

(** An entry of a dict that [json.load] returns. *)
Definition member_ok (kv : text * json) : Prop :=
  is_str kv.1 = true /\ no_surrogate_pair kv.1 = true /\
  well_formed kv.2 = true /\ no_surrogate_pairs kv.2 = true.

(** [isinstance(v, str)] *)
Definition is_JStr (v : json) : bool :=
  match v with JStr _ => true | _ => false end.

(** An agent's entry the page can show: a dict whose role, goal and
    backstory are [str]. *)
Definition agent_entry (v : json) : bool :=
  match v with
  | JObj fields =>
      match dict_get fields (lit "role"), dict_get fields (lit "goal"),
            dict_get fields (lit "backstory") with
      | Some (JStr _), Some (JStr _), Some (JStr _) => true
      | _, _, _ => false
      end
  | _ => false
  end.

(** A prompt configuration the page can show. *)
Definition renderable (prompts : json) : bool :=
  match prompts with
  | JObj items =>
      forallb (fun kv => bool_decide (kv.1 = lit "tasks") || agent_entry kv.2) items
      && match dict_get items (lit "tasks") with
         | Some (JObj descriptions) => forallb (fun kv => is_JStr kv.2) descriptions
         | _ => false
         end
  | _ => false
  end.

(** An agent's entry after the loop, by the entry before it. *)
Definition agent_rendered (ui : text -> text -> text) (kv kv' : text * json) : Prop :=
  kv'.1 = kv.1 /\
  if bool_decide (kv.1 = lit "tasks") then kv'.2 = kv.2
  else render_agent ui kv.1 kv.2 = Ok kv'.2.

(** A task's description after the loop, by the description before it. *)
Definition task_rendered (ui : text -> text -> text) (kv kv' : text * json) : Prop :=
  kv'.1 = kv.1 /\
  exists s, kv.2 = JStr s /\ kv'.2 = JStr (ui (kv.1 ++ lit "_description") s).

(** The arguments of the [Agent] constructor (lines 181-206). *)
Definition agent_of (prompts : json) (who : string) (temp : Q) : outcome Agent :=
  r ← getitem2 prompts who "role";
  g ← getitem2 prompts who "goal";
  b ← getitem2 prompts who "backstory";
  Ok {| role := r; goal := g; backstory := b;
        allow_delegation := false; verbose := true; temperature := temp |}.

(** The messages of the two outer [except] clauses (lines 243-251). *)
Definition is_outer_report (ev : event) : bool :=
  match ev with
  | StError (Lit s :: _) =>
      bool_decide (s ∈ ["API Error occurred:"; "Error details: ";
                        "Response Status Code: "; "Response Content: ";
                        "An unexpected error occurred: "; "Traceback: "]%string)
  | _ => false
  end.

(** The messages of lines 177, 236, 240 and 241. *)
Definition API_OK : list piece := [Lit "API connection successful!"].
Definition ARTICLE_OK : list piece := [Lit "Research article generated successfully!"].

(** A run that ends normally, is not modelled, or raises an exception of
    the [Exception] family. *)
Definition catchable {A} (r : run A) : Prop :=
  match r.2 with
  | Raise e => is_Exception e = true
  | OutOfFuel => False
  | _ => True
  end.

Definition AGENT_ERROR (e : exn) : list event :=
  [StError [Lit "Error in agent/task setup: "; Str e];
   StError [Lit "Detailed error: "; FormatExc e]].

(** The crew the pipeline builds (lines 209-229). *)
Definition crew_of (planner writer editor : Agent) (d1 d2 d3 : json) : Crew :=
  {| agents := [planner; writer; editor];
     tasks := [{| description := d1; agent := planner |};
               {| description := d2; agent := writer |};
               {| description := d3; agent := editor |}];
     crew_verbose := true |}.

(** A value [json.dump] writes and [json.load] reads back as it is. *)
Definition storable (v : json) : Prop :=
  well_formed v = true /\ no_surrogate_pairs v = true.

Definition storable_text (s : text) : Prop :=
  is_str s = true /\ no_surrogate_pair s = true.

(** The widgets return text that can be stored when they are given such
    text. *)
Definition widget_ok (ui : text -> text -> text) : Prop :=
  forall key value, storable_text value -> storable_text (ui key value).

(** The configuration file holds decoded Unicode text and the prompts of
    the session can be stored. *)
Definition state_ok (st : state) : Prop :=
  (forall f, files st !! CONFIG_PATH = Some f -> is_scalar_text f = true) /\
  (forall prompts, session_state st !! "prompts" = Some prompts -> storable prompts).

(** The [key] arguments of the widgets of the two loops (lines 141, 144,
    147 and 154), in the order of the loops. *)
Definition agent_keys (items : list (text * json)) : list text :=
  flat_map (fun kv : text * json =>
              if bool_decide (kv.1 = lit "tasks") then []
              else [kv.1 ++ lit "_" ++ lit "role"; kv.1 ++ lit "_" ++ lit "goal";
                    kv.1 ++ lit "_" ++ lit "backstory"]) items.

Definition task_keys (items : list (text * json)) : list text :=
  map (fun kv : text * json => kv.1 ++ lit "_description") items.

Definition widget_keys (prompts : json) : list text :=
  match prompts with
  | JObj items =>
      agent_keys items
      ++ match dict_get items (lit "tasks") with
         | Some (JObj descriptions) => task_keys descriptions
         | _ => []
         end
  | _ => []
  end.

(** The four endings of a widget key. *)
Definition is_suffix (s : text) : Prop :=
  s ∈ [lit "_" ++ lit "role"; lit "_" ++ lit "goal"; lit "_" ++ lit "backstory";
       lit "_description"].

(** * Properties *)

(** ** The JSON codec: decoding what was encoded *)

(** *** Escapes of one character *)

Lemma hexval_hexdigit d : d < 16 -> hexval (hexdigit d) = Some d.
Proof.
  intros Hd.
  assert (H16 : d = 0 \/ d = 1 \/ d = 2 \/ d = 3 \/ d = 4 \/ d = 5 \/ d = 6 \/ d = 7 \/
                d = 8 \/ d = 9 \/ d = 10 \/ d = 11 \/ d = 12 \/ d = 13 \/ d = 14 \/ d = 15)
    by lia.
  repeat (destruct H16 as [-> | H16]; [reflexivity |]).
  subst d. reflexivity.
Qed.

Lemma hex4_value n :
  n < 65536 ->
  ((n / 4096 * 16 + n / 256 mod 16) * 16 + n / 16 mod 16) * 16 + n mod 16 = n.
Proof.
  intros Hn.
  pose proof (N.div_mod n 16 ltac:(lia)).
  pose proof (N.div_mod (n / 16) 16 ltac:(lia)).
  pose proof (N.div_mod (n / 256) 16 ltac:(lia)).
  assert (n / 16 / 16 = n / 256) as E1 by (rewrite N.Div0.div_div; reflexivity).
  assert (n / 256 / 16 = n / 4096) as E2 by (rewrite N.Div0.div_div; reflexivity).
  assert (n / 4096 < 16) by (apply N.Div0.div_lt_upper_bound; lia).
  lia.
Qed.

Lemma decode_hex4 n t : n < 65536 -> decode_uXXXX (hex4 n ++ t) = Ok n.
Proof.
  intros Hn. unfold hex4, decode_uXXXX. cbn [app].
  rewrite !hexval_hexdigit.
  - f_equal. by apply hex4_value.
  - apply N.mod_lt; lia.
  - apply N.mod_lt; lia.
  - apply N.mod_lt; lia.
  - apply N.Div0.div_lt_upper_bound; lia.
Qed.

Lemma lor_mul_pow2 a b k : b < 2 ^ k -> N.lor (a * 2 ^ k) b = a * 2 ^ k + b.
Proof.
  intros Hb.
  assert (N.land (a * 2 ^ k) b = 0) as Hland.
  { apply N.bits_inj. intros m. rewrite N.land_spec, N.bits_0.
    destruct (N.lt_ge_cases m k) as [Hm | Hm].
    - by rewrite N.mul_pow2_bits_low.
    - destruct (N.eq_dec b 0) as [-> | Hb0].
      + by rewrite N.bits_0, andb_false_r.
      + rewrite (N.bits_above_log2 b m), andb_false_r; [done |].
        apply N.lt_le_trans with k; [| done].
        apply N.log2_lt_pow2; lia. }
  rewrite <- N.lxor_lor by done. symmetry. by apply N.add_nocarry_lxor.
Qed.

Lemma pair_s1_value n : pair_s1 n = 55296 + n / 1024 mod 1024.
Proof.
  unfold pair_s1.
  change 1023 with (N.ones 10). rewrite N.land_ones, N.shiftr_div_pow2.
  change 55296 with (54 * 2 ^ 10). rewrite lor_mul_pow2; [done |].
  apply N.mod_lt. done.
Qed.

Lemma pair_s2_value n : pair_s2 n = 56320 + n mod 1024.
Proof.
  unfold pair_s2.
  change 1023 with (N.ones 10). rewrite N.land_ones.
  change 56320 with (55 * 2 ^ 10). rewrite lor_mul_pow2; [done |].
  apply N.mod_lt. done.
Qed.

Lemma join_pair n :
  n < 1048576 -> join_surrogates (pair_s1 n) (pair_s2 n) = 65536 + n.
Proof.
  intros Hn. unfold join_surrogates.
  rewrite pair_s1_value, pair_s2_value.
  rewrite (N.add_comm 55296), (N.add_comm 56320), !N.add_sub.
  rewrite N.shiftl_mul_pow2, lor_mul_pow2 by (by apply N.mod_lt).
  assert (n / 1024 < 1024) by (apply N.Div0.div_lt_upper_bound; lia).
  rewrite (N.mod_small (n / 1024)) by done.
  pose proof (N.div_mod n 1024 ltac:(done)).
  change (2 ^ 10) with 1024. lia.
Qed.

Lemma pair_s1_high n : is_high_surrogate (pair_s1 n) = true.
Proof.
  rewrite pair_s1_value. pose proof (N.mod_lt (n / 1024) 1024 ltac:(done)).
  generalize dependent (n / 1024 mod 1024). intros m Hm.
  unfold is_high_surrogate. apply andb_true_iff. split; apply N.leb_le; lia.
Qed.

Lemma pair_s2_low n : is_low_surrogate (pair_s2 n) = true.
Proof.
  rewrite pair_s2_value. pose proof (N.mod_lt n 1024 ltac:(done)).
  generalize dependent (n mod 1024). intros m Hm.
  unfold is_low_surrogate. apply andb_true_iff. split; apply N.leb_le; lia.
Qed.

Lemma high_not_low c : is_high_surrogate c = true -> is_low_surrogate c = false.
Proof.
  unfold is_high_surrogate, is_low_surrogate. intros [_ H]%andb_true_iff.
  apply N.leb_le in H. apply andb_false_iff. left. apply N.leb_gt. lia.
Qed.

Lemma py_scanstring_eq fuel s :
  py_scanstring (S fuel) s =
    match s with
    | [] => Raise (JSONDecodeError "Unterminated string starting at")
    | c :: r =>
      if c =? 34 then Ok ([], r)
      else if c =? 92 then
        match r with
        | [] => Raise (JSONDecodeError "Unterminated string starting at")
        | esc :: r1 =>
          if esc =? 117 then
            uni ← decode_uXXXX r1;
            let r2 := drop 4 r1 in
            if is_high_surrogate uni && starts_with [92; 117] r2 then
              uni2 ← decode_uXXXX (drop 2 r2);
              if is_low_surrogate uni2 then
                cons_char (join_surrogates uni uni2) (py_scanstring fuel (drop 6 r2))
              else cons_char uni (py_scanstring fuel r2)
            else cons_char uni (py_scanstring fuel r2)
          else
            match BACKSLASH esc with
            | Some char => cons_char char (py_scanstring fuel r1)
            | None => Raise (JSONDecodeError "Invalid \\escape")
            end
        end
      else if c <? 32 then Raise (JSONDecodeError "Invalid control character at")
      else cons_char c (py_scanstring fuel r)
    end.
Proof. reflexivity. Qed.

Lemma hex4_drop n t : drop 4 (hex4 n ++ t) = t.
Proof. reflexivity. Qed.

Lemma scan_u_escape fuel uni t :
  uni < 65536 ->
  (is_high_surrogate uni = true -> peek_ok t) ->
  py_scanstring (S fuel) (u_escape uni ++ t) = cons_char uni (py_scanstring fuel t).
Proof.
  intros Huni Hpeek. rewrite py_scanstring_eq. unfold u_escape.
  cbn [app N.eqb Pos.eqb]. rewrite decode_hex4 by done. cbn [mbind outcome_bind obind].
  rewrite hex4_drop.
  destruct (is_high_surrogate uni) eqn:Hhigh; [| reflexivity].
  destruct (starts_with [92; 117] t) eqn:Hstart; [| reflexivity].
  destruct (Hpeek eq_refl Hstart) as (uni2 & Hdec & Hlow).
  cbn [andb]. rewrite Hdec. cbn [mbind outcome_bind obind]. by rewrite Hlow.
Qed.

Lemma scan_u_pair fuel n t :
  n < 1048576 ->
  py_scanstring (S fuel) (u_escape (pair_s1 n) ++ u_escape (pair_s2 n) ++ t)
  = cons_char (65536 + n) (py_scanstring fuel t).
Proof.
  intros Hn. rewrite py_scanstring_eq. unfold u_escape at 1.
  cbn [app N.eqb Pos.eqb]. rewrite decode_hex4; cycle 1.
  { rewrite pair_s1_value. pose proof (N.mod_lt (n / 1024) 1024 ltac:(done)).
    generalize dependent (n / 1024 mod 1024). intros; lia. }
  cbn [mbind outcome_bind obind]. rewrite hex4_drop, pair_s1_high.
  unfold u_escape. cbn [app].
  replace (starts_with [92; 117] (92 :: 117 :: hex4 (pair_s2 n) ++ t)) with true by reflexivity.
  cbn [andb skipn]. rewrite drop_0, decode_hex4; cycle 1.
  { rewrite pair_s2_value. pose proof (N.mod_lt n 1024 ltac:(done)).
    generalize dependent (n mod 1024). intros; lia. }
  cbn [mbind outcome_bind obind]. rewrite pair_s2_low, join_pair by done.
  reflexivity.
Qed.

Lemma scan_replace fuel c t :
  c < 1114112 ->
  (is_high_surrogate c = true -> peek_ok t) ->
  py_scanstring (S fuel) (replace c ++ t) = cons_char c (py_scanstring fuel t).
Proof.
  intros Hc Hpeek. unfold replace.
  destruct (N.eqb_spec c 92) as [-> | H92]; [reflexivity |].
  destruct (N.eqb_spec c 34) as [-> | H34]; [reflexivity |].
  destruct (N.leb_spec 32 c) as [H32 | H32]; cbn [andb].
  - destruct (N.leb_spec c 126) as [H126 | H126].
    + rewrite py_scanstring_eq. cbn [app].
      rewrite (proj2 (N.eqb_neq c 34)), (proj2 (N.eqb_neq c 92)) by done.
      by rewrite (proj2 (N.ltb_ge c 32)).
    + destruct (N.eqb_spec c 8); [lia |]. destruct (N.eqb_spec c 12); [lia |].
      destruct (N.eqb_spec c 10); [lia |]. destruct (N.eqb_spec c 13); [lia |].
      destruct (N.eqb_spec c 9); [lia |].
      destruct (N.ltb_spec c 65536) as [Hbmp | Hbmp].
      * by apply scan_u_escape.
      * rewrite <- app_assoc, scan_u_pair by lia.
        replace (65536 + (c - 65536)) with c by lia. reflexivity.
  - destruct (N.eqb_spec c 8) as [-> | ?]; [reflexivity |].
    destruct (N.eqb_spec c 12) as [-> | ?]; [reflexivity |].
    destruct (N.eqb_spec c 10) as [-> | ?]; [reflexivity |].
    destruct (N.eqb_spec c 13) as [-> | ?]; [reflexivity |].
    destruct (N.eqb_spec c 9) as [-> | ?]; [reflexivity |].
    destruct (N.ltb_spec c 65536) as [Hbmp | Hbmp]; [| lia].
    by apply scan_u_escape.
Qed.

(** *** Strings *)

Lemma starts_with_true p s : starts_with p s = true -> take (length p) s = p.
Proof. unfold starts_with. apply bool_decide_eq_true. Qed.

Lemma peek_replace c t :
  c < 1114112 -> is_low_surrogate c = false -> peek_ok (replace c ++ t).
Proof.
  intros Hc Hlow Hstart%starts_with_true. revert Hstart. unfold replace.
  destruct (N.eqb_spec c 92) as [-> | H92]; [discriminate |].
  destruct (N.eqb_spec c 34) as [-> | H34]; [discriminate |].
  destruct ((32 <=? c) && (c <=? 126)).
  { cbn. intros [= -> _]. done. }
  destruct (N.eqb_spec c 8) as [-> | ?]; [discriminate |].
  destruct (N.eqb_spec c 12) as [-> | ?]; [discriminate |].
  destruct (N.eqb_spec c 10) as [-> | ?]; [discriminate |].
  destruct (N.eqb_spec c 13) as [-> | ?]; [discriminate |].
  destruct (N.eqb_spec c 9) as [-> | ?]; [discriminate |].
  intros _. destruct (N.ltb_spec c 65536) as [Hbmp | Hbmp].
  - exists c. split; [| done]. unfold u_escape. cbn [app skipn].
    by apply decode_hex4.
  - exists (pair_s1 (c - 65536)). split.
    + unfold u_escape at 1. cbn [app skipn]. rewrite <- app_assoc. apply decode_hex4.
      rewrite pair_s1_value.
      pose proof (N.mod_lt ((c - 65536) / 1024) 1024 ltac:(done)).
      generalize dependent ((c - 65536) / 1024 mod 1024). intros; lia.
    + apply high_not_low, pair_s1_high.
Qed.

Lemma peek_escape s rest :
  is_str s = true ->
  match s with c :: _ => is_low_surrogate c = false | [] => True end ->
  peek_ok (escape s ++ 34 :: rest).
Proof.
  destruct s as [| c s']; intros Hstr Hhead.
  - intros Hstart%starts_with_true. discriminate.
  - unfold escape. cbn [map concat]. rewrite <- app_assoc.
    apply andb_true_iff in Hstr as [Hc%N.ltb_lt _]. by apply peek_replace.
Qed.

Lemma scan_escape s : forall fuel rest,
  is_str s = true -> no_surrogate_pair s = true -> (length s < fuel)%nat ->
  py_scanstring fuel (escape s ++ 34 :: rest) = Ok (s, rest).
Proof.
  induction s as [| c s' IH]; intros fuel rest Hstr Hfree Hfuel.
  - destruct fuel as [| fuel]; [cbn in Hfuel; lia | reflexivity].
  - destruct fuel as [| fuel]; [cbn in Hfuel; lia |].
    cbn [length] in Hfuel.
    apply andb_true_iff in Hstr as [Hc%N.ltb_lt Hstr'].
    cbn [no_surrogate_pair] in Hfree. apply andb_true_iff in Hfree as [Hpair Hfree'].
    unfold escape. cbn [map concat]. rewrite <- app_assoc.
    rewrite scan_replace.
    + fold (escape s'). rewrite IH by (done || lia). reflexivity.
    + done.
    + intros Hhigh. apply peek_escape; [done |].
      destruct s' as [| c' s'']; [done |].
      rewrite Hhigh in Hpair. by destruct (is_low_surrogate c').
Qed.

Lemma replace_length c : (1 <= length (replace c))%nat.
Proof.
  unfold replace, u_escape.
  repeat match goal with |- context [if ?b then _ else _] => destruct b end;
    cbn; try rewrite length_app; cbn; lia.
Qed.

Lemma escape_length s : (length s <= length (escape s))%nat.
Proof.
  induction s as [| c s' IH]; [done |].
  unfold escape. cbn [map concat]. rewrite length_app. fold (escape s').
  pose proof (replace_length c). cbn [length]. lia.
Qed.

Lemma scanstring_escape s rest :
  is_str s = true -> no_surrogate_pair s = true ->
  scanstring (escape s ++ 34 :: rest) = Ok (s, rest).
Proof.
  intros Hstr Hfree. unfold scanstring. apply scan_escape; [done | done |].
  rewrite length_app. pose proof (escape_length s). cbn [length]. lia.
Qed.

(** *** Values *)

(** Induction on a value, with the hypothesis for every item of a list
    and every member of a dict. *)
Lemma json_ind (P : json -> Prop) :
  P JNull ->
  (forall b, P (JBool b)) ->
  (forall s, P (JStr s)) ->
  (forall items, Forall P items -> P (JArr items)) ->
  (forall items, Forall (fun kv => P (snd kv)) items -> P (JObj items)) ->
  forall v, P v.
Proof.
  intros Hnull Hbool Hstr Harr Hobj.
  fix IH 1. intros [| b | s | items | items].
  - exact Hnull.
  - apply Hbool.
  - apply Hstr.
  - apply Harr. induction items as [| x items IHitems]; constructor; [apply IH | exact IHitems].
  - apply Hobj. induction items as [| [k x] items IHitems]; constructor; [apply IH | exact IHitems].
Qed.

(** The text of a value starts with a character that is neither white
    space nor the byte-order mark. *)
Lemma dumps_head v : exists c r, dumps v = c :: r /\ is_ws c = false /\ c <> 65279.
Proof.
  destruct v as [| [|] | s | [| x l] | [| [k x] l]]; cbn; eauto 10.
Qed.

Lemma skip_ws_dumps v rest : skip_ws (dumps v ++ rest) = dumps v ++ rest.
Proof.
  destruct (dumps_head v) as (c & r & -> & Hc & _). cbn. by rewrite Hc.
Qed.

Lemma dict_set_fresh k v d : k ∉ d.*1 -> dict_set k v d = d ++ [(k, v)].
Proof.
  induction d as [| [k' v'] d IH]; cbn; intros Hk; [done |].
  apply not_elem_of_cons in Hk as [Hne Hk].
  destruct (decide (k = k')); [done |]. by rewrite IH.
Qed.

Lemma dict_fold_nodup l : forall acc,
  NoDup (acc ++ l).*1 ->
  fold_left (fun d kv => dict_set (fst kv) (snd kv) d) l acc = acc ++ l.
Proof.
  induction l as [| [k v] l IH]; intros acc Hnd; cbn.
  - by rewrite app_nil_r.
  - rewrite dict_set_fresh.
    + rewrite IH; rewrite <- app_assoc; done.
    + rewrite fmap_app in Hnd. apply NoDup_app in Hnd as (_ & Hdisj & _).
      intros Hin. apply (Hdisj k Hin). cbn. left.
Qed.

Lemma dict_nodup l : NoDup l.*1 -> dict l = l.
Proof. intros Hnd. unfold dict. by rewrite dict_fold_nodup. Qed.

Lemma dumps_arr x l : dumps (JArr (x :: l)) = 91 :: dumps x ++ arr_tail l ++ [93].
Proof. reflexivity. Qed.

Lemma dumps_obj kv l : dumps (JObj (kv :: l)) = 123 :: member kv ++ obj_tail l ++ [125].
Proof.
  destruct kv as [k v]. unfold member, obj_tail. cbn [dumps fst snd].
  rewrite <- !app_assoc. reflexivity.
Qed.

(** The two loops decode the items written by the encoder, given a scanner
    that decodes each item. *)
Section Loops.

Variable scan : text -> outcome (json * text).

Lemma array_loop_dumps l : forall fuel x values rest,
  Forall (decodes scan) (x :: l) -> (length l < fuel)%nat ->
  array_loop scan fuel (dumps x ++ arr_tail l ++ 93 :: rest) values
  = Ok (JArr (values ++ x :: l), rest).
Proof.
  induction l as [| y l IH]; intros fuel x values rest Hdec Hfuel;
    (destruct fuel as [| fuel]; [cbn in Hfuel; lia |]);
    apply Forall_cons in Hdec as [Hx Hdec]; cbn [array_loop].
  - rewrite Hx. reflexivity.
  - rewrite Hx. cbn [mbind outcome_bind obind].
    unfold arr_tail. cbn [map concat]. fold (arr_tail l).
    rewrite <- !app_assoc.
    change (ITEM_SEPARATOR ++ dumps y ++ arr_tail l ++ 93 :: rest)
      with (44 :: 32 :: dumps y ++ arr_tail l ++ 93 :: rest).
    cbn [skip_ws is_ws N.eqb Pos.eqb orb]. rewrite skip_ws_dumps.
    rewrite IH; [| done | cbn in Hfuel; lia].
    by rewrite <- app_assoc.
Qed.

Lemma object_loop_dumps l : forall fuel k v pairs rest,
  Forall (fun kv => decodes scan (snd kv)) ((k, v) :: l) ->
  forallb (fun kv => is_str (fst kv) && no_surrogate_pair (fst kv)) ((k, v) :: l) = true ->
  (length l < fuel)%nat ->
  object_loop scan fuel
    (escape k ++ 34 :: KEY_SEPARATOR ++ dumps v ++ obj_tail l ++ 125 :: rest) pairs
  = Ok (JObj (dict (pairs ++ (k, v) :: l)), rest).
Proof.
  induction l as [| [k' v'] l IH]; intros fuel k v pairs rest Hdec Hkeys Hfuel;
    (destruct fuel as [| fuel]; [cbn in Hfuel; lia |]);
    apply Forall_cons in Hdec as [Hv Hdec]; cbn [snd] in Hv;
    cbn [forallb fst] in Hkeys;
    apply andb_true_iff in Hkeys as [[Hk1 Hk2]%andb_true_iff Hkeys];
    cbn [object_loop]; rewrite scanstring_escape by done;
    cbn [mbind outcome_bind obind];
    change (KEY_SEPARATOR ++ ?t) with (58 :: 32 :: t);
    cbn [skip_ws is_ws N.eqb Pos.eqb orb]; rewrite skip_ws_dumps, Hv;
    cbn [mbind outcome_bind obind].
  - reflexivity.
  - unfold obj_tail. cbn [map concat]. fold (obj_tail l).
    unfold member, py_encode_basestring_ascii. cbn [fst snd].
    rewrite <- !app_assoc.
    change (ITEM_SEPARATOR ++ ?t) with (44 :: 32 :: t).
    cbn [app skip_ws is_ws N.eqb Pos.eqb orb]. rewrite <- !app_assoc.
    cbn [app].
    rewrite IH; [| done | done | cbn in Hfuel; lia].
    by rewrite <- app_assoc.
Qed.

End Loops.

Lemma arr_tail_length l : (length l <= length (arr_tail l))%nat.
Proof.
  induction l as [| y l IH]; [done |].
  unfold arr_tail. cbn [map concat]. fold (arr_tail l).
  rewrite !length_app. cbn. lia.
Qed.

Lemma obj_tail_length l : (length l <= length (obj_tail l))%nat.
Proof.
  induction l as [| y l IH]; [done |].
  unfold obj_tail. cbn [map concat]. fold (obj_tail l).
  rewrite !length_app. cbn. lia.
Qed.

Lemma scan_once_eq fuel s :
  scan_once (S fuel) s =
    match s with
    | [] => Raise (JSONDecodeError "Expecting value")
    | nextchar :: r =>
      if nextchar =? 34 then
        '(str, rest) ← scanstring r; Ok (JStr str, rest)
      else if nextchar =? 123 then JSONObject (scan_once fuel) r
      else if nextchar =? 91 then JSONArray (scan_once fuel) r
      else if starts_with (lit "null") s then Ok (JNull, drop 4 s)
      else if starts_with (lit "true") s then Ok (JBool true, drop 4 s)
      else if starts_with (lit "false") s then Ok (JBool false, drop 5 s)
      else if match_number s then Unmodelled
      else if starts_with (lit "NaN") s then Unmodelled
      else if starts_with (lit "Infinity") s then Unmodelled
      else if starts_with (lit "-Infinity") s then Unmodelled
      else Raise (JSONDecodeError "Expecting value")
    end.
Proof. reflexivity. Qed.

Lemma JSONArray_eq scan s c r :
  skip_ws s = c :: r -> c <> 93 ->
  JSONArray scan s = array_loop scan (S (length (c :: r))) (c :: r) [].
Proof.
  intros Hs Hc. unfold JSONArray. rewrite Hs. cbv zeta.
  by rewrite (proj2 (N.eqb_neq c 93)).
Qed.

Lemma dumps_not_close v : exists c r, dumps v = c :: r /\ c <> 93.
Proof.
  destruct v as [| [|] | s | [| x l] | [| [k x] l]]; cbn; eauto 10.
Qed.

Lemma list_sum_elem {A} (f : A -> nat) a l :
  a ∈ l -> (f a <= list_sum (map f l))%nat.
Proof.
  induction 1 as [a l | a b l _ IH];
    change (list_sum (map f (?y :: l))) with (f y + list_sum (map f l))%nat; lia.
Qed.

Lemma size_pos v : (1 <= size v)%nat.
Proof. destruct v; cbn; lia. Qed.

Lemma scan_once_dumps v : forall fuel rest,
  well_formed v = true -> no_surrogate_pairs v = true -> (size v <= fuel)%nat ->
  scan_once fuel (dumps v ++ rest) = Ok (v, rest).
Proof.
  induction v as [| b | s | items IH | items IH] using json_ind;
    intros fuel rest Hwf Hfree Hfuel;
    (destruct fuel as [| fuel]; [cbn in Hfuel; lia |]).
  - reflexivity.
  - destruct b; reflexivity.
  - rewrite scan_once_eq. unfold dumps, py_encode_basestring_ascii.
    cbn [app N.eqb Pos.eqb]. rewrite <- app_assoc. cbn [app].
    by rewrite scanstring_escape.
  - destruct items as [| x l]; [reflexivity |].
    rewrite dumps_arr, scan_once_eq. cbn [app N.eqb Pos.eqb].
    rewrite <- !app_assoc. cbn [app].
    destruct (dumps_not_close x) as (c & r & Hx & Hc).
    rewrite (JSONArray_eq _ _ c (r ++ arr_tail l ++ 93 :: rest)); [| | done].
    2:{ rewrite skip_ws_dumps, Hx. reflexivity. }
    change (c :: r ++ ?t) with ((c :: r) ++ t). rewrite <- Hx.
    apply (array_loop_dumps _ l _ x []).
    + cbn [well_formed no_surrogate_pairs size] in *.
      rewrite forallb_forall in Hwf, Hfree. rewrite Forall_forall in IH |- *.
      intros y Hy rest'. pose proof Hy as Hy'%list_elem_of_In. apply IH; auto.
      pose proof (list_sum_elem size y (x :: l) Hy). lia.
    + rewrite !length_app. pose proof (arr_tail_length l). lia.
  - destruct items as [| [k x] l]; [reflexivity |].
    rewrite dumps_obj, scan_once_eq. cbn [app N.eqb Pos.eqb].
    unfold JSONObject, member at 1, py_encode_basestring_ascii. cbn [fst snd].
    rewrite <- !app_assoc. cbn [app skip_ws is_ws N.eqb Pos.eqb orb].
    cbn [well_formed no_surrogate_pairs size] in *.
    apply andb_true_iff in Hwf as [Hwf Hnd%bool_decide_eq_true].
    rewrite forallb_forall in Hwf, Hfree.
    rewrite <- (app_assoc (escape k) [34]). cbn [app].
    rewrite (object_loop_dumps _ l _ k x []).
    + by rewrite app_nil_l, dict_nodup.
    + rewrite Forall_forall in IH |- *.
      intros kv Hkv rest'. pose proof Hkv as Hkv'%list_elem_of_In.
      specialize (Hwf kv Hkv'). specialize (Hfree kv Hkv').
      apply andb_true_iff in Hwf as [_ Hwf]. apply andb_true_iff in Hfree as [_ Hfree].
      apply IH; auto.
      pose proof (list_sum_elem (fun kv => size (snd kv)) kv ((k, x) :: l) Hkv) as Hle.
      cbn beta in Hle. lia.
    + apply forallb_forall. intros kv Hkv.
      specialize (Hwf kv Hkv). specialize (Hfree kv Hkv).
      apply andb_true_iff in Hwf as [-> _]. by apply andb_true_iff in Hfree as [-> _].
    + rewrite length_app, length_cons, !length_app.
      pose proof (obj_tail_length l). lia.
Qed.

Lemma size_le_length v : (size v <= length (dumps v))%nat.
Proof.
  induction v as [| b | s | items IH | items IH] using json_ind.
  - cbn. lia.
  - destruct b; cbn; lia.
  - cbn. lia.
  - destruct items as [| x l]; [cbn; lia |].
    rewrite dumps_arr. apply Forall_cons in IH as [Hx IH].
    change (size (JArr (x :: l))) with (S (size x + list_sum (map size l))).
    rewrite length_cons, !length_app.
    assert (list_sum (map size l) <= length (arr_tail l))%nat; [| lia].
    induction IH as [| y l Hy _ IHl]; [done |].
    unfold arr_tail. cbn [map concat]. fold (arr_tail l).
    change (list_sum (size y :: map size l)) with (size y + list_sum (map size l))%nat.
    rewrite !length_app. lia.
  - destruct items as [| [k x] l]; [cbn; lia |].
    rewrite dumps_obj. apply Forall_cons in IH as [Hx IH]. cbn [snd] in Hx.
    change (size (JObj ((k, x) :: l)))
      with (S (size x + list_sum (map (fun kv => size (snd kv)) l))).
    rewrite length_cons, !length_app.
    assert (size x <= length (member (k, x)))%nat.
    { unfold member. rewrite !length_app. cbn [snd]. lia. }
    assert (list_sum (map (fun kv => size (snd kv)) l) <= length (obj_tail l))%nat; [| lia].
    induction IH as [| y l Hy _ IHl]; [done |].
    unfold obj_tail. cbn [map concat]. fold (obj_tail l).
    change (list_sum (size (snd y) :: map (fun kv => size (snd kv)) l))
      with (size (snd y) + list_sum (map (fun kv => size (snd kv)) l))%nat.
    unfold member at 1. rewrite !length_app. lia.
Qed.

(** [json.loads(json.dumps(v))] gives [v] back. *)
Lemma loads_dumps v :
  well_formed v = true -> no_surrogate_pairs v = true -> loads (dumps v) = Ok v.
Proof.
  intros Hwf Hfree. unfold loads.
  destruct (dumps_head v) as (c & r & Hv & Hws & Hbom).
  assert (starts_with [65279] (dumps v) = false) as ->.
  { apply bool_decide_eq_false. rewrite Hv. cbn. congruence. }
  pose proof (skip_ws_dumps v []) as Hskip. rewrite app_nil_r in Hskip.
  rewrite Hskip. pose proof (scan_once_dumps v (S (length (dumps v))) [] Hwf Hfree) as Hscan.
  rewrite app_nil_r in Hscan. rewrite Hscan; [reflexivity |].
  pose proof (size_le_length v). lia.
Qed.


(** *** The fuel of the decoder is never used up *)

Lemma skip_ws_length s : (length (skip_ws s) <= length s)%nat.
Proof.
  induction s as [| c s IH]; [done |]. cbn [skip_ws].
  destruct (is_ws c); cbn [length]; lia.
Qed.

Lemma decode_uXXXX_fuel s : decode_uXXXX s <> OutOfFuel.
Proof.
  unfold decode_uXXXX. destruct s as [| a [| b [| c [| d s]]]]; try done.
  destruct (hexval a), (hexval b), (hexval c), (hexval d); done.
Qed.

Lemma cons_char_fuel c m : m <> OutOfFuel -> cons_char c m <> OutOfFuel.
Proof. destruct m as [[str rest] | | |]; done. Qed.

Lemma py_scanstring_fuel fuel : forall s,
  (length s < fuel)%nat -> py_scanstring fuel s <> OutOfFuel.
Proof.
  induction fuel as [| fuel IH]; intros s Hlen; [lia |].
  rewrite py_scanstring_eq. destruct s as [| c r]; [done |]. cbn [length] in Hlen.
  destruct (c =? 34); [done |]. destruct (c =? 92).
  - destruct r as [| esc r1]; [done |]. cbn [length] in Hlen.
    destruct (esc =? 117).
    + pose proof (decode_uXXXX_fuel r1).
      destruct (decode_uXXXX r1) as [uni | | |]; try done. cbn [mbind outcome_bind obind].
      assert (forall n, py_scanstring fuel (drop n r1) <> OutOfFuel) as Hdrop.
      { intros n. apply IH. rewrite length_drop. lia. }
      destruct (is_high_surrogate uni && starts_with [92; 117] (drop 4 r1)).
      * pose proof (decode_uXXXX_fuel (drop 2 (drop 4 r1))).
        destruct (decode_uXXXX (drop 2 (drop 4 r1))) as [uni2 | | |]; try done.
        cbn [mbind outcome_bind obind]. rewrite drop_drop.
        destruct (is_low_surrogate uni2); apply cons_char_fuel, Hdrop.
      * apply cons_char_fuel, Hdrop.
    + destruct (BACKSLASH esc); [| done]. apply cons_char_fuel, IH. lia.
  - destruct (c <? 32); [done |]. apply cons_char_fuel, IH. lia.
Qed.

Lemma cons_char_ok c m str rest :
  cons_char c m = Ok (str, rest) -> exists str', m = Ok (str', rest).
Proof. destruct m as [[str' rest'] | | |]; cbn; [| done..]. intros [= _ <-]. eauto. Qed.

Lemma py_scanstring_shorter fuel : forall s str rest,
  py_scanstring fuel s = Ok (str, rest) -> (length rest < length s)%nat.
Proof.
  induction fuel as [| fuel IH]; intros s str rest; [done |].
  rewrite py_scanstring_eq. destruct s as [| c r]; [done |]. cbn [length].
  destruct (c =? 34); [intros [= _ <-]; lia |]. destruct (c =? 92).
  - destruct r as [| esc r1]; [done |]. cbn [length].
    destruct (esc =? 117).
    + destruct (decode_uXXXX r1) as [uni | | |]; try done. cbn [mbind outcome_bind obind].
      assert (forall n str', py_scanstring fuel (drop n r1) = Ok (str', rest) ->
                             (length rest < S (S (length r1)))%nat) as Hdrop.
      { intros n str' H%IH. rewrite length_drop in H. lia. }
      destruct (is_high_surrogate uni && starts_with [92; 117] (drop 4 r1)).
      * destruct (decode_uXXXX (drop 2 (drop 4 r1))) as [uni2 | | |]; try done.
        cbn [mbind outcome_bind obind]. rewrite drop_drop.
        destruct (is_low_surrogate uni2); intros [str' H]%cons_char_ok; eauto.
      * intros [str' H]%cons_char_ok; eauto.
    + destruct (BACKSLASH esc); [| done]. intros [str' H%IH]%cons_char_ok. lia.
  - destruct (c <? 32); [done |]. intros [str' H%IH]%cons_char_ok. lia.
Qed.

Lemma scanstring_fuel s : scanstring s <> OutOfFuel.
Proof. apply py_scanstring_fuel. lia. Qed.

Lemma scanstring_shorter s str rest :
  scanstring s = Ok (str, rest) -> (length rest < length s)%nat.
Proof. apply py_scanstring_shorter. Qed.

(** The loops, for a scanner that consumes text and ends on every text
    shorter than [bound]. *)
Section LoopFuel.

Variable scan : text -> outcome (json * text).
Variable bound : nat.
Hypothesis scan_shorter :
  forall s v r, scan s = Ok (v, r) -> (length r < length s)%nat.
Hypothesis scan_fuel :
  forall s, (length s < bound)%nat -> scan s <> OutOfFuel.

Lemma object_loop_shorter fuel : forall s pairs v r,
  object_loop scan fuel s pairs = Ok (v, r) -> (length r < length s)%nat.
Proof.
  induction fuel as [| fuel IH]; intros s pairs v r; [done |]. cbn [object_loop].
  destruct (scanstring s) as [[key s1] | | |] eqn:Hkey; try done.
  apply scanstring_shorter in Hkey. cbn [mbind outcome_bind obind].
  pose proof (skip_ws_length s1). destruct (skip_ws s1) as [| c s2]; [done |].
  destruct (negb (c =? 58)); [done |]. pose proof (skip_ws_length s2).
  destruct (scan (skip_ws s2)) as [[value s3] | | |] eqn:Hvalue; try done.
  apply scan_shorter in Hvalue. cbn [mbind outcome_bind obind].
  pose proof (skip_ws_length s3). destruct (skip_ws s3) as [| nextchar s4]; [done |].
  cbn [length] in *. destruct (nextchar =? 125); [intros [= _ <-]; lia |].
  destruct (negb (nextchar =? 44)); [done |].
  pose proof (skip_ws_length s4). destruct (skip_ws s4) as [| nextchar' s5]; [done |].
  destruct (negb (nextchar' =? 34)); [done |]. intros Hrec%IH. cbn [length] in *. lia.
Qed.

Lemma object_loop_fuel fuel : forall s pairs,
  (length s <= bound)%nat -> (length s < fuel)%nat ->
  object_loop scan fuel s pairs <> OutOfFuel.
Proof.
  induction fuel as [| fuel IH]; intros s pairs Hbound Hfuel; [lia |]. cbn [object_loop].
  pose proof (scanstring_fuel s).
  destruct (scanstring s) as [[key s1] | | |] eqn:Hkey; try done.
  apply scanstring_shorter in Hkey. cbn [mbind outcome_bind obind].
  pose proof (skip_ws_length s1). destruct (skip_ws s1) as [| c s2]; [done |].
  destruct (negb (c =? 58)); [done |]. pose proof (skip_ws_length s2).
  cbn [length] in *.
  pose proof (scan_fuel (skip_ws s2) ltac:(lia)).
  destruct (scan (skip_ws s2)) as [[value s3] | | |] eqn:Hvalue; try done.
  apply scan_shorter in Hvalue. cbn [mbind outcome_bind obind].
  pose proof (skip_ws_length s3). destruct (skip_ws s3) as [| nextchar s4]; [done |].
  cbn [length] in *. destruct (nextchar =? 125); [done |].
  destruct (negb (nextchar =? 44)); [done |].
  pose proof (skip_ws_length s4). destruct (skip_ws s4) as [| nextchar' s5]; [done |].
  destruct (negb (nextchar' =? 34)); [done |]. cbn [length] in *. apply IH; lia.
Qed.

Lemma array_loop_shorter fuel : forall s values v r,
  array_loop scan fuel s values = Ok (v, r) -> (length r < length s)%nat.
Proof.
  induction fuel as [| fuel IH]; intros s values v r; [done |]. cbn [array_loop].
  destruct (scan s) as [[value s1] | | |] eqn:Hvalue; try done.
  apply scan_shorter in Hvalue. cbn [mbind outcome_bind obind].
  pose proof (skip_ws_length s1). destruct (skip_ws s1) as [| nextchar s2]; [done |].
  cbn [length] in *. destruct (nextchar =? 93); [intros [= _ <-]; lia |].
  destruct (negb (nextchar =? 44)); [done |].
  pose proof (skip_ws_length s2). intros Hrec%IH. lia.
Qed.

Lemma array_loop_fuel fuel : forall s values,
  (length s < bound)%nat -> (length s < fuel)%nat ->
  array_loop scan fuel s values <> OutOfFuel.
Proof.
  induction fuel as [| fuel IH]; intros s values Hbound Hfuel; [lia |]. cbn [array_loop].
  pose proof (scan_fuel s Hbound).
  destruct (scan s) as [[value s1] | | |] eqn:Hvalue; try done.
  apply scan_shorter in Hvalue. cbn [mbind outcome_bind obind].
  pose proof (skip_ws_length s1). destruct (skip_ws s1) as [| nextchar s2]; [done |].
  cbn [length] in *. destruct (nextchar =? 93); [done |].
  destruct (negb (nextchar =? 44)); [done |].
  pose proof (skip_ws_length s2). apply IH; lia.
Qed.

Lemma JSONObject_shorter s v r :
  JSONObject scan s = Ok (v, r) -> (length r < length s)%nat.
Proof.
  unfold JSONObject. pose proof (skip_ws_length s).
  destruct (skip_ws s) as [| nextchar s1]; [done |]. cbn [length] in *.
  destruct (nextchar =? 125); [intros [= _ <-]; lia |].
  destruct (negb (nextchar =? 34)); [done |]. intros Hrec%object_loop_shorter. lia.
Qed.

Lemma JSONObject_fuel s :
  (length s <= bound)%nat -> JSONObject scan s <> OutOfFuel.
Proof.
  intros Hbound. unfold JSONObject. pose proof (skip_ws_length s).
  destruct (skip_ws s) as [| nextchar s1]; [done |]. cbn [length] in *.
  destruct (nextchar =? 125); [done |].
  destruct (negb (nextchar =? 34)); [done |]. apply object_loop_fuel; lia.
Qed.

Lemma JSONArray_shorter s v r :
  JSONArray scan s = Ok (v, r) -> (length r < S (length s))%nat.
Proof.
  unfold JSONArray. cbv zeta. pose proof (skip_ws_length s).
  destruct (skip_ws s) as [| nextchar s1]; [done |]. cbn [length] in *.
  destruct (nextchar =? 93); [intros [= _ <-]; lia |].
  intros Hrec%array_loop_shorter. cbn [length] in Hrec. lia.
Qed.

Lemma JSONArray_fuel s :
  (length s < bound)%nat -> JSONArray scan s <> OutOfFuel.
Proof.
  intros Hbound. unfold JSONArray. cbv zeta. pose proof (skip_ws_length s).
  destruct (skip_ws s) as [| nextchar s1]; [done |]. cbn [length] in *.
  destruct (nextchar =? 93); [done |]. apply array_loop_fuel; cbn [length]; lia.
Qed.

End LoopFuel.

Lemma starts_with_length p s : starts_with p s = true -> (length p <= length s)%nat.
Proof.
  intros Hp%starts_with_true. rewrite <- Hp at 1. rewrite length_take. lia.
Qed.

Lemma drop_literal p s :
  starts_with p s = true -> (0 < length p)%nat ->
  (length (drop (length p) s) < length s)%nat.
Proof. intros Hp%starts_with_length Hpos. rewrite length_drop. lia. Qed.

Lemma scan_once_shorter fuel : forall s v r,
  scan_once fuel s = Ok (v, r) -> (length r < length s)%nat.
Proof.
  induction fuel as [| fuel IH]; intros s v r; [done |]. rewrite scan_once_eq.
  destruct s as [| nextchar s']; [done |].
  destruct (nextchar =? 34).
  { destruct (scanstring s') as [[str rest] | | |] eqn:Hstr; try done.
    apply scanstring_shorter in Hstr. intros [= _ <-]. cbn [length]. lia. }
  destruct (nextchar =? 123).
  { intros Hrec%JSONObject_shorter; [cbn [length]; lia | exact IH]. }
  destruct (nextchar =? 91).
  { intros Hrec%JSONArray_shorter; [cbn [length]; lia | exact IH]. }
  remember (nextchar :: s') as s eqn:Hs. clear Hs.
  destruct (starts_with (lit "null") s) eqn:Hnull.
  { intros [= _ <-]. apply (drop_literal (lit "null")); [done | cbn; lia]. }
  destruct (starts_with (lit "true") s) eqn:Htrue.
  { intros [= _ <-]. apply (drop_literal (lit "true")); [done | cbn; lia]. }
  destruct (starts_with (lit "false") s) eqn:Hfalse.
  { intros [= _ <-]. apply (drop_literal (lit "false")); [done | cbn; lia]. }
  destruct (match_number s); [done |].
  destruct (starts_with (lit "NaN") s); [done |].
  destruct (starts_with (lit "Infinity") s); [done |].
  by destruct (starts_with (lit "-Infinity") s).
Qed.

Lemma scan_once_fuel fuel : forall s,
  (length s < fuel)%nat -> scan_once fuel s <> OutOfFuel.
Proof.
  induction fuel as [| fuel IH]; intros s Hlen; [lia |]. rewrite scan_once_eq.
  destruct s as [| nextchar s']; [done |]. cbn [length] in Hlen.
  destruct (nextchar =? 34).
  { pose proof (scanstring_fuel s'). by destruct (scanstring s') as [[str rest] | | |]. }
  destruct (nextchar =? 123).
  { apply (JSONObject_fuel _ fuel); [apply scan_once_shorter | exact IH | lia]. }
  destruct (nextchar =? 91).
  { apply (JSONArray_fuel _ fuel); [apply scan_once_shorter | exact IH | lia]. }
  repeat match goal with
         | |- context [if ?b then _ else _] => destruct b; [done |]
         end.
  done.
Qed.

(** The decoder ends within its budget on every text. *)
Lemma loads_fuel s : loads s <> OutOfFuel.
Proof.
  unfold loads. destruct (starts_with [65279] s); [done |].
  pose proof (skip_ws_length s).
  pose proof (scan_once_fuel (S (length s)) (skip_ws s) ltac:(lia)).
  destruct (scan_once (S (length s)) (skip_ws s)) as [[obj rest] | | |]; try done.
  cbn [mbind outcome_bind obind]. by destruct (skip_ws rest).
Qed.

(** ** Configuration persistence *)

(** [load_config] ends on every file store. *)
Lemma load_config_fuel (fs : gmap string text) : load_config fs <> OutOfFuel.
Proof.
  unfold load_config, open_r. destruct (fs !! CONFIG_PATH) as [f |]; [| done].
  cbn [mbind outcome_bind obind]. pose proof (loads_fuel f).
  destruct (loads f) as [v | [] | |]; done.
Qed.

Lemma open_r_saved x fs : open_r (save_config x fs) CONFIG_PATH = Ok (dumps x).
Proof. unfold open_r, save_config. by rewrite lookup_insert_eq. Qed.

(** C1, as amended: for every configuration mapping whose strings hold no
    high surrogate directly followed by a low surrogate, [save_config]
    followed by [load_config] returns the mapping. *)
Theorem save_load_roundtrip (x : json) (fs : gmap string text) :
  well_formed x = true -> no_surrogate_pairs x = true ->
  load_config (save_config x fs) = Ok x.
Proof.
  intros Hwf Hfree. unfold load_config. rewrite open_r_saved.
  cbn [mbind outcome_bind obind]. by rewrite loads_dumps.
Qed.

Lemma save_load_roundtrip_witness :
  well_formed unicode_prompts = true /\ no_surrogate_pairs unicode_prompts = true /\
  load_config (save_config unicode_prompts ∅) = Ok unicode_prompts.
Proof.
  assert (well_formed unicode_prompts = true) as Hwf by (vm_compute; reflexivity).
  assert (no_surrogate_pairs unicode_prompts = true) as Hfree by (vm_compute; reflexivity).
  split; [exact Hwf |]. split; [exact Hfree |].
  exact (save_load_roundtrip unicode_prompts ∅ Hwf Hfree).
Defined.

(** C1 as stated fails: a mapping holding a [str] made of a high and a
    low surrogate comes back with the two joined into one code point. *)
Lemma save_load_surrogates :
  well_formed surrogate_prompts = true /\
  load_config (save_config surrogate_prompts ∅) = Ok joined_prompts /\
  load_config (save_config surrogate_prompts ∅) <> Ok surrogate_prompts.
Proof.
  split; [vm_compute; reflexivity |]. split; [vm_compute; reflexivity |].
  vm_compute. discriminate.
Qed.

(** C4: without the configuration file, [load_config] returns the empty
    mapping and raises nothing. *)
Theorem load_config_missing_file (fs : gmap string text) :
  fs !! CONFIG_PATH = None -> load_config fs = Ok (JObj []).
Proof. intros Hfs. unfold load_config, open_r. by rewrite Hfs. Qed.

Lemma load_config_missing_file_witness :
  (∅ : gmap string text) !! CONFIG_PATH = None /\ load_config ∅ = Ok (JObj []).
Proof.
  split; [reflexivity |]. apply (load_config_missing_file ∅). reflexivity.
Defined.

(** C5: when the file exists and its text is malformed JSON, the decode
    error leaves [load_config]; the handler for [FileNotFoundError] does
    not catch it. *)
Theorem load_config_malformed (fs : gmap string text) (f : text) (msg : string) :
  fs !! CONFIG_PATH = Some f ->
  loads f = Raise (JSONDecodeError msg) ->
  load_config fs = Raise (JSONDecodeError msg).
Proof.
  intros Hfs Hbad. unfold load_config, open_r. rewrite Hfs.
  cbn [mbind outcome_bind obind]. by rewrite Hbad.
Qed.

Lemma load_config_malformed_witness :
  let fs : gmap string text := {[ CONFIG_PATH := lit "{planner: [" ]} in
  fs !! CONFIG_PATH = Some (lit "{planner: [") /\
  loads (lit "{planner: [")
    = Raise (JSONDecodeError "Expecting property name enclosed in double quotes") /\
  load_config fs
    = Raise (JSONDecodeError "Expecting property name enclosed in double quotes").
Proof.
  intros fs.
  assert (fs !! CONFIG_PATH = Some (lit "{planner: [")) as Hfs by reflexivity.
  assert (loads (lit "{planner: [")
          = Raise (JSONDecodeError "Expecting property name enclosed in double quotes"))
    as Hbad by (vm_compute; reflexivity).
  split; [exact Hfs |]. split; [exact Hbad |].
  exact (load_config_malformed fs _ _ Hfs Hbad).
Defined.

(** ** Credential resolution *)

(** C2: a non-empty [AZURE_OPENAI_API_KEY] is returned as it is; the key
    vault is not contacted and nothing is reported, whatever the vault
    variable and the vault are. *)
Theorem primary_key_returned (w : world) (environ : gmap string text) (s : text) :
  environ !! "AZURE_OPENAI_API_KEY" = Some s -> s <> [] ->
  get_azure_credentials w environ = ([], Ok (Some s)).
Proof.
  intros Hkey Hs. unfold get_azure_credentials. rewrite Hkey.
  destruct s as [| c s]; [done | reflexivity].
Qed.

Lemma primary_key_returned_witness :
  let environ : gmap string text :=
    {[ "AZURE_OPENAI_API_KEY" := lit "sk-1"; "AZURE_KEY_VAULT_NAME" := lit "vault" ]} in
  environ !! "AZURE_OPENAI_API_KEY" = Some (lit "sk-1") /\ lit "sk-1" <> [] /\
  get_azure_credentials world_down environ = ([], Ok (Some (lit "sk-1"))).
Proof.
  intros environ.
  assert (environ !! "AZURE_OPENAI_API_KEY" = Some (lit "sk-1")) as Hkey
    by (vm_compute; reflexivity).
  assert (lit "sk-1" <> []) as Hs by (vm_compute; discriminate).
  split; [exact Hkey |]. split; [exact Hs |].
  exact (primary_key_returned world_down environ (lit "sk-1") Hkey Hs).
Defined.

(** What the vault branch does, by the vault's answer. *)
Lemma vault_branch (w : world) (environ : gmap string text) (name : text) :
  truthy_str (environ !! "AZURE_OPENAI_API_KEY") = false ->
  environ !! "AZURE_KEY_VAULT_NAME" = Some name -> name <> [] ->
  get_azure_credentials w environ =
    match key_vault w (key_vault_uri name) SECRET_NAME with
    | inr value => ([KeyVaultGetSecret (key_vault_uri name) SECRET_NAME], Ok value)
    | inl f =>
        ([KeyVaultGetSecret (key_vault_uri name) SECRET_NAME;
          StError [Lit "Error getting Azure credentials: "; Str (exn_of f)]],
         Ok None)
    end.
Proof.
  intros Hkey Hvault Hname. unfold get_azure_credentials.
  cbv zeta. rewrite Hkey, Hvault. destruct name as [| c name]; [done |].
  unfold get_secret.
  destruct (key_vault w (key_vault_uri (c :: name)) SECRET_NAME) as [[msg | msg] | value];
    reflexivity.
Qed.

(** C3, as amended: with the primary variable absent or empty and the
    vault variable set to a non-empty name, the key vault is tried exactly
    once, and every failure of that access is caught and reported and
    [None] is returned. *)
Theorem vault_tried_once (w : world) (environ : gmap string text) (name : text) :
  truthy_str (environ !! "AZURE_OPENAI_API_KEY") = false ->
  environ !! "AZURE_KEY_VAULT_NAME" = Some name -> name <> [] ->
  vault_attempts (get_azure_credentials w environ).1 = 1%nat /\
  forall f : failure,
    key_vault w (key_vault_uri name) SECRET_NAME = inl f ->
    get_azure_credentials w environ =
      ([KeyVaultGetSecret (key_vault_uri name) SECRET_NAME;
        StError [Lit "Error getting Azure credentials: "; Str (exn_of f)]],
       Ok None).
Proof.
  intros Hkey Hvault Hname. rewrite (vault_branch w environ name Hkey Hvault Hname).
  destruct (key_vault w (key_vault_uri name) SECRET_NAME) as [f | value].
  - split; [reflexivity |]. by intros f' [= <-].
  - split; [reflexivity |]. intros f' [=].
Qed.

Lemma vault_tried_once_witness :
  let environ : gmap string text := {[ "AZURE_KEY_VAULT_NAME" := lit "vault" ]} in
  truthy_str (environ !! "AZURE_OPENAI_API_KEY") = false /\
  vault_attempts (get_azure_credentials world_down environ).1 = 1%nat /\
  get_azure_credentials world_down environ =
    ([KeyVaultGetSecret (key_vault_uri (lit "vault")) SECRET_NAME;
      StError [Lit "Error getting Azure credentials: ";
               Str (Exception (lit "vault unreachable"))]],
     Ok None).
Proof.
  intros environ.
  assert (truthy_str (environ !! "AZURE_OPENAI_API_KEY") = false) as Hkey
    by (vm_compute; reflexivity).
  assert (environ !! "AZURE_KEY_VAULT_NAME" = Some (lit "vault")) as Hvault
    by (vm_compute; reflexivity).
  assert (lit "vault" <> []) as Hname by (vm_compute; discriminate).
  destruct (vault_tried_once world_down environ (lit "vault") Hkey Hvault Hname)
    as [Honce Hfail].
  split; [exact Hkey |]. split; [exact Honce |].
  exact (Hfail (Failure (lit "vault unreachable")) eq_refl).
Defined.

(** C3 as stated fails: with the vault variable set to the empty string
    the key vault is not tried at all. *)
Lemma vault_name_empty_not_tried :
  let environ : gmap string text := {[ "AZURE_KEY_VAULT_NAME" := [] ]} in
  truthy_str (environ !! "AZURE_OPENAI_API_KEY") = false /\
  environ !! "AZURE_KEY_VAULT_NAME" = Some [] /\
  get_azure_credentials world_up environ = ([], Ok None) /\
  vault_attempts (get_azure_credentials world_up environ).1 <> 1%nat.
Proof. vm_compute. repeat split; discriminate. Qed.

(** ** Initial prompts *)

(** C8, as amended: at startup the prompt configuration is the loaded
    value when that is non-empty and the built-in defaults otherwise; it
    holds the four fixed keys exactly when the loaded value is empty or
    holds them itself. *)
Theorem init_prompts_keys (config : json) (session_state : gmap string json) :
  session_state !! "prompts" = None ->
  exists prompts,
    init_prompts config session_state !! "prompts" = Some prompts /\
    prompts = (if truthy config then config else DEFAULT_PROMPTS) /\
    (has_fixed_keys prompts = true <->
     truthy config = false \/ has_fixed_keys config = true).
Proof.
  intros Hfresh. unfold init_prompts. rewrite Hfresh.
  eexists. split; [apply lookup_insert_eq |]. split; [reflexivity |].
  destruct (truthy config) eqn:Htruthy.
  - split; [by right | by intros [? | ?]].
  - split; [by left | intros _; vm_compute; reflexivity].
Qed.

Lemma init_prompts_keys_witness :
  (∅ : gmap string json) !! "prompts" = None /\
  init_prompts (JObj []) ∅ !! "prompts" = Some DEFAULT_PROMPTS /\
  has_fixed_keys DEFAULT_PROMPTS = true.
Proof.
  assert ((∅ : gmap string json) !! "prompts" = None) as Hfresh by reflexivity.
  destruct (init_prompts_keys (JObj []) ∅ Hfresh) as (prompts & Hinit & Hprompts & Hkeys).
  split; [exact Hfresh |]. cbn in Hprompts. subst prompts.
  split; [exact Hinit |]. apply Hkeys. left. reflexivity.
Defined.

(** C8 as stated fails: a configuration file without the [tasks] entry is
    loaded and becomes the prompt configuration as it is. *)
Lemma init_prompts_partial_config :
  load_config {[ CONFIG_PATH := dumps partial_config ]} = Ok partial_config /\
  truthy partial_config = true /\
  init_prompts partial_config ∅ !! "prompts" = Some partial_config /\
  contains partial_config (lit "tasks") = false /\
  has_fixed_keys partial_config <> true.
Proof. vm_compute. repeat split; discriminate. Qed.

(** ** The generate action: probe, then pipeline *)

Lemma setup_cases (w : world) (environ : gmap string text) (key : text) :
  setup_azure_openai w environ key = ([RequestsPost (probe_url environ) key], Ok true)
  \/ exists e,
       setup_azure_openai w environ key =
         ([RequestsPost (probe_url environ) key;
           StError [Lit "Azure OpenAI Setup Error: "; Str e]], Ok false).
Proof.
  unfold setup_azure_openai, requests_post.
  destruct (post w (probe_url environ) key) as [[msg | msg] | r].
  - right. eexists. reflexivity.
  - right. eexists. reflexivity.
  - unfold mbind, run_bind, rbind, emit, pure, answer, raise_for_status.
    destruct ((400 <=? status_code r) && (status_code r <? 600)).
    + right. exists (HTTPError r). reflexivity.
    + left. reflexivity.
Qed.

Lemma rbind_trace {A B} (m : run A) (f : A -> run B) :
  (rbind m f).1 = m.1 ++ match m.2 with Ok a => (f a).1 | _ => [] end.
Proof.
  destruct m as [t [a | e | |]]; cbn; rewrite ?app_nil_r; [| done..].
  by destruct (f a).
Qed.

Lemma rbind_elem {A B} (m : run A) (f : A -> run B) (ev : event) :
  ev ∈ (m ≫= f).1 -> ev ∈ m.1 \/ exists a, m.2 = Ok a /\ ev ∈ (f a).1.
Proof.
  unfold mbind, run_bind. rewrite rbind_trace. intros [Hm | Hf]%elem_of_app; [by left |].
  destruct m.2 as [a | e | |]; [eauto | by apply elem_of_nil in Hf..].
Qed.

Lemma try_run_elem {A} (body : run A) (handler : exn -> option (run A)) (ev : event) :
  ev ∈ (try_run body handler).1 ->
  ev ∈ body.1 \/ exists e k, body.2 = Raise e /\ handler e = Some k /\ ev ∈ k.1.
Proof.
  destruct body as [t [a | e | |]]; cbn; [by left | | by left..].
  destruct (handler e) as [[t' r] |] eqn:Hh; cbn; [| by left].
  intros [Ht | Ht']%elem_of_app; [by left |]. right. by exists e, (t', r).
Qed.

(** The generate action either reports one validation error, or stops at
    the transcript, or starts with the probe. *)
Lemma generate_shape w environ uploaded_file key prompts temp :
  let t := (generate w environ uploaded_file key prompts temp).1 in
  t = [StError UPLOAD_MISSING] \/ t = [StError KEY_MISSING] \/ t = [] \/
  exists rest, t = RequestsPost (probe_url environ) key :: rest.
Proof.
  unfold generate. destruct uploaded_file as [f |]; [| by left].
  destruct key as [| c key]; [right; by left |]. cbn [truthy_str negb].
  unfold read_decode. destruct (decoded f) as [transcripts |]; [| right; right; by left].
  right; right; right.
  unfold mbind at 1, run_bind, pure. cbn [rbind app].
  match goal with |- context [try_run ?b ?h] => set (body := b); set (handler := h) end.
  assert (exists rest, body.1 = RequestsPost (probe_url environ) (c :: key) :: rest)
    as [rest Hbody].
  { subst body. unfold mbind at 1, run_bind. rewrite rbind_trace.
    destruct (setup_cases w environ (c :: key)) as [-> | [e ->]]; cbn; eauto. }
  destruct body as [t r]. cbn in Hbody. subst t.
  destruct (try_run (_, r) handler) as [t' r'] eqn:Htry.
  exists (match r with Raise e => match handler e with Some k => rest ++ k.1 | None => rest end | _ => rest end).
  unfold try_run in Htry. destruct r as [a | e | |]; try (by inversion Htry).
  destruct (handler e) as [[t'' r''] |]; by inversion Htry.
Qed.

Lemma generate_probe_failed w environ f transcripts key prompts temp t0 :
  key <> [] -> decoded f = Some transcripts ->
  setup_azure_openai w environ key = (t0, Ok false) ->
  generate w environ (Some f) key prompts temp
  = (t0 ++ [StError SETUP_FAILED], Raise StopException).
Proof.
  intros Hkey Hdec Hsetup. unfold generate, read_decode.
  destruct key as [| c key]; [done |]. cbn [truthy_str negb]. rewrite Hdec, Hsetup.
  reflexivity.
Qed.

(** C6: in every run of the generate action a pipeline event comes after
    the probe; and when the probe fails, the error is reported and the run
    stops there, with no agent built and no crew started. *)
Theorem probe_before_pipeline (w : world) (environ : gmap string text)
    (uploaded_file : option UploadedFile) (key : text) (prompts : json) (temp : Q) :
  (forall t1 ev t2,
     (generate w environ uploaded_file key prompts temp).1 = t1 ++ ev :: t2 ->
     is_pipeline_event ev = true ->
     exists p, p ∈ t1 /\ is_probe p = true) /\
  (forall f transcripts t0,
     uploaded_file = Some f -> key <> [] -> decoded f = Some transcripts ->
     setup_azure_openai w environ key = (t0, Ok false) ->
     (generate w environ uploaded_file key prompts temp).2 = Raise StopException /\
     (exists e,
        (generate w environ uploaded_file key prompts temp).1
        = [RequestsPost (probe_url environ) key;
           StError [Lit "Azure OpenAI Setup Error: "; Str e];
           StError SETUP_FAILED]) /\
     Forall (fun ev => is_pipeline_event ev = false)
            (generate w environ uploaded_file key prompts temp).1).
Proof.
  split.
  - intros t1 ev t2 Ht Hev.
    destruct (generate_shape w environ uploaded_file key prompts temp)
      as [Hs | [Hs | [Hs | [rest Hs]]]]; cbv zeta in Hs; rewrite Hs in Ht.
    + destruct t1 as [| ? [| ? ?]]; inversion Ht; subst; discriminate.
    + destruct t1 as [| ? [| ? ?]]; inversion Ht; subst; discriminate.
    + destruct t1; discriminate.
    + destruct t1 as [| p t1]; inversion Ht; subst; [discriminate |].
      exists (RequestsPost (probe_url environ) key). split; [left | reflexivity].
  - intros f transcripts t0 -> Hkey Hdec Hsetup.
    rewrite (generate_probe_failed w environ f transcripts key prompts temp t0) by done.
    destruct (setup_cases w environ key) as [Hok | [e Hfail]].
    + rewrite Hok in Hsetup. discriminate.
    + rewrite Hfail in Hsetup. injection Hsetup as <-.
      split; [reflexivity |]. split; [by exists e |]. by repeat constructor.
Qed.

Lemma probe_before_pipeline_witness :
  let up := generate world_up ∅ (Some transcript_file) (lit "key") DEFAULT_PROMPTS (7 # 10) in
  let down := generate world_down ∅ (Some transcript_file) (lit "key") DEFAULT_PROMPTS (7 # 10) in
  (exists t1 c t2, up.1 = t1 ++ Kickoff c :: t2 /\ exists p, p ∈ t1 /\ is_probe p = true) /\
  (exists t0, setup_azure_openai world_down ∅ (lit "key") = (t0, Ok false)) /\
  down.2 = Raise StopException /\
  Forall (fun ev => is_pipeline_event ev = false) down.1.
Proof.
  intros up down.
  destruct (probe_before_pipeline world_up ∅ (Some transcript_file) (lit "key")
              DEFAULT_PROMPTS (7 # 10)) as [Horder _].
  destruct (probe_before_pipeline world_down ∅ (Some transcript_file) (lit "key")
              DEFAULT_PROMPTS (7 # 10)) as [_ Hfail].
  split; [| split].
  - destruct up.1 as [| e0 [| e1 [| e2 [| e3 [| e4 [| e5 [| e6 [| e7 [| e8 [| e9 t]]]]]]]]]] eqn:Hup;
      try (vm_compute in Hup; discriminate).
    assert (exists c, e9 = Kickoff c) as [c ->].
    { vm_compute in Hup. injection Hup as _ _ _ _ _ _ _ _ _ <- _. eauto. }
    exists [e0; e1; e2; e3; e4; e5; e6; e7; e8], c, t. split; [reflexivity |].
    apply (Horder [e0; e1; e2; e3; e4; e5; e6; e7; e8] (Kickoff c) t); [| reflexivity].
    exact Hup.
  - eexists. reflexivity.
  - destruct (Hfail transcript_file (lit "hello") _ eq_refl ltac:(discriminate) eq_refl eq_refl)
      as (Hstop & _ & Hnone).
    split; [exact Hstop | exact Hnone].
Defined.

Lemma pure_elem {A} (o : outcome A) (ev : event) : ev ∈ (pure o).1 -> False.
Proof. apply elem_of_nil. Qed.

Lemma emit_elem (ev' ev : event) : ev ∈ (emit ev').1 -> ev = ev'.
Proof. cbn. by intros ->%list_elem_of_singleton. Qed.

Lemma new_Agent_elem w a ev : ev ∈ (new_Agent w a).1 -> ev = NewAgent a.
Proof.
  unfold new_Agent. intros [H | (_ & _ & H)]%rbind_elem; [by apply emit_elem |].
  apply rbind_elem in H as [H | (_ & _ & H)]; [by apply pure_elem in H |].
  by apply elem_of_nil in H.
Qed.

Lemma new_Agent_result w a a' : (new_Agent w a).2 = Ok a' -> a' = a.
Proof.
  unfold new_Agent, emit, pure, ret, mbind, run_bind. cbn.
  destruct (answer (Agent_init w a)); cbn; congruence.
Qed.

Lemma new_Task_elem w t ev : ev ∈ (new_Task w t).1 -> ev = NewTask t.
Proof.
  unfold new_Task. intros [H | (_ & _ & H)]%rbind_elem; [by apply emit_elem |].
  apply rbind_elem in H as [H | (_ & _ & H)]; [by apply pure_elem in H |].
  by apply elem_of_nil in H.
Qed.

Lemma new_Task_result w t t' : (new_Task w t).2 = Ok t' -> t' = t.
Proof.
  unfold new_Task, emit, pure, ret, mbind, run_bind. cbn.
  destruct (answer (Task_init w t)); cbn; congruence.
Qed.

Lemma new_Crew_elem w c ev : ev ∈ (new_Crew w c).1 -> ev = NewCrew c.
Proof.
  unfold new_Crew. intros [H | (_ & _ & H)]%rbind_elem; [by apply emit_elem |].
  apply rbind_elem in H as [H | (_ & _ & H)]; [by apply pure_elem in H |].
  by apply elem_of_nil in H.
Qed.

Lemma make_agent_elem w prompts who temp ev :
  ev ∈ (make_agent w prompts who temp).1 -> exists a, ev = NewAgent a.
Proof.
  unfold make_agent.
  intros [H | (? & _ & H)]%rbind_elem; [by apply pure_elem in H |].
  apply rbind_elem in H as [H | (? & _ & H)]; [by apply pure_elem in H |].
  apply rbind_elem in H as [H | (? & _ & H)]; [by apply pure_elem in H |].
  apply new_Agent_elem in H. eauto.
Qed.

(** The crew the pipeline builds: its tasks are the plan, write and edit
    tasks, with the descriptions computed from the prompts. *)
Lemma pipeline_crew w prompts temp transcripts crew :
  NewCrew crew ∈ (pipeline w prompts temp transcripts).1 ->
  exists d1 d2 d3,
    plan_description prompts transcripts = Ok d1 /\
    write_description prompts = Ok d2 /\
    edit_description prompts = Ok d3 /\
    map description (tasks crew) = [d1; d2; d3].
Proof.
  unfold pipeline.
  intros [H | (planner & _ & H)]%rbind_elem;
    [apply make_agent_elem in H as [? [=]] |].
  apply rbind_elem in H as [H | (writer & _ & H)];
    [apply make_agent_elem in H as [? [=]] |].
  apply rbind_elem in H as [H | (editor & _ & H)];
    [apply make_agent_elem in H as [? [=]] |].
  apply rbind_elem in H as [H | (d1 & Hd1 & H)]; [by apply pure_elem in H |].
  apply rbind_elem in H as [H | (plan & Hplan%new_Task_result & H)];
    [apply new_Task_elem in H as [=] |].
  apply rbind_elem in H as [H | (d2 & Hd2 & H)]; [by apply pure_elem in H |].
  apply rbind_elem in H as [H | (write & Hwrite%new_Task_result & H)];
    [apply new_Task_elem in H as [=] |].
  apply rbind_elem in H as [H | (d3 & Hd3 & H)]; [by apply pure_elem in H |].
  apply rbind_elem in H as [H | (edit & Hedit%new_Task_result & H)];
    [apply new_Task_elem in H as [=] |].
  apply rbind_elem in H as [H | (crew' & _ & H)].
  - apply new_Crew_elem in H as [= ->]. subst. exists d1, d2, d3. by cbn in *.
  - apply rbind_elem in H as [H | (? & _ & H)]; [unfold crew_kickoff in H |].
    + apply rbind_elem in H as [H | (? & _ & H)];
        [by apply emit_elem in H | by apply pure_elem in H].
    + apply rbind_elem in H as [H | (? & _ & H)]; by apply emit_elem in H.
Qed.

(** The events of a handler are messages on the page. *)
Ltac handler_events H :=
  cbn in H;
  repeat (apply elem_of_cons in H as [-> | H]; [discriminate |]);
  by apply elem_of_nil in H.

Lemma st_error_elem msg ev : ev ∈ (st_error msg).1 -> ev = StError msg.
Proof. apply emit_elem. Qed.

Lemma setup_elem w environ key ev :
  ev ∈ (setup_azure_openai w environ key).1 -> is_pipeline_event ev = false.
Proof.
  destruct (setup_cases w environ key) as [-> | [e ->]]; cbn;
    rewrite ?elem_of_cons, elem_of_nil.
  - by intros [-> | []].
  - by intros [-> | [-> | []]].
Qed.

Lemma generate_pipeline_event w environ f key prompts temp ev :
  is_pipeline_event ev = true ->
  ev ∈ (generate w environ (Some f) key prompts temp).1 ->
  exists transcripts,
    decoded f = Some transcripts /\ ev ∈ (pipeline w prompts temp transcripts).1.
Proof.
  intros Hev. unfold generate, read_decode.
  destruct key as [| c key]; cbn [truthy_str negb].
  { intros H%st_error_elem. subst ev. discriminate. }
  destruct (decoded f) as [transcripts |]; [| by intros ?%elem_of_nil].
  intros [H | (tr & [= <-] & H)]%rbind_elem; [by apply pure_elem in H |].
  exists transcripts. split; [done |].
  apply try_run_elem in H as [H | (e & k & _ & Hk & H)].
  - apply rbind_elem in H as [H | (ok & _ & H)];
      [apply setup_elem in H; congruence |].
    apply rbind_elem in H as [H | (? & _ & H)].
    { destruct ok; cbn [negb] in H; [by apply elem_of_nil in H |].
      apply rbind_elem in H as [->%st_error_elem | (_ & _ & H)]; [discriminate |].
      by apply elem_of_nil in H. }
    apply rbind_elem in H as [->%emit_elem | (_ & _ & H)]; [discriminate |].
    apply try_run_elem in H as [H | (e & k & _ & Hk & H)]; [done |].
    destruct (is_Exception e); [| discriminate]. injection Hk as <-.
    handler_events H.
  - destruct (is_RequestException e).
    + injection Hk as <-. destruct e; handler_events H.
    + destruct (is_Exception e); [| discriminate]. injection Hk as <-.
      handler_events H.
Qed.

(** C10: the crew's tasks are the plan, write and edit tasks; the plan
    description is the configured text, a colon and a space, and the
    transcript; the write and edit descriptions are the configured values
    as they are. *)
Theorem task_descriptions (w : world) (environ : gmap string text)
    (f : UploadedFile) (key : text) (prompts : json) (temp : Q)
    (transcripts p : text) (wd ed : json) (crew : Crew) :
  decoded f = Some transcripts ->
  getitem2 prompts "tasks" "plan" = Ok (JStr p) ->
  getitem2 prompts "tasks" "write" = Ok wd ->
  getitem2 prompts "tasks" "edit" = Ok ed ->
  NewCrew crew ∈ (generate w environ (Some f) key prompts temp).1 ->
  map description (tasks crew) = [JStr (p ++ lit ": " ++ transcripts); wd; ed].
Proof.
  intros Hdec Hplan Hwrite Hedit Hcrew.
  apply generate_pipeline_event in Hcrew as (tr & Htr & Hcrew); [| done].
  rewrite Hdec in Htr. injection Htr as <-.
  apply pipeline_crew in Hcrew as (d1 & d2 & d3 & Hd1 & Hd2 & Hd3 & ->).
  unfold plan_description in Hd1. rewrite Hplan in Hd1.
  cbn [mbind outcome_bind obind format_value] in Hd1.
  unfold write_description in Hd2. unfold edit_description in Hd3.
  congruence.
Qed.

Lemma task_descriptions_witness :
  let t := (generate world_up ∅ (Some transcript_file) (lit "key")
              DEFAULT_PROMPTS (7 # 10)).1 in
  exists crew,
    t !! 8%nat = Some (NewCrew crew) /\
    map description (tasks crew) =
      [JStr (lit "Plan content for the topic" ++ lit ": " ++ lit "hello");
       JStr (lit "Write a research article based on the content plan");
       JStr (lit "Edit and finalize the research article")].
Proof.
  intros t.
  destruct (t !! 8%nat) as [[| | | | | | | crew |] |] eqn:Hcrew;
    try (vm_compute in Hcrew; discriminate).
  exists crew. split; [reflexivity |].
  apply (task_descriptions world_up ∅ transcript_file (lit "key") DEFAULT_PROMPTS (7 # 10)
           (lit "hello") (lit "Plan content for the topic")).
  - reflexivity.
  - vm_compute. reflexivity.
  - vm_compute. reflexivity.
  - vm_compute. reflexivity.
  - apply list_elem_of_lookup. exists 8%nat. exact Hcrew.
Defined.

(** ** Validation of the generate action *)

(** C7: without an uploaded file the generate action reports the
    validation error and does nothing else: no probe, no pipeline, no
    call over the network. *)
Theorem no_upload_no_network (w : world) (environ : gmap string text)
    (key : text) (prompts : json) (temp : Q) :
  generate w environ None key prompts temp = ([StError UPLOAD_MISSING], Ok tt) /\
  Forall (fun ev => is_network_call ev = false /\ is_probe ev = false
                    /\ is_pipeline_event ev = false)
         (generate w environ None key prompts temp).1.
Proof.
  split; [reflexivity |]. cbn. by repeat constructor.
Qed.

(** C9: with neither file nor key only the missing-upload error is
    reported; the missing-key error is what a run with a file and an empty
    key reports, and it is never reported without a file. *)
Theorem upload_checked_first (w : world) (environ : gmap string text)
    (prompts : json) (temp : Q) :
  generate w environ None [] prompts temp = ([StError UPLOAD_MISSING], Ok tt) /\
  (forall f, generate w environ (Some f) [] prompts temp = ([StError KEY_MISSING], Ok tt)) /\
  (forall uploaded_file key,
     StError KEY_MISSING ∈ (generate w environ uploaded_file key prompts temp).1 ->
     exists f, uploaded_file = Some f).
Proof.
  split; [reflexivity |]. split; [reflexivity |].
  intros [f |] key Hin; [by exists f |].
  cbn in Hin. apply list_elem_of_singleton in Hin. discriminate.
Qed.

Lemma upload_checked_first_witness :
  StError KEY_MISSING
    ∈ (generate world_up ∅ (Some transcript_file) [] DEFAULT_PROMPTS (7 # 10)).1 /\
  exists f, Some transcript_file = Some f.
Proof.
  assert (StError KEY_MISSING
            ∈ (generate world_up ∅ (Some transcript_file) [] DEFAULT_PROMPTS (7 # 10)).1)
    as Hin by (cbn; left).
  split; [exact Hin |].
  destruct (upload_checked_first world_up ∅ DEFAULT_PROMPTS (7 # 10)) as (_ & _ & Honly).
  exact (Honly (Some transcript_file) [] Hin).
Defined.

(** * Further properties *)

(** ** Credential resolution, all paths *)

(** X1: [get_azure_credentials] never raises, whatever the environment
    and the vault do, and goes to the key vault at most once. *)
Theorem credentials_never_raise (w : world) (environ : gmap string text) :
  (exists credential, (get_azure_credentials w environ).2 = Ok credential) /\
  (vault_attempts (get_azure_credentials w environ).1 <= 1)%nat.
Proof.
  unfold get_azure_credentials. cbv zeta.
  destruct (truthy_str (environ !! "AZURE_OPENAI_API_KEY")); [cbn; eauto |].
  destruct (environ !! "AZURE_KEY_VAULT_NAME") as [[| c name] |]; [cbn; eauto | | cbn; eauto].
  unfold get_secret.
  destruct (key_vault w (key_vault_uri (c :: name)) SECRET_NAME) as [[msg | msg] | value];
    cbn; eauto.
Qed.

(** X2: with no usable primary variable and a vault name, the value of
    the secret [AZURE-OPENAI-API-KEY] of the vault at
    [https://<name>.vault.azure.net/] is returned, and nothing is
    reported. *)
Theorem vault_secret_returned (w : world) (environ : gmap string text)
    (name : text) (value : option text) :
  truthy_str (environ !! "AZURE_OPENAI_API_KEY") = false ->
  environ !! "AZURE_KEY_VAULT_NAME" = Some name -> name <> [] ->
  key_vault w (lit "https://" ++ name ++ lit ".vault.azure.net/")
              (lit "AZURE-OPENAI-API-KEY") = inr value ->
  get_azure_credentials w environ =
    ([KeyVaultGetSecret (lit "https://" ++ name ++ lit ".vault.azure.net/")
                        (lit "AZURE-OPENAI-API-KEY")],
     Ok value).
Proof.
  intros Hkey Hvault Hname Hanswer.
  rewrite (vault_branch w environ name Hkey Hvault Hname).
  unfold key_vault_uri, SECRET_NAME. by rewrite Hanswer.
Qed.

Lemma vault_secret_returned_witness :
  let environ : gmap string text :=
    {[ "AZURE_OPENAI_API_KEY" := []; "AZURE_KEY_VAULT_NAME" := lit "kv" ]} in
  truthy_str (environ !! "AZURE_OPENAI_API_KEY") = false /\
  get_azure_credentials world_up environ =
    ([KeyVaultGetSecret (lit "https://kv.vault.azure.net/") (lit "AZURE-OPENAI-API-KEY")],
     Ok (Some (lit "secret-from-vault"))).
Proof.
  intros environ.
  assert (truthy_str (environ !! "AZURE_OPENAI_API_KEY") = false) as Hkey
    by (vm_compute; reflexivity).
  assert (environ !! "AZURE_KEY_VAULT_NAME" = Some (lit "kv")) as Hvault
    by (vm_compute; reflexivity).
  assert (lit "kv" <> []) as Hname by (vm_compute; discriminate).
  split; [exact Hkey |].
  exact (vault_secret_returned world_up environ (lit "kv") _ Hkey Hvault Hname eq_refl).
Defined.

(** X3: with neither variable usable (absent or empty), [None] is
    returned without any access to the vault and without any message. *)
Theorem no_credentials_none (w : world) (environ : gmap string text) :
  truthy_str (environ !! "AZURE_OPENAI_API_KEY") = false ->
  truthy_str (environ !! "AZURE_KEY_VAULT_NAME") = false ->
  get_azure_credentials w environ = ([], Ok None).
Proof.
  intros Hkey Hvault. unfold get_azure_credentials. cbv zeta. rewrite Hkey.
  by destruct (environ !! "AZURE_KEY_VAULT_NAME") as [[| c name] |].
Qed.

Lemma no_credentials_none_witness :
  truthy_str ((∅ : gmap string text) !! "AZURE_OPENAI_API_KEY") = false /\
  truthy_str ((∅ : gmap string text) !! "AZURE_KEY_VAULT_NAME") = false /\
  get_azure_credentials world_up ∅ = ([], Ok None).
Proof.
  split; [reflexivity |]. split; [reflexivity |].
  exact (no_credentials_none world_up ∅ eq_refl eq_refl).
Defined.

(** ** The connectivity probe *)

(** X4: [setup_azure_openai] never raises.  It sends exactly one request,
    to the chat-completions address of the deployment with the given key,
    and returns [True] exactly when the request is answered with a status
    outside 400..599; otherwise it reports one error and returns
    [False]. *)
Theorem setup_result (w : world) (environ : gmap string text) (key : text) :
  let url := azure_endpoint environ ++ lit "openai/deployments/"
               ++ azure_deployment environ ++ lit "/chat/completions?api-version="
               ++ azure_api_version environ in
  let ok := match post w url key with
            | inr r => negb ((400 <=? status_code r) && (status_code r <? 600))
            | inl _ => false
            end in
  (setup_azure_openai w environ key).2 = Ok ok /\
  exists reported,
    (setup_azure_openai w environ key).1 = RequestsPost url key :: reported /\
    (if ok then reported = []
     else exists e, reported = [StError [Lit "Azure OpenAI Setup Error: "; Str e]]).
Proof.
  cbv zeta. unfold setup_azure_openai, requests_post. fold (probe_url environ).
  destruct (post w (probe_url environ) key) as [[msg | msg] | r].
  - split; [reflexivity |]. eexists. split; [reflexivity |]. eexists. reflexivity.
  - split; [reflexivity |]. eexists. split; [reflexivity |]. eexists. reflexivity.
  - unfold mbind, run_bind, rbind, emit, pure, answer, raise_for_status.
    destruct ((400 <=? status_code r) && (status_code r <? 600)).
    + split; [reflexivity |]. eexists. split; [reflexivity |]. eexists. reflexivity.
    + split; [reflexivity |]. eexists. split; reflexivity.
Qed.

(** ** The saved file *)

Lemma hexdigit_ascii d : d < 16 -> is_printable_ascii (hexdigit d) = true.
Proof.
  intros Hd.
  assert (H16 : d = 0 \/ d = 1 \/ d = 2 \/ d = 3 \/ d = 4 \/ d = 5 \/ d = 6 \/ d = 7 \/
                d = 8 \/ d = 9 \/ d = 10 \/ d = 11 \/ d = 12 \/ d = 13 \/ d = 14 \/ d = 15)
    by lia.
  repeat (destruct H16 as [-> | H16]; [reflexivity |]).
  subst d. reflexivity.
Qed.

Lemma u_escape_ascii n : n < 65536 -> forallb is_printable_ascii (u_escape n) = true.
Proof.
  intros Hn. unfold u_escape, hex4. cbn [forallb].
  rewrite !hexdigit_ascii; [reflexivity | apply N.mod_lt; lia..|].
  apply N.Div0.div_lt_upper_bound; lia.
Qed.

Lemma replace_ascii c : forallb is_printable_ascii (replace c) = true.
Proof.
  unfold replace.
  destruct (c =? 92); [reflexivity |]. destruct (c =? 34); [reflexivity |].
  destruct ((32 <=? c) && (c <=? 126)) eqn:Hprint.
  { cbn [forallb]. unfold is_printable_ascii. by rewrite Hprint. }
  destruct (c =? 8); [reflexivity |]. destruct (c =? 12); [reflexivity |].
  destruct (c =? 10); [reflexivity |]. destruct (c =? 13); [reflexivity |].
  destruct (c =? 9); [reflexivity |].
  destruct (N.ltb_spec c 65536) as [Hbmp | Hbmp]; [by apply u_escape_ascii |].
  rewrite forallb_app, !u_escape_ascii; [reflexivity | |].
  - rewrite pair_s2_value. pose proof (N.mod_lt (c - 65536) 1024 ltac:(done)).
    generalize dependent ((c - 65536) mod 1024). intros; lia.
  - rewrite pair_s1_value. pose proof (N.mod_lt ((c - 65536) / 1024) 1024 ltac:(done)).
    generalize dependent ((c - 65536) / 1024 mod 1024). intros; lia.
Qed.

Lemma escape_ascii s : forallb is_printable_ascii (escape s) = true.
Proof.
  induction s as [| c s IH]; [reflexivity |].
  unfold escape. cbn [map concat]. fold (escape s).
  by rewrite forallb_app, replace_ascii, IH.
Qed.

Lemma basestring_ascii s : forallb is_printable_ascii (py_encode_basestring_ascii s) = true.
Proof.
  unfold py_encode_basestring_ascii. cbn [forallb].
  by rewrite forallb_app, escape_ascii.
Qed.

Lemma dumps_ascii v : forallb is_printable_ascii (dumps v) = true.
Proof.
  induction v as [| b | s | items IH | items IH] using json_ind.
  - reflexivity.
  - by destruct b.
  - apply basestring_ascii.
  - destruct items as [| x l]; [reflexivity |].
    rewrite dumps_arr. apply Forall_cons in IH as [Hx IH].
    assert (forallb is_printable_ascii (arr_tail l) = true) as Htail.
    { induction IH as [| y l Hy _ IHl]; [reflexivity |].
      unfold arr_tail. cbn [map concat]. fold (arr_tail l).
      by rewrite !forallb_app, Hy, IHl. }
    change (91 :: ?t) with ([91] ++ t).
    by rewrite !forallb_app, Hx, Htail.
  - destruct items as [| [k x] l]; [reflexivity |].
    rewrite dumps_obj. apply Forall_cons in IH as [Hx IH]. cbn [snd] in Hx.
    assert (forallb is_printable_ascii (obj_tail l) = true) as Htail.
    { induction IH as [| y l Hy _ IHl]; [reflexivity |].
      unfold obj_tail. cbn [map concat]. fold (obj_tail l). unfold member at 1.
      by rewrite !forallb_app, basestring_ascii, Hy, IHl. }
    change (123 :: ?t) with ([123] ++ t). unfold member. cbn [fst snd].
    by rewrite !forallb_app, basestring_ascii, Hx, Htail.
Qed.

(** X5: whatever the configuration holds, the file [save_config] writes
    consists of characters from the space to the tilde only. *)
Theorem saved_file_ascii (config : json) (fs : gmap string text) :
  exists f,
    save_config config fs !! CONFIG_PATH = Some f /\
    forallb is_printable_ascii f = true.
Proof.
  exists (dumps config). split; [apply lookup_insert_eq | apply dumps_ascii].
Qed.

(** ** What [load_config] can raise *)

Lemma decode_error_raise {A} msg : decode_error_only (@Raise A (JSONDecodeError msg)).
Proof. intros e [= <-]. eauto. Qed.

Lemma decode_error_ok {A} (a : A) : decode_error_only (Ok a).
Proof. intros e [=]. Qed.

Lemma decode_error_unmodelled {A} : decode_error_only (@Unmodelled A).
Proof. intros e [=]. Qed.

Lemma decode_error_fuel {A} : decode_error_only (@OutOfFuel A).
Proof. intros e [=]. Qed.

Lemma decode_error_bind {A B} (m : outcome A) (f : A -> outcome B) :
  decode_error_only m -> (forall a, m = Ok a -> decode_error_only (f a)) ->
  decode_error_only (m ≫= f).
Proof.
  intros Hm Hf. destruct m as [a | e | |]; cbn; [by apply Hf | | done..].
  intros e' [= <-]. by apply Hm.
Qed.

Create HintDb decode.

#[local] Hint Resolve decode_error_raise decode_error_ok decode_error_unmodelled
  decode_error_fuel : decode.

Lemma decode_uXXXX_error s : decode_error_only (decode_uXXXX s).
Proof.
  unfold decode_uXXXX. destruct s as [| a [| b [| c [| d s]]]]; auto with decode.
  destruct (hexval a), (hexval b), (hexval c), (hexval d); auto with decode.
Qed.

Lemma cons_char_error c m : decode_error_only m -> decode_error_only (cons_char c m).
Proof.
  intros Hm. apply decode_error_bind; [exact Hm |]. intros [str rest] _. auto with decode.
Qed.

Lemma py_scanstring_error fuel : forall s, decode_error_only (py_scanstring fuel s).
Proof.
  induction fuel as [| fuel IH]; intros s; [apply decode_error_fuel |].
  rewrite py_scanstring_eq. destruct s as [| c r]; [auto with decode |].
  destruct (c =? 34); [auto with decode |]. destruct (c =? 92).
  - destruct r as [| esc r1]; [auto with decode |].
    destruct (esc =? 117).
    + apply decode_error_bind; [apply decode_uXXXX_error |]. intros uni _. cbv zeta.
      destruct (is_high_surrogate uni && starts_with [92; 117] (drop 4 r1));
        [| by apply cons_char_error].
      apply decode_error_bind; [apply decode_uXXXX_error |]. intros uni2 _.
      destruct (is_low_surrogate uni2); by apply cons_char_error.
    + destruct (BACKSLASH esc); [by apply cons_char_error | auto with decode].
  - destruct (c <? 32); [auto with decode | by apply cons_char_error].
Qed.

Section LoopErrors.

Variable scan : text -> outcome (json * text).
Hypothesis scan_error : forall s, decode_error_only (scan s).

Lemma object_loop_error fuel : forall s pairs,
  decode_error_only (object_loop scan fuel s pairs).
Proof.
  induction fuel as [| fuel IH]; intros s pairs; [apply decode_error_fuel |].
  cbn [object_loop]. apply decode_error_bind; [apply py_scanstring_error |].
  intros [key s1] _. destruct (skip_ws s1) as [| c s2]; [auto with decode |].
  destruct (negb (c =? 58)); [auto with decode |].
  apply decode_error_bind; [apply scan_error |]. intros [value s3] _. cbv zeta.
  destruct (skip_ws s3) as [| nextchar s4]; [auto with decode |].
  destruct (nextchar =? 125); [auto with decode |].
  destruct (negb (nextchar =? 44)); [auto with decode |].
  destruct (skip_ws s4) as [| nextchar' s5]; [auto with decode |].
  destruct (negb (nextchar' =? 34)); [auto with decode | apply IH].
Qed.

Lemma array_loop_error fuel : forall s values,
  decode_error_only (array_loop scan fuel s values).
Proof.
  induction fuel as [| fuel IH]; intros s values; [apply decode_error_fuel |].
  cbn [array_loop]. apply decode_error_bind; [apply scan_error |].
  intros [value s1] _. cbv zeta.
  destruct (skip_ws s1) as [| nextchar s2]; [auto with decode |].
  destruct (nextchar =? 93); [auto with decode |].
  destruct (negb (nextchar =? 44)); [auto with decode | apply IH].
Qed.

End LoopErrors.

Lemma scan_once_error fuel : forall s, decode_error_only (scan_once fuel s).
Proof.
  induction fuel as [| fuel IH]; intros s; [apply decode_error_fuel |].
  rewrite scan_once_eq. destruct s as [| nextchar s']; [auto with decode |].
  destruct (nextchar =? 34).
  { apply decode_error_bind; [apply py_scanstring_error |].
    intros [str rest] _. auto with decode. }
  destruct (nextchar =? 123).
  { unfold JSONObject. destruct (skip_ws s') as [| c s1]; [auto with decode |].
    destruct (c =? 125); [auto with decode |].
    destruct (negb (c =? 34)); [auto with decode | by apply object_loop_error]. }
  destruct (nextchar =? 91).
  { unfold JSONArray. cbv zeta. destruct (skip_ws s') as [| c s1]; [auto with decode |].
    destruct (c =? 93); [auto with decode | by apply array_loop_error]. }
  repeat match goal with
         | |- context [if ?b then _ else _] => destruct b; [auto with decode |]
         end.
  auto with decode.
Qed.

Lemma loads_error s : decode_error_only (loads s).
Proof.
  unfold loads. destruct (starts_with [65279] s); [auto with decode |].
  apply decode_error_bind; [apply scan_once_error |]. intros [obj rest] _.
  destruct (skip_ws rest); auto with decode.
Qed.



(** ** Files written by hand *)

Lemma skip_ws_all ws t : forallb is_ws ws = true -> skip_ws (ws ++ t) = skip_ws t.
Proof.
  induction ws as [| c ws IH]; [done |]. cbn [forallb app skip_ws].
  intros [-> Hws]%andb_true_iff. by apply IH.
Qed.

Lemma skip_ws_only ws : forallb is_ws ws = true -> skip_ws ws = [].
Proof.
  intros Hws. rewrite <- (app_nil_r ws). by rewrite skip_ws_all.
Qed.

Lemma is_ws_not_bom c : is_ws c = true -> c <> 65279.
Proof. intros Hc ->. discriminate. Qed.

(** X7: white space before and after the text of a configuration does
    not matter: [load_config] returns the same mapping. *)
Theorem load_config_skips_white_space (x : json) (ws1 ws2 : text)
    (fs : gmap string text) :
  well_formed x = true -> no_surrogate_pairs x = true ->
  forallb is_ws ws1 = true -> forallb is_ws ws2 = true ->
  fs !! CONFIG_PATH = Some (ws1 ++ dumps x ++ ws2) ->
  load_config fs = Ok x.
Proof.
  intros Hwf Hfree Hws1 Hws2 Hfs. unfold load_config, open_r. rewrite Hfs.
  cbn [mbind outcome_bind obind]. unfold loads.
  assert (starts_with [65279] (ws1 ++ dumps x ++ ws2) = false) as ->.
  { apply bool_decide_eq_false. destruct ws1 as [| c ws1].
    - destruct (dumps_head x) as (c & r & -> & _ & Hbom). cbn. congruence.
    - cbn in Hws1 |- *. apply andb_true_iff in Hws1 as [Hc%is_ws_not_bom _]. congruence. }
  rewrite skip_ws_all, skip_ws_dumps by done.
  rewrite scan_once_dumps; [| done | done |].
  - cbn [mbind outcome_bind obind]. by rewrite skip_ws_only.
  - pose proof (size_le_length x). rewrite !length_app. lia.
Qed.

Lemma load_config_skips_white_space_witness :
  let f := lit "  " ++ dumps DEFAULT_PROMPTS ++ [10] in
  load_config {[ CONFIG_PATH := f ]} = Ok DEFAULT_PROMPTS.
Proof.
  apply (load_config_skips_white_space DEFAULT_PROMPTS (lit "  ") [10]);
    vm_compute; reflexivity.
Defined.

(** ** A key written twice *)


Lemma dict_set_get k v d k' :
  dict_get (dict_set k v d) k' = if decide (k' = k) then Some v else dict_get d k'.
Proof.
  induction d as [| [k0 v0] d IH]; cbn.
  - by destruct (decide (k' = k)).
  - destruct (decide (k = k0)) as [-> | Hne]; cbn.
    + by destruct (decide (k' = k0)).
    + destruct (decide (k' = k0)) as [-> | Hne'].
      * by destruct (decide (k0 = k)) as [-> | _].
      * exact IH.
Qed.




(** ** What [load_config] returns can be saved and loaded again *)

Lemma scalar_drop n : forall s,
  is_scalar_text s = true -> is_scalar_text (drop n s) = true.
Proof.
  induction n as [| n IH]; intros [| c s]; cbn; try done.
  intros [_ Hs]%andb_true_iff. by apply IH.
Qed.

Lemma scalar_skip_ws s : is_scalar_text s = true -> is_scalar_text (skip_ws s) = true.
Proof.
  induction s as [| c s IH]; [done |]. cbn [skip_ws]. destruct (is_ws c); [| done].
  cbn. intros [_ Hs]%andb_true_iff. by apply IH.
Qed.

Lemma scalar_not_surrogate c :
  is_scalar c = true ->
  c < 1114112 /\ is_high_surrogate c = false /\ is_low_surrogate c = false.
Proof.
  unfold is_scalar, is_high_surrogate, is_low_surrogate.
  intros [H | [H1 H2]%andb_true_iff]%orb_true_iff.
  - apply N.ltb_lt in H. split; [lia |].
    split; apply andb_false_iff; left; apply N.leb_gt; lia.
  - apply N.ltb_lt in H1, H2. split; [done |].
    split; apply andb_false_iff; right; apply N.leb_gt; lia.
Qed.

Lemma hexval_lt c d : hexval c = Some d -> d < 16.
Proof.
  unfold hexval.
  destruct ((48 <=? c) && (c <=? 57)) eqn:H1.
  { intros [= <-]. apply andb_true_iff in H1 as [Ha%N.leb_le Hb%N.leb_le]. lia. }
  destruct ((97 <=? c) && (c <=? 102)) eqn:H2.
  { intros [= <-]. apply andb_true_iff in H2 as [Ha%N.leb_le Hb%N.leb_le]. lia. }
  destruct ((65 <=? c) && (c <=? 70)) eqn:H3; [| done].
  intros [= <-]. apply andb_true_iff in H3 as [Ha%N.leb_le Hb%N.leb_le]. lia.
Qed.

Lemma decode_uXXXX_lt s uni : decode_uXXXX s = Ok uni -> uni < 65536.
Proof.
  unfold decode_uXXXX. destruct s as [| a [| b [| c [| d s]]]]; try done.
  destruct (hexval a) as [a' |] eqn:Ha, (hexval b) as [b' |] eqn:Hb,
           (hexval c) as [c' |] eqn:Hc, (hexval d) as [d' |] eqn:Hd; try done.
  intros [= <-]. apply hexval_lt in Ha, Hb, Hc, Hd. lia.
Qed.

Lemma join_surrogates_range uni uni2 :
  is_high_surrogate uni = true -> is_low_surrogate uni2 = true ->
  65536 <= join_surrogates uni uni2 < 1114112.
Proof.
  unfold is_high_surrogate, is_low_surrogate, join_surrogates.
  intros [H1%N.leb_le H2%N.leb_le]%andb_true_iff [H3%N.leb_le H4%N.leb_le]%andb_true_iff.
  rewrite N.shiftl_mul_pow2, lor_mul_pow2 by (change (2 ^ 10) with 1024; lia).
  change (2 ^ 10) with 1024. lia.
Qed.

Lemma not_surrogate_ge c :
  65536 <= c -> is_high_surrogate c = false /\ is_low_surrogate c = false.
Proof.
  intros Hc. unfold is_high_surrogate, is_low_surrogate.
  split; apply andb_false_iff; right; apply N.leb_gt; lia.
Qed.

Lemma BACKSLASH_plain esc char :
  BACKSLASH esc = Some char ->
  char < 1114112 /\ is_high_surrogate char = false /\ is_low_surrogate char = false.
Proof.
  unfold BACKSLASH.
  repeat match goal with
         | |- context [if ?b then _ else _] => destruct b; [by intros [= <-] |]
         end.
  done.
Qed.

Lemma scanned_cons s s' c str :
  c < 1114112 ->
  scanned s' str ->
  (is_high_surrogate c = true ->
   forall c' str', str = c' :: str' -> is_low_surrogate c' = false) ->
  (is_low_surrogate c = true ->
   starts_with [92; 117] s = true /\ decode_uXXXX (drop 2 s) = Ok c) ->
  scanned s (c :: str).
Proof.
  intros Hc (Hstr & Hfree & _) Hhigh Hlow. split; [| split].
  - unfold is_str in *. cbn [forallb]. rewrite Hstr, andb_true_r. by apply N.ltb_lt.
  - cbn [no_surrogate_pair]. rewrite Hfree, andb_true_r.
    destruct str as [| c' str']; [done |].
    destruct (is_high_surrogate c) eqn:Hh; [| done].
    by rewrite (Hhigh eq_refl c' str' eq_refl).
  - intros c0 str0 [= <- <-]. exact Hlow.
Qed.

Lemma cons_char_inv c m str rest :
  cons_char c m = Ok (str, rest) -> exists str', m = Ok (str', rest) /\ str = c :: str'.
Proof. destruct m as [[str' rest'] | | |]; cbn; [| done..]. intros [= <- <-]. eauto. Qed.

Lemma py_scanstring_scanned fuel : forall s str rest,
  is_scalar_text s = true ->
  py_scanstring fuel s = Ok (str, rest) ->
  scanned s str /\ is_scalar_text rest = true.
Proof.
  induction fuel as [| fuel IH]; intros s str rest Hs; [done |].
  rewrite py_scanstring_eq. destruct s as [| c r]; [done |].
  cbn [is_scalar_text forallb] in Hs. apply andb_true_iff in Hs as [Hc Hr].
  fold (is_scalar_text r) in Hr.
  destruct (scalar_not_surrogate c Hc) as (Hc1 & Hc2 & Hc3).
  destruct (N.eqb_spec c 34) as [-> | H34].
  { intros [= <- <-]. split; [| done]. split; [done |]. split; [done |]. by intros. }
  destruct (N.eqb_spec c 92) as [-> | H92].
  - destruct r as [| esc r1]; [done |].
    cbn [is_scalar_text forallb] in Hr. apply andb_true_iff in Hr as [_ Hr1].
    fold (is_scalar_text r1) in Hr1.
    destruct (N.eqb_spec esc 117) as [-> | H117].
    + destruct (decode_uXXXX r1) as [uni | | |] eqn:Huni; try done.
      cbn [mbind outcome_bind obind]. cbv zeta.
      pose proof (decode_uXXXX_lt _ _ Huni) as Hlt.
      pose proof (scalar_drop 4 r1 Hr1) as Hr2.
      assert (forall str0,
                py_scanstring fuel (drop 4 r1) = Ok (str0, rest) ->
                (forall uni2, is_high_surrogate uni = true ->
                   starts_with [92; 117] (drop 4 r1) = true ->
                   decode_uXXXX (drop 2 (drop 4 r1)) = Ok uni2 ->
                   is_low_surrogate uni2 = false) ->
                scanned (92 :: 117 :: r1) (uni :: str0) /\ is_scalar_text rest = true)
        as Hsingle.
      { intros str0 Hscan Hnot. destruct (IH _ _ _ Hr2 Hscan) as [Hscanned Hrest].
        split; [| done]. apply (scanned_cons _ (drop 4 r1)); [lia | done | |].
        - intros Hhigh c' str' -> . destruct (is_low_surrogate c') eqn:Hlow; [| done].
          destruct Hscanned as (_ & _ & Hfront).
          destruct (Hfront c' str' eq_refl Hlow) as [Hstart Hdec].
          by rewrite (Hnot c' Hhigh Hstart Hdec) in Hlow.
        - intros Hlow. split; [reflexivity | exact Huni]. }
      destruct (is_high_surrogate uni) eqn:Hhigh; cbn [andb].
      * destruct (starts_with [92; 117] (drop 4 r1)) eqn:Hstart.
        -- destruct (decode_uXXXX (drop 2 (drop 4 r1))) as [uni2 | | |] eqn:Huni2; try done.
           cbn [mbind outcome_bind obind].
           destruct (is_low_surrogate uni2) eqn:Hlow2.
           ++ intros (str0 & Hscan & ->)%cons_char_inv.
              rewrite drop_drop in Hscan.
              destruct (IH _ _ _ (scalar_drop (4 + 6) r1 Hr1) Hscan) as [Hscanned Hrest].
              split; [| done].
              destruct (join_surrogates_range uni uni2 Hhigh Hlow2) as [Hge Hlt'].
              destruct (not_surrogate_ge _ Hge) as [Hnh Hnl].
              apply (scanned_cons _ (drop (4 + 6) r1)); [done | done | |].
              ** intros Habs. by rewrite Hnh in Habs.
              ** intros Habs. by rewrite Hnl in Habs.
           ++ intros (str0 & Hscan & ->)%cons_char_inv.
              apply Hsingle; [done |].
              intros uni2' _ _ Hdec'. congruence.
        -- intros (str0 & Hscan & ->)%cons_char_inv.
           apply Hsingle; [done |]. intros; congruence.
      * intros (str0 & Hscan & ->)%cons_char_inv.
        apply Hsingle; [done |]. intros; congruence.
    + destruct (BACKSLASH esc) as [char |] eqn:Hesc; [| done].
      intros (str0 & Hscan & ->)%cons_char_inv.
      destruct (IH _ _ _ Hr1 Hscan) as [Hscanned Hrest]. split; [| done].
      destruct (BACKSLASH_plain _ _ Hesc) as (Hb1 & Hb2 & Hb3).
      apply (scanned_cons _ r1); [done | done | |].
      * intros Habs. by rewrite Hb2 in Habs.
      * intros Habs. by rewrite Hb3 in Habs.
  - destruct (c <? 32); [done |].
    intros (str0 & Hscan & ->)%cons_char_inv.
    destruct (IH _ _ _ Hr Hscan) as [Hscanned Hrest]. split; [| done].
    apply (scanned_cons _ r); [done | done | |].
    + intros Habs. by rewrite Hc2 in Habs.
    + intros Habs. by rewrite Hc3 in Habs.
Qed.

Lemma scanstring_scanned s str rest :
  is_scalar_text s = true -> scanstring s = Ok (str, rest) ->
  is_str str = true /\ no_surrogate_pair str = true /\ is_scalar_text rest = true.
Proof.
  intros Hs Hscan. destruct (py_scanstring_scanned _ _ _ _ Hs Hscan) as [(H1 & H2 & _) H3].
  done.
Qed.

Lemma dict_set_keys k v d :
  (dict_set k v d).*1 = if bool_decide (k ∈ d.*1) then d.*1 else d.*1 ++ [k].
Proof.
  induction d as [| [k' v'] d IH]; [done |]. cbn [dict_set].
  destruct (decide (k = k')) as [-> | Hne].
  - cbn. rewrite bool_decide_eq_true_2; [done | left].
  - cbn [fmap list_fmap fst]. change (list_fmap _ _ fst ?l) with (l.*1). rewrite IH.
    destruct (bool_decide (k ∈ d.*1)) eqn:Hin.
    + apply bool_decide_eq_true in Hin. rewrite bool_decide_eq_true_2; [done | by right].
    + apply bool_decide_eq_false in Hin. rewrite bool_decide_eq_false_2; [done |].
      intros [? | ?]%elem_of_cons; done.
Qed.

Lemma dict_set_nodup k v d : NoDup d.*1 -> NoDup (dict_set k v d).*1.
Proof.
  intros Hnd. rewrite dict_set_keys. destruct (bool_decide (k ∈ d.*1)) eqn:Hin; [done |].
  apply bool_decide_eq_false in Hin. apply NoDup_app. split; [done |].
  split; [| apply NoDup_singleton]. intros x Hx ->%list_elem_of_singleton. done.
Qed.

Lemma dict_set_forall (Q : text * json -> Prop) k v d :
  Q (k, v) -> Forall Q d -> Forall Q (dict_set k v d).
Proof.
  intros Hkv. induction 1 as [| [k' v'] d Hk' Hd IH]; cbn [dict_set].
  - by constructor.
  - destruct (decide (k = k')); constructor; done.
Qed.

Lemma dict_members (Q : text * json -> Prop) pairs :
  Forall Q pairs -> Forall Q (dict pairs) /\ NoDup (dict pairs).*1.
Proof.
  unfold dict. intros Hpairs.
  assert (forall acc, Forall Q acc -> NoDup acc.*1 ->
            Forall Q (fold_left (fun d kv => dict_set kv.1 kv.2 d) pairs acc) /\
            NoDup (fold_left (fun d kv => dict_set kv.1 kv.2 d) pairs acc).*1) as Hfold.
  { induction Hpairs as [| [k v] pairs Hkv _ IH]; intros acc Hacc Hnd; [done |].
    cbn [fold_left]. apply IH; [by apply dict_set_forall | by apply dict_set_nodup]. }
  apply Hfold; [constructor | constructor].
Qed.

Lemma members_loaded items :
  Forall member_ok items -> NoDup items.*1 ->
  well_formed (JObj items) = true /\ no_surrogate_pairs (JObj items) = true.
Proof.
  intros Hitems Hnd. cbn [well_formed no_surrogate_pairs].
  rewrite bool_decide_eq_true_2 by done. rewrite andb_true_r.
  split; apply forallb_forall; intros kv Hkv%list_elem_of_In;
    rewrite Forall_forall in Hitems; destruct (Hitems kv Hkv) as (H1 & H2 & H3 & H4).
  - by rewrite H1, H3.
  - by rewrite H2, H4.
Qed.

Lemma values_loaded values :
  Forall (fun v => well_formed v = true /\ no_surrogate_pairs v = true) values ->
  well_formed (JArr values) = true /\ no_surrogate_pairs (JArr values) = true.
Proof.
  intros Hvalues. cbn [well_formed no_surrogate_pairs].
  split; apply forallb_forall; intros v Hv%list_elem_of_In;
    rewrite Forall_forall in Hvalues; by destruct (Hvalues v Hv).
Qed.

Section LoopLoaded.

Variable scan : text -> outcome (json * text).
Hypothesis scan_loaded : forall s v rest,
  is_scalar_text s = true -> scan s = Ok (v, rest) ->
  well_formed v = true /\ no_surrogate_pairs v = true /\ is_scalar_text rest = true.

Lemma object_loop_loaded fuel : forall s pairs v rest,
  is_scalar_text s = true -> Forall member_ok pairs ->
  object_loop scan fuel s pairs = Ok (v, rest) ->
  well_formed v = true /\ no_surrogate_pairs v = true /\ is_scalar_text rest = true.
Proof.
  induction fuel as [| fuel IH]; intros s pairs v rest Hs Hpairs; [done |].
  cbn [object_loop].
  destruct (scanstring s) as [[key s1] | | |] eqn:Hkey; try done.
  destruct (scanstring_scanned _ _ _ Hs Hkey) as (Hk1 & Hk2 & Hs1).
  cbn [mbind outcome_bind obind].
  pose proof (scalar_skip_ws s1 Hs1) as Hs1'.
  destruct (skip_ws s1) as [| c s2]; [done |].
  destruct (negb (c =? 58)); [done |].
  cbn [is_scalar_text forallb] in Hs1'. apply andb_true_iff in Hs1' as [_ Hs2].
  fold (is_scalar_text s2) in Hs2.
  destruct (scan (skip_ws s2)) as [[value s3] | | |] eqn:Hvalue; try done.
  destruct (scan_loaded _ _ _ (scalar_skip_ws s2 Hs2) Hvalue) as (Hv1 & Hv2 & Hs3).
  cbn [mbind outcome_bind obind]. cbv zeta.
  assert (Forall member_ok (pairs ++ [(key, value)])) as Hpairs'.
  { apply Forall_app. split; [done |]. by repeat constructor. }
  pose proof (scalar_skip_ws s3 Hs3) as Hs3'.
  destruct (skip_ws s3) as [| nextchar s4]; [done |].
  cbn [is_scalar_text forallb] in Hs3'. apply andb_true_iff in Hs3' as [_ Hs4].
  fold (is_scalar_text s4) in Hs4.
  destruct (nextchar =? 125).
  { intros [= <- <-]. destruct (dict_members _ _ Hpairs') as [Hd Hnd].
    destruct (members_loaded _ Hd Hnd). done. }
  destruct (negb (nextchar =? 44)); [done |].
  pose proof (scalar_skip_ws s4 Hs4) as Hs4'.
  destruct (skip_ws s4) as [| nextchar' s5]; [done |].
  cbn [is_scalar_text forallb] in Hs4'. apply andb_true_iff in Hs4' as [_ Hs5].
  destruct (negb (nextchar' =? 34)); [done |]. by apply IH.
Qed.

Lemma array_loop_loaded fuel : forall s values v rest,
  is_scalar_text s = true ->
  Forall (fun v => well_formed v = true /\ no_surrogate_pairs v = true) values ->
  array_loop scan fuel s values = Ok (v, rest) ->
  well_formed v = true /\ no_surrogate_pairs v = true /\ is_scalar_text rest = true.
Proof.
  induction fuel as [| fuel IH]; intros s values v rest Hs Hvalues; [done |].
  cbn [array_loop].
  destruct (scan s) as [[value s1] | | |] eqn:Hvalue; try done.
  destruct (scan_loaded _ _ _ Hs Hvalue) as (Hv1 & Hv2 & Hs1).
  cbn [mbind outcome_bind obind]. cbv zeta.
  assert (Forall (fun v => well_formed v = true /\ no_surrogate_pairs v = true)
            (values ++ [value])) as Hvalues'.
  { apply Forall_app. split; [done |]. by repeat constructor. }
  pose proof (scalar_skip_ws s1 Hs1) as Hs1'.
  destruct (skip_ws s1) as [| nextchar s2]; [done |].
  cbn [is_scalar_text forallb] in Hs1'. apply andb_true_iff in Hs1' as [_ Hs2].
  fold (is_scalar_text s2) in Hs2.
  destruct (nextchar =? 93).
  { intros [= <- <-]. destruct (values_loaded _ Hvalues'). done. }
  destruct (negb (nextchar =? 44)); [done |].
  apply IH; [by apply scalar_skip_ws | done].
Qed.

End LoopLoaded.

Lemma scan_once_loaded fuel : forall s v rest,
  is_scalar_text s = true -> scan_once fuel s = Ok (v, rest) ->
  well_formed v = true /\ no_surrogate_pairs v = true /\ is_scalar_text rest = true.
Proof.
  induction fuel as [| fuel IH]; intros s v rest Hs; [done |]. rewrite scan_once_eq.
  destruct s as [| nextchar s']; [done |].
  pose proof Hs as Hs0.
  cbn [is_scalar_text forallb] in Hs. apply andb_true_iff in Hs as [_ Hs'].
  fold (is_scalar_text s') in Hs'.
  destruct (nextchar =? 34).
  { destruct (scanstring s') as [[str r] | | |] eqn:Hstr; try done.
    destruct (scanstring_scanned _ _ _ Hs' Hstr) as (H1 & H2 & H3).
    by intros [= <- <-]. }
  destruct (nextchar =? 123).
  { unfold JSONObject. pose proof (scalar_skip_ws s' Hs') as Hs1.
    destruct (skip_ws s') as [| c s1]; [done |].
    cbn [is_scalar_text forallb] in Hs1. apply andb_true_iff in Hs1 as [_ Hs1].
    destruct (c =? 125); [by intros [= <- <-] |].
    destruct (negb (c =? 34)); [done |].
    by apply (object_loop_loaded _ IH). }
  destruct (nextchar =? 91).
  { unfold JSONArray. cbv zeta. pose proof (scalar_skip_ws s' Hs') as Hs1.
    destruct (skip_ws s') as [| c s1]; [done |].
    destruct (c =? 93).
    { cbn [is_scalar_text forallb] in Hs1. apply andb_true_iff in Hs1 as [_ Hs1].
      by intros [= <- <-]. }
    by apply (array_loop_loaded _ IH). }
  remember (nextchar :: s') as s eqn:Heqs. clear Heqs.
  destruct (starts_with (lit "null") s).
  { intros [= <- <-]. split; [done |]. split; [done |]. by apply scalar_drop. }
  destruct (starts_with (lit "true") s).
  { intros [= <- <-]. split; [done |]. split; [done |]. by apply scalar_drop. }
  destruct (starts_with (lit "false") s).
  { intros [= <- <-]. split; [done |]. split; [done |]. by apply scalar_drop. }
  destruct (match_number s); [done |].
  destruct (starts_with (lit "NaN") s); [done |].
  destruct (starts_with (lit "Infinity") s); [done |].
  by destruct (starts_with (lit "-Infinity") s).
Qed.

Lemma loads_loaded s v :
  is_scalar_text s = true -> loads s = Ok v ->
  well_formed v = true /\ no_surrogate_pairs v = true.
Proof.
  intros Hs. unfold loads. destruct (starts_with [65279] s); [done |].
  destruct (scan_once (S (length s)) (skip_ws s)) as [[obj rest] | | |] eqn:Hscan; try done.
  destruct (scan_once_loaded _ _ _ _ (scalar_skip_ws s Hs) Hscan) as (H1 & H2 & _).
  cbn [mbind outcome_bind obind]. destruct (skip_ws rest); [| done]. by intros [= <-].
Qed.

(** X9: whatever [load_config] returns for a file of Unicode text, when
    saved by [save_config], is returned by the next [load_config]. *)
Theorem load_save_load (fs fs' : gmap string text) (f : text) (config : json) :
  fs !! CONFIG_PATH = Some f -> is_scalar_text f = true ->
  load_config fs = Ok config ->
  load_config (save_config config fs') = Ok config.
Proof.
  intros Hfs Hf Hload. unfold load_config, open_r in Hload. rewrite Hfs in Hload.
  cbn [mbind outcome_bind obind] in Hload.
  destruct (loads f) as [v | e | |] eqn:Hloads; try done.
  - cbn in Hload. injection Hload as ->. destruct (loads_loaded f config Hf Hloads) as [Hwf Hfree].
    unfold load_config. rewrite open_r_saved. cbn [mbind outcome_bind obind].
    by rewrite loads_dumps.
  - destruct (loads_error f e Hloads) as [msg ->]. done.
Qed.

Lemma load_save_load_witness :
  let f := lit "  " ++ dumps unicode_prompts in
  is_scalar_text f = true /\
  load_config {[ CONFIG_PATH := f ]} = Ok unicode_prompts /\
  load_config (save_config unicode_prompts ∅) = Ok unicode_prompts.
Proof.
  intros f.
  assert (is_scalar_text f = true) as Hf by (vm_compute; reflexivity).
  assert (load_config {[ CONFIG_PATH := f ]} = Ok unicode_prompts) as Hload
    by (vm_compute; reflexivity).
  split; [exact Hf |]. split; [exact Hload |].
  exact (load_save_load {[ CONFIG_PATH := f ]} ∅ f unicode_prompts eq_refl Hf Hload).
Defined.

(** ** The key typed on the page *)

Lemma lstrip_split s :
  exists pre, s = pre ++ lstrip s /\ forallb is_space pre = true /\
              match lstrip s with c :: _ => is_space c = false | [] => True end.
Proof.
  induction s as [| c s (pre & Hs & Hpre & Hhead)]; [by exists [] |].
  cbn [lstrip]. destruct (is_space c) eqn:Hc.
  - exists (c :: pre). split; [cbn; congruence |]. split; [| done].
    cbn. by rewrite Hc.
  - exists []. by rewrite Hc.
Qed.

Lemma lstrip_blank s : forallb is_space s = true -> lstrip s = [].
Proof.
  induction s as [| c s IH]; [done |]. cbn. intros [-> Hs]%andb_true_iff. by apply IH.
Qed.

Lemma forallb_reverse {A} (p : A -> bool) l : forallb p (reverse l) = forallb p l.
Proof.
  induction l as [| x l IH]; [done |].
  rewrite reverse_cons, forallb_app, IH. cbn. rewrite andb_true_r. apply andb_comm.
Qed.

Lemma strip_blank s : forallb is_space s = true -> strip s = [].
Proof. intros Hs. unfold strip. by rewrite lstrip_blank. Qed.

(** What [strip] leaves: the text without the white space at its two ends. *)
Lemma strip_split s :
  exists pre suf,
    s = pre ++ strip s ++ suf /\
    forallb is_space pre = true /\ forallb is_space suf = true /\
    match strip s with c :: _ => is_space c = false | [] => True end /\
    match reverse (strip s) with c :: _ => is_space c = false | [] => True end.
Proof.
  destruct (lstrip_split s) as (pre & Hs & Hpre & Hhead).
  destruct (lstrip_split (reverse (lstrip s))) as (suf & Hr & Hsuf & Hlast).
  unfold strip, rstrip.
  set (m := lstrip (reverse (lstrip s))) in *.
  assert (lstrip s = reverse m ++ reverse suf) as Hl.
  { rewrite <- reverse_app, <- Hr. by rewrite reverse_involutive. }
  exists pre, (reverse suf). split; [by rewrite <- Hl |].
  split; [done |]. split; [by rewrite forallb_reverse |].
  rewrite reverse_involutive. split; [| done].
  destruct (reverse m) as [| c r] eqn:Hm; [done |].
  rewrite Hl in Hhead. exact Hhead.
Qed.

(** X10: when neither the environment nor the vault gives a key, the key
    used is what was typed without the white space at its two ends; a
    typed key of white space only counts as no key, and the generate
    action then asks for the key and sends nothing. *)
Theorem typed_key_stripped (credential : option text) (typed : text) :
  truthy_str credential = false ->
  (exists pre suf,
     typed = pre ++ resolve_api_key credential typed ++ suf /\
     forallb is_space pre = true /\ forallb is_space suf = true /\
     match resolve_api_key credential typed with
     | c :: _ => is_space c = false
     | [] => True
     end /\
     match reverse (resolve_api_key credential typed) with
     | c :: _ => is_space c = false
     | [] => True
     end) /\
  (forallb is_space typed = true ->
   forall w environ f prompts temp,
     generate w environ (Some f) (resolve_api_key credential typed) prompts temp
     = ([StError KEY_MISSING], Ok tt)).
Proof.
  intros Hcred.
  assert (resolve_api_key credential typed = strip typed) as ->.
  { unfold resolve_api_key. destruct credential as [[| c s] |]; try done;
      by destruct typed. }
  split; [apply strip_split |].
  intros Hblank w environ f prompts temp. by rewrite strip_blank.
Qed.

Lemma typed_key_stripped_witness :
  resolve_api_key None (lit "  sk-1 ") = lit "sk-1" /\
  generate world_up ∅ (Some transcript_file) (resolve_api_key (Some []) (lit "   "))
           DEFAULT_PROMPTS (7 # 10)
  = ([StError KEY_MISSING], Ok tt).
Proof.
  split; [vm_compute; reflexivity |].
  destruct (typed_key_stripped (Some []) (lit "   ") eq_refl) as [_ Hblank].
  apply Hblank. vm_compute. reflexivity.
Defined.

(** ** The prompt fields *)

Lemma dict_set_same k v d : dict_get d k = Some v -> dict_set k v d = d.
Proof.
  induction d as [| [k' v'] d IH]; [done |]. cbn.
  destruct (decide (k = k')) as [-> | Hne]; [by intros [= ->] |].
  intros Hget. by rewrite IH.
Qed.

Lemma render_field_ok ui agent field p p' :
  render_field ui agent field p = Ok p' ->
  exists fields s,
    p = JObj fields /\ dict_get fields (lit field) = Some (JStr s) /\
    p' = JObj (dict_set (lit field)
                 (JStr (ui (agent ++ lit "_" ++ lit field) s)) fields).
Proof.
  unfold render_field, getitem. destruct p as [| | | | fields]; try done.
  destruct (dict_get fields (lit field)) as [[| | s | |] |] eqn:Hget; try done.
  cbn. intros [= <-]. eauto.
Qed.

Lemma render_field_str ui agent field fields s :
  dict_get fields (lit field) = Some (JStr s) ->
  render_field ui agent field (JObj fields)
  = Ok (JObj (dict_set (lit field) (JStr (ui (agent ++ lit "_" ++ lit field) s)) fields)).
Proof. intros Hget. unfold render_field, getitem. by rewrite Hget. Qed.

(** What [render_agent] does to an entry it accepts. *)
Lemma render_agent_ok ui agent p p' :
  render_agent ui agent p = Ok p' ->
  exists fields r g b,
    p = JObj fields /\
    dict_get fields (lit "role") = Some (JStr r) /\
    dict_get fields (lit "goal") = Some (JStr g) /\
    dict_get fields (lit "backstory") = Some (JStr b) /\
    p' = JObj (dict_set (lit "backstory") (JStr (ui (agent ++ lit "_backstory") b))
                (dict_set (lit "goal") (JStr (ui (agent ++ lit "_goal") g))
                   (dict_set (lit "role") (JStr (ui (agent ++ lit "_role") r)) fields))).
Proof.
  unfold render_agent.
  destruct (render_field ui agent "role" p) as [p1 | | |] eqn:H1; try done.
  cbn [mbind outcome_bind obind].
  destruct (render_field ui agent "goal" p1) as [p2 | | |] eqn:H2; try done.
  cbn [mbind outcome_bind obind]. intros H3.
  apply render_field_ok in H1 as (fields & r & -> & Hr & ->).
  apply render_field_ok in H2 as (fields2 & g & [= <-] & Hg & ->).
  apply render_field_ok in H3 as (fields3 & b & [= <-] & Hb & ->).
  rewrite dict_set_get in Hb. rewrite dict_set_get in Hg, Hb.
  exists fields, r, g, b. repeat split; try done.
Qed.

Lemma render_agent_entry ui agent p :
  agent_entry p = true <-> exists p', render_agent ui agent p = Ok p'.
Proof.
  split.
  - unfold agent_entry. destruct p as [| | | | fields]; try done.
    destruct (dict_get fields (lit "role")) as [[| | r | |] |] eqn:Hr; try done.
    destruct (dict_get fields (lit "goal")) as [[| | g | |] |] eqn:Hg; try done.
    destruct (dict_get fields (lit "backstory")) as [[| | b | |] |] eqn:Hb; try done.
    intros _. unfold render_agent.
    rewrite (render_field_str _ _ "role" _ r Hr). cbn [mbind outcome_bind obind].
    rewrite (render_field_str _ _ "goal" _ g); [| by rewrite dict_set_get].
    cbn [mbind outcome_bind obind].
    rewrite (render_field_str _ _ "backstory" _ b); [eauto |].
    by rewrite !dict_set_get.
  - intros [p' (fields & r & g & b & -> & Hr & Hg & Hb & _)%render_agent_ok].
    unfold agent_entry. by rewrite Hr, Hg, Hb.
Qed.

Lemma render_agents_ok ui items : forall items',
  render_agents ui items = Ok items' <-> Forall2 (agent_rendered ui) items items'.
Proof.
  induction items as [| [agent p] items IH]; intros items'.
  - cbn. split; [intros [= <-]; constructor | by intros ->%Forall2_nil_inv_l].
  - cbn [render_agents]. split.
    + destruct (if bool_decide (agent = lit "tasks") then Ok p else render_agent ui agent p)
        as [p' | | |] eqn:Hp; try done.
      cbn [mbind outcome_bind obind].
      destruct (render_agents ui items) as [rest | | |] eqn:Hrest; try done.
      cbn. intros [= <-]. constructor; [| by apply IH].
      split; [done |]. cbn [fst snd].
      destruct (bool_decide (agent = lit "tasks")); [by injection Hp as -> | done].
    + intros ([agent' p'] & rest & [Hk Hp] & Hrest & ->)%Forall2_cons_inv_l.
      cbn [fst snd] in Hk, Hp. subst agent'. apply IH in Hrest. rewrite Hrest.
      destruct (bool_decide (agent = lit "tasks")); [by subst | by rewrite Hp].
Qed.

Lemma render_tasks_ok ui items : forall items',
  render_tasks ui items = Ok items' <-> Forall2 (task_rendered ui) items items'.
Proof.
  induction items as [| [task d] items IH]; intros items'.
  - cbn. split; [intros [= <-]; constructor | by intros ->%Forall2_nil_inv_l].
  - cbn [render_tasks]. split.
    + destruct d as [| | s | |]; try done. cbn [widget_value mbind outcome_bind obind].
      destruct (render_tasks ui items) as [rest | | |] eqn:Hrest; try done.
      cbn. intros [= <-]. constructor; [| by apply IH].
      split; [done |]. cbn [fst snd]. eauto.
    + intros ([task' d'] & rest & [Hk (s & Hd & Hd')] & Hrest & ->)%Forall2_cons_inv_l.
      cbn [fst snd] in Hk, Hd, Hd'. subst. apply IH in Hrest. by rewrite Hrest.
Qed.

Lemma rendered_keys {R : text * json -> text * json -> Prop} items items' :
  (forall kv kv', R kv kv' -> kv'.1 = kv.1) ->
  Forall2 R items items' -> items'.*1 = items.*1.
Proof.
  intros HR. induction 1 as [| kv kv' items items' Hkv _ IH]; [done |].
  cbn. rewrite (HR _ _ Hkv). f_equal. exact IH.
Qed.

Lemma rendered_get {R : text * json -> text * json -> Prop} items items' key :
  (forall kv kv', R kv kv' -> kv'.1 = kv.1) ->
  Forall2 R items items' ->
  match dict_get items' key with
  | Some v' => exists v, dict_get items key = Some v /\ R (key, v) (key, v')
  | None => dict_get items key = None
  end.
Proof.
  intros HR. induction 1 as [| [k v] [k' v'] items items' Hkv _ IH]; [done |].
  pose proof (HR _ _ Hkv) as Hk. cbn [fst] in Hk. subst k'. cbn [dict_get].
  destruct (decide (key = k)) as [-> | Hne]; [eauto | exact IH].
Qed.

Lemma dict_get_contains items key :
  bool_decide (key ∈ items.*1) = bool_decide (is_Some (dict_get items key)).
Proof.
  apply bool_decide_ext. induction items as [| [k v] items IH]; cbn.
  - split; [by intros ?%elem_of_nil | by intros [? ?]].
  - destruct (decide (key = k)) as [-> | Hne].
    + split; [eauto | intros _; left].
    + rewrite elem_of_cons. split; [intros [? | ?]; [done | by apply IH] |].
      intros ?. right. by apply IH.
Qed.

Lemma tasks_entry_kept ui v v' :
  agent_rendered ui (lit "tasks", v) (lit "tasks", v') -> v' = v.
Proof.
  intros [_ Hsame]. cbn [fst snd] in Hsame.
  by rewrite bool_decide_eq_true_2 in Hsame.
Qed.

(** What [render_prompts] returns, when it returns. *)
Lemma render_prompts_ok ui prompts prompts' :
  render_prompts ui prompts = Ok prompts' <->
  exists items items' descriptions descriptions',
    prompts = JObj items /\
    Forall2 (agent_rendered ui) items items' /\
    dict_get items (lit "tasks") = Some (JObj descriptions) /\
    Forall2 (task_rendered ui) descriptions descriptions' /\
    prompts' = JObj (dict_set (lit "tasks") (JObj descriptions') items').
Proof.
  split.
  - unfold render_prompts. destruct prompts as [| | | | items]; try done.
    destruct (render_agents ui items) as [items' | | |] eqn:Hagents; try done.
    cbn [mbind outcome_bind obind]. apply render_agents_ok in Hagents.
    pose proof (rendered_get items items' (lit "tasks")
                  (fun kv kv' (H : agent_rendered ui kv kv') => proj1 H) Hagents) as Hget.
    unfold getitem.
    destruct (dict_get items' (lit "tasks")) as [tasks |]; [| done].
    destruct Hget as (tasks0 & Htasks0 & <-%tasks_entry_kept).
    cbn [mbind outcome_bind obind]. destruct tasks as [| | | | descriptions]; try done.
    destruct (render_tasks ui descriptions) as [descriptions' | | |] eqn:Htasks; try done.
    cbn. intros [= <-]. apply render_tasks_ok in Htasks.
    by exists items, items', descriptions, descriptions'.
  - intros (items & items' & descriptions & descriptions' & -> & Hagents & Hget & Htasks & ->).
    unfold render_prompts. pose proof Hagents as Hagents'%render_agents_ok.
    rewrite Hagents'. cbn [mbind outcome_bind obind].
    pose proof (rendered_get items items' (lit "tasks")
                  (fun kv kv' (H : agent_rendered ui kv kv') => proj1 H) Hagents) as Hget'.
    unfold getitem.
    destruct (dict_get items' (lit "tasks")) as [tasks |]; [| congruence].
    destruct Hget' as (tasks0 & Htasks0 & ->%tasks_entry_kept).
    rewrite Hget in Htasks0. injection Htasks0 as <-.
    cbn [mbind outcome_bind obind]. apply render_tasks_ok in Htasks. by rewrite Htasks.
Qed.

Lemma render_agents_entries ui items :
  forallb (fun kv => bool_decide (kv.1 = lit "tasks") || agent_entry kv.2) items = true
  <-> exists items', render_agents ui items = Ok items'.
Proof.
  induction items as [| [agent p] items IH]; [cbn; split; eauto |].
  cbn [forallb render_agents fst snd]. rewrite andb_true_iff, IH. split.
  - intros [Hp [rest ->]]. destruct (bool_decide (agent = lit "tasks")); [cbn; eauto |].
    cbn [orb] in Hp. apply (render_agent_entry ui agent) in Hp as [p' ->]. cbn. eauto.
  - intros [items' Hok].
    destruct (bool_decide (agent = lit "tasks")) eqn:Htasks.
    + cbn [mbind outcome_bind obind] in Hok.
      destruct (render_agents ui items) as [rest | | |]; try done. eauto.
    + destruct (render_agent ui agent p) as [p' | | |] eqn:Hp; try done.
      cbn [mbind outcome_bind obind] in Hok.
      destruct (render_agents ui items) as [rest | | |]; try done.
      split; [| eauto]. cbn [orb]. apply (render_agent_entry ui agent). eauto.
Qed.

Lemma render_tasks_strings ui items :
  forallb (fun kv => is_JStr kv.2) items = true
  <-> exists items', render_tasks ui items = Ok items'.
Proof.
  induction items as [| [task d] items IH]; [cbn; split; eauto |].
  cbn [forallb render_tasks fst snd]. rewrite andb_true_iff, IH. split.
  - intros [Hd [rest ->]]. destruct d; try done. cbn. eauto.
  - intros [items' Hok]. destruct d; try done.
    cbn [widget_value mbind outcome_bind obind] in Hok.
    destruct (render_tasks ui items) as [rest | | |]; try done. eauto.
Qed.

(** X11: the two loops over the prompts run to their end, every widget
    being given a [str], exactly for a configuration that is a mapping
    whose [tasks] entry maps names to [str] and whose other entries are
    mappings with a [str] under [role], [goal] and [backstory]. *)
Theorem render_prompts_renderable (ui : text -> text -> text) (prompts : json) :
  renderable prompts = true <-> exists prompts', render_prompts ui prompts = Ok prompts'.
Proof.
  split.
  - unfold renderable. destruct prompts as [| | | | items]; try done.
    intros [[items' Hagents]%(render_agents_entries ui) Htasks]%andb_true_iff.
    destruct (dict_get items (lit "tasks")) as [[| | | | descriptions] |] eqn:Hget; try done.
    apply (render_tasks_strings ui) in Htasks as [descriptions' Htasks].
    eexists. apply render_prompts_ok.
    exists items, items', descriptions, descriptions'.
    split; [done |]. split; [by apply render_agents_ok |]. split; [done |].
    split; [by apply render_tasks_ok | done].
  - intros [prompts' (items & items' & ds & ds' & -> & Hagents & Hget & Htasks & _)%render_prompts_ok].
    unfold renderable. rewrite Hget. apply andb_true_iff. split.
    + apply (render_agents_entries ui). exists items'. by apply render_agents_ok.
    + apply (render_tasks_strings ui). exists ds'. by apply render_tasks_ok.
Qed.

Lemma render_prompts_renderable_witness :
  exists prompts', render_prompts (fun _ value => value) DEFAULT_PROMPTS = Ok prompts'.
Proof.
  apply (render_prompts_renderable (fun _ value => value) DEFAULT_PROMPTS).
  vm_compute. reflexivity.
Defined.

(** X12: a configuration without a [tasks] entry stops the page: after
    the agents' fields are shown, the loop over the tasks raises
    [KeyError] for [tasks]. *)
Theorem render_without_tasks (ui : text -> text -> text) (items : list (text * json)) :
  forallb (fun kv => agent_entry kv.2) items = true ->
  contains (JObj items) (lit "tasks") = false ->
  render_prompts ui (JObj items) = Raise (KeyError (lit "tasks")).
Proof.
  intros Hentries Hmissing. unfold render_prompts.
  assert (exists items', render_agents ui items = Ok items') as [items' Hagents].
  { apply render_agents_entries. apply forallb_forall. intros kv Hkv.
    rewrite forallb_forall in Hentries. rewrite (Hentries kv Hkv). apply orb_true_r. }
  rewrite Hagents. cbn [mbind outcome_bind obind]. unfold getitem.
  apply render_agents_ok in Hagents.
  pose proof (rendered_get items items' (lit "tasks")
                (fun kv kv' (H : agent_rendered ui kv kv') => proj1 H) Hagents) as Hget.
  destruct (dict_get items' (lit "tasks")) as [tasks |]; [| done].
  destruct Hget as (tasks0 & Htasks0 & _). unfold contains in Hmissing.
  rewrite dict_get_contains in Hmissing. apply bool_decide_eq_false in Hmissing.
  destruct Hmissing. eauto.
Qed.

Lemma render_without_tasks_witness :
  render_prompts (fun _ value => value) partial_config = Raise (KeyError (lit "tasks")).
Proof.
  apply (render_without_tasks (fun _ value => value)); vm_compute; reflexivity.
Defined.

Lemma unedited_agents (ui : text -> text -> text) items items' :
  (forall key value, ui key value = value) ->
  Forall2 (agent_rendered ui) items items' -> items' = items.
Proof.
  intros Hui. induction 1 as [| [k p] [k' p'] items items' [Hk Hp] _ IH]; [done |].
  cbn [fst snd] in Hk, Hp. subst k'. f_equal; [| exact IH]. f_equal.
  destruct (bool_decide (k = lit "tasks")); [done |].
  apply render_agent_ok in Hp as (fields & r & g & b & -> & Hr & Hg & Hb & ->).
  rewrite !Hui. f_equal.
  rewrite (dict_set_same _ _ fields Hr), (dict_set_same _ _ fields Hg).
  by rewrite (dict_set_same _ _ fields Hb).
Qed.

Lemma unedited_tasks (ui : text -> text -> text) items items' :
  (forall key value, ui key value = value) ->
  Forall2 (task_rendered ui) items items' -> items' = items.
Proof.
  intros Hui. induction 1 as [| [k d] [k' d'] items items' [Hk (s & Hd & Hd')] _ IH]; [done |].
  cbn [fst snd] in Hk, Hd, Hd'. subst. by rewrite Hui.
Qed.

(** X13: while the user changes no field, showing the prompt fields
    leaves the configuration as it is. *)
Theorem render_prompts_unedited (ui : text -> text -> text) (prompts prompts' : json) :
  (forall key value, ui key value = value) ->
  render_prompts ui prompts = Ok prompts' ->
  prompts' = prompts.
Proof.
  intros Hui (items & items' & ds & ds' & -> & Hagents & Hget & Htasks & ->)%render_prompts_ok.
  rewrite (unedited_agents ui _ _ Hui Hagents), (unedited_tasks ui _ _ Hui Htasks).
  by rewrite (dict_set_same _ _ items Hget).
Qed.

Lemma render_prompts_unedited_witness :
  render_prompts (fun _ value => value) DEFAULT_PROMPTS = Ok DEFAULT_PROMPTS.
Proof.
  destruct (render_prompts (fun _ value => value) DEFAULT_PROMPTS) as [p | | |] eqn:Hrender;
    try (vm_compute in Hrender; discriminate).
  f_equal. exact (render_prompts_unedited (fun _ value => value) DEFAULT_PROMPTS p
                    (fun _ _ => eq_refl) Hrender).
Defined.

Lemma getitem_obj items key v :
  getitem (JObj items) key = Ok v <-> dict_get items key = Some v.
Proof.
  unfold getitem. destruct (dict_get items key); split; congruence.
Qed.

Lemma getitem_inv d key v :
  getitem d key = Ok v -> exists items, d = JObj items /\ dict_get items key = Some v.
Proof.
  destruct d as [| | | | items]; try done. intros H%getitem_obj. eauto.
Qed.

(** X14: after the prompt fields are shown, every agent's role, goal and
    backstory and every task's description is the [str] its widget
    returned for the value the configuration held; the widget of an
    agent's field has the key [<agent>_<field>], that of a task
    [<task>_description]. *)
Theorem rendered_fields (ui : text -> text -> text) (prompts prompts' : json) :
  render_prompts ui prompts = Ok prompts' ->
  (forall agent entry',
     agent <> lit "tasks" -> getitem prompts' agent = Ok entry' ->
     exists entry r g b,
       getitem prompts agent = Ok entry /\
       getitem entry (lit "role") = Ok (JStr r) /\
       getitem entry (lit "goal") = Ok (JStr g) /\
       getitem entry (lit "backstory") = Ok (JStr b) /\
       getitem entry' (lit "role") = Ok (JStr (ui (agent ++ lit "_role") r)) /\
       getitem entry' (lit "goal") = Ok (JStr (ui (agent ++ lit "_goal") g)) /\
       getitem entry' (lit "backstory") = Ok (JStr (ui (agent ++ lit "_backstory") b))) /\
  (forall tasks' task d',
     getitem prompts' (lit "tasks") = Ok tasks' -> getitem tasks' task = Ok d' ->
     exists tasks d,
       getitem prompts (lit "tasks") = Ok tasks /\
       getitem tasks task = Ok (JStr d) /\
       d' = JStr (ui (task ++ lit "_description") d)).
Proof.
  intros (items & items' & ds & ds' & -> & Hagents & Hget & Htasks & ->)%render_prompts_ok.
  split.
  - intros agent entry' Hagent Hentry'. apply getitem_obj in Hentry'.
    rewrite dict_set_get in Hentry'. destruct (decide (agent = lit "tasks")); [done |].
    pose proof (rendered_get items items' agent
                  (fun kv kv' (H : agent_rendered ui kv kv') => proj1 H) Hagents) as Hold.
    rewrite Hentry' in Hold. destruct Hold as (entry & Hentry & _ & Hrender).
    cbn [fst snd] in Hrender. rewrite bool_decide_eq_false_2 in Hrender by done.
    apply render_agent_ok in Hrender as (fields & r & g & b & -> & Hr & Hg & Hb & ->).
    exists (JObj fields), r, g, b. rewrite !getitem_obj, !dict_set_get.
    repeat split; done.
  - intros tasks' task d' Htasks' Hd'. apply getitem_obj in Htasks'.
    rewrite dict_set_get in Htasks'. destruct (decide (lit "tasks" = lit "tasks")); [| done].
    injection Htasks' as <-. apply getitem_obj in Hd'.
    pose proof (rendered_get ds ds' task
                  (fun kv kv' (H : task_rendered ui kv kv') => proj1 H) Htasks) as Hold.
    rewrite Hd' in Hold. destruct Hold as (d0 & Hd0 & _ & s & Hs & Hs').
    cbn [fst snd] in Hs, Hs'. subst d0 d'.
    exists (JObj ds), s. by rewrite !getitem_obj.
Qed.

Lemma rendered_fields_witness :
  let ui : text -> text -> text :=
    fun key value => if bool_decide (key = lit "plan_description") then lit "Plan it"
                     else value in
  exists prompts',
    render_prompts ui DEFAULT_PROMPTS = Ok prompts' /\
    forall tasks' task d',
      getitem prompts' (lit "tasks") = Ok tasks' -> getitem tasks' task = Ok d' ->
      exists tasks d,
        getitem DEFAULT_PROMPTS (lit "tasks") = Ok tasks /\
        getitem tasks task = Ok (JStr d) /\
        d' = JStr (ui (task ++ lit "_description") d).
Proof.
  intros ui. eexists. split.
  - vm_compute. reflexivity.
  - apply (rendered_fields ui DEFAULT_PROMPTS). vm_compute. reflexivity.
Defined.

(** X15: showing the prompt fields adds, removes and moves no entry of
    the configuration, so it holds the four fixed keys after it exactly
    when it held them before. *)
Theorem render_keeps_keys (ui : text -> text -> text) (prompts prompts' : json) :
  render_prompts ui prompts = Ok prompts' ->
  (exists items items',
     prompts = JObj items /\ prompts' = JObj items' /\ items'.*1 = items.*1) /\
  has_fixed_keys prompts' = has_fixed_keys prompts.
Proof.
  intros (items & items' & ds & ds' & -> & Hagents & Hget & Htasks & ->)%render_prompts_ok.
  assert ((dict_set (lit "tasks") (JObj ds') items').*1 = items.*1) as Hkeys.
  { pose proof (rendered_keys items items'
                  (fun kv kv' (H : agent_rendered ui kv kv') => proj1 H) Hagents) as Hk.
    rewrite dict_set_keys, Hk. rewrite dict_get_contains, Hget.
    rewrite bool_decide_eq_true_2; [done | eauto]. }
  split; [eauto 10 |]. unfold has_fixed_keys, contains. by rewrite Hkeys.
Qed.

Lemma render_keeps_keys_witness :
  exists prompts',
    render_prompts (fun _ _ => lit "edited") DEFAULT_PROMPTS = Ok prompts' /\
    has_fixed_keys prompts' = true.
Proof.
  destruct (render_prompts (fun _ _ => lit "edited") DEFAULT_PROMPTS) as [p | | |] eqn:Hrender;
    try (vm_compute in Hrender; discriminate).
  exists p. split; [reflexivity |].
  destruct (render_keeps_keys _ _ _ Hrender) as [_ ->]. vm_compute. reflexivity.
Defined.

(** ** Exceptions of the pipeline *)

Lemma rbind_outcome {A B} (m : run A) (f : A -> run B) :
  (m ≫= f).2 = match m.2 with
               | Ok a => (f a).2
               | Raise e => Raise e
               | Unmodelled => Unmodelled
               | OutOfFuel => OutOfFuel
               end.
Proof.
  unfold mbind, run_bind, rbind. destruct m as [t [a | e | |]]; try done.
  cbn. by destruct (f a).
Qed.

Lemma pure_bind {A B} (a : A) (f : A -> run B) : pure (Ok a) ≫= f = f a.
Proof. unfold mbind, run_bind, rbind, pure. by destruct (f a). Qed.

Lemma catchable_bind {A B} (m : run A) (f : A -> run B) :
  catchable m -> (forall a, m.2 = Ok a -> catchable (f a)) -> catchable (m ≫= f).
Proof.
  intros Hm Hf. unfold catchable in *. rewrite rbind_outcome.
  destruct m as [t [a | e | |]]; cbn in *; [by apply Hf | done..].
Qed.

Lemma catchable_getitem d key : catchable (pure (getitem d key)).
Proof.
  unfold catchable, getitem. cbn. destruct d; try done. by destruct (dict_get _ _).
Qed.

Lemma catchable_getitem2 prompts k1 k2 : catchable (pure (getitem2 prompts k1 k2)).
Proof.
  unfold getitem2. pose proof (catchable_getitem prompts (lit k1)) as H1.
  unfold catchable in *. cbn in *. destruct (getitem prompts (lit k1)) as [d | | |]; try done.
  apply (catchable_getitem d (lit k2)).
Qed.

Lemma catchable_answer {A} (r : reply A) : catchable (pure (answer r)).
Proof. unfold catchable. destruct r as [[msg | msg] | a]; done. Qed.

Lemma catchable_emit ev : catchable (emit ev).
Proof. done. Qed.

Lemma catchable_ret {A} (a : A) : catchable (ret a).
Proof. done. Qed.

Lemma catchable_new_Agent w a : catchable (new_Agent w a).
Proof.
  unfold new_Agent. apply catchable_bind; [apply catchable_emit | intros _ _].
  apply catchable_bind; [apply catchable_answer | intros _ _]. apply catchable_ret.
Qed.

Lemma catchable_new_Task w t : catchable (new_Task w t).
Proof.
  unfold new_Task. apply catchable_bind; [apply catchable_emit | intros _ _].
  apply catchable_bind; [apply catchable_answer | intros _ _]. apply catchable_ret.
Qed.

Lemma catchable_new_Crew w c : catchable (new_Crew w c).
Proof.
  unfold new_Crew. apply catchable_bind; [apply catchable_emit | intros _ _].
  apply catchable_bind; [apply catchable_answer | intros _ _]. apply catchable_ret.
Qed.

Lemma catchable_make_agent w prompts who temp : catchable (make_agent w prompts who temp).
Proof.
  unfold make_agent.
  do 3 (apply catchable_bind; [apply catchable_getitem2 | intros ? _]).
  apply catchable_new_Agent.
Qed.

Lemma catchable_pipeline w prompts temp transcripts :
  catchable (pipeline w prompts temp transcripts).
Proof.
  unfold pipeline.
  do 3 (apply catchable_bind; [apply catchable_make_agent | intros ? _]).
  apply catchable_bind.
  { unfold plan_description. pose proof (catchable_getitem2 prompts "tasks" "plan") as H.
    unfold catchable in *. cbn in *.
    destruct (getitem2 prompts "tasks" "plan") as [d | | |]; try done.
    by destruct d as [| [] | | |]. }
  intros ? _. apply catchable_bind; [apply catchable_new_Task | intros ? _].
  apply catchable_bind; [apply catchable_getitem2 | intros ? _].
  apply catchable_bind; [apply catchable_new_Task | intros ? _].
  apply catchable_bind; [apply catchable_getitem2 | intros ? _].
  apply catchable_bind; [apply catchable_new_Task | intros ? _].
  apply catchable_bind; [apply catchable_new_Crew | intros ? _].
  apply catchable_bind.
  { unfold crew_kickoff. apply catchable_bind; [apply catchable_emit | intros _ _].
    apply catchable_answer. }
  intros ? _. apply catchable_bind; [apply catchable_emit | intros _ _].
  apply catchable_emit.
Qed.

(** ** The generate action, case by case *)

(** With a file that decodes and a key, the generate action is the
    probe, and after a good probe the pipeline with its own handler. *)
Lemma generate_cases w environ f key prompts temp transcripts :
  key <> [] -> decoded f = Some transcripts ->
  let g := generate w environ (Some f) key prompts temp in
  let probe := setup_azure_openai w environ key in
  let p := pipeline w prompts temp transcripts in
  (probe.2 = Ok false /\ g = (probe.1 ++ [StError SETUP_FAILED], Raise StopException)) \/
  (probe.2 = Ok true /\
   ((p.2 = Ok tt /\ g = (probe.1 ++ StSuccess API_OK :: p.1, Ok tt)) \/
    (exists e, p.2 = Raise e /\
               g = (probe.1 ++ StSuccess API_OK :: p.1 ++ AGENT_ERROR e, Ok tt)) \/
    (p.2 = Unmodelled /\ g = (probe.1 ++ StSuccess API_OK :: p.1, Unmodelled)))).
Proof.
  intros Hkey Hdec. cbv zeta.
  pose proof (catchable_pipeline w prompts temp transcripts) as Hcatch.
  unfold generate, read_decode. destruct key as [| c key]; [done |].
  cbn [truthy_str negb]. rewrite Hdec, pure_bind.
  destruct (setup_cases w environ (c :: key)) as [-> | [e0 ->]].
  - right. split; [done |]. unfold catchable in Hcatch.
    destruct (pipeline w prompts temp transcripts) as [tp [[] | e | |]]; cbn in Hcatch |- *.
    + left. done.
    + right; left. exists e. split; [done |]. rewrite Hcatch. by cbn.
    + right; right. done.
    + done.
  - left. done.
Qed.

(** X16: an exception of the pipeline, be it a prompt that is missing or
    a failure of the crew library, does not leave the generate action: it
    is reported by the two messages of the inner handler after what the
    pipeline had done, and the action ends normally. *)
Theorem pipeline_failure_reported (w : world) (environ : gmap string text)
    (f : UploadedFile) (key : text) (prompts : json) (temp : Q)
    (transcripts : text) (e : exn) :
  key <> [] -> decoded f = Some transcripts ->
  (setup_azure_openai w environ key).2 = Ok true ->
  (pipeline w prompts temp transcripts).2 = Raise e ->
  generate w environ (Some f) key prompts temp
  = ((setup_azure_openai w environ key).1
       ++ StSuccess [Lit "API connection successful!"]
       :: (pipeline w prompts temp transcripts).1
       ++ [StError [Lit "Error in agent/task setup: "; Str e];
           StError [Lit "Detailed error: "; FormatExc e]],
     Ok tt).
Proof.
  intros Hkey Hdec Hprobe Hp.
  destruct (generate_cases w environ f key prompts temp transcripts Hkey Hdec)
    as [[Hfalse _] | [_ [[Hok _] | [(e' & He' & ->) | [Hun _]]]]]; try congruence.
  rewrite Hp in He'. by injection He' as <-.
Qed.

Lemma pipeline_failure_reported_witness :
  exists planner,
    generate world_up ∅ (Some transcript_file) (lit "key") partial_config (7 # 10)
    = ([RequestsPost (probe_url ∅) (lit "key");
        StSuccess [Lit "API connection successful!"];
        NewAgent planner;
        StError [Lit "Error in agent/task setup: "; Str (KeyError (lit "writer"))];
        StError [Lit "Detailed error: "; FormatExc (KeyError (lit "writer"))]],
       Ok tt).
Proof.
  eexists.
  rewrite (pipeline_failure_reported world_up ∅ transcript_file (lit "key") partial_config
             (7 # 10) (lit "hello") (KeyError (lit "writer")));
    [| vm_compute; discriminate | reflexivity | reflexivity | vm_compute; reflexivity].
  vm_compute. reflexivity.
Defined.

(** X17: the generate action raises in two cases only: the uploaded
    bytes are not UTF-8, and nothing has been done yet; or the probe
    failed, and the last thing done is the report of it before
    [st.stop()]. *)
Theorem generate_raises (w : world) (environ : gmap string text)
    (uploaded_file : option UploadedFile) (key : text) (prompts : json) (temp : Q)
    (e : exn) :
  (generate w environ uploaded_file key prompts temp).2 = Raise e ->
  exists f, uploaded_file = Some f /\ key <> [] /\
    ((e = UnicodeDecodeError /\ decoded f = None /\
      (generate w environ uploaded_file key prompts temp).1 = []) \/
     (e = StopException /\ (setup_azure_openai w environ key).2 = Ok false /\
      (generate w environ uploaded_file key prompts temp).1
      = (setup_azure_openai w environ key).1 ++ [StError SETUP_FAILED])).
Proof.
  destruct uploaded_file as [f |]; [| done]. intros Hraise. exists f. split; [done |].
  destruct key as [| c key]; [done |]. split; [done |].
  destruct (decoded f) as [transcripts |] eqn:Hdec.
  - right.
    destruct (generate_cases w environ f (c :: key) prompts temp transcripts
                ltac:(done) Hdec)
      as [[Hfalse Hg] | [_ [[_ Hg] | [(e' & _ & Hg) | [_ Hg]]]]];
      rewrite Hg in Hraise |- *; try done.
    by injection Hraise as <-.
  - left. unfold generate, read_decode in *. cbn [truthy_str negb] in *.
    rewrite Hdec in *. cbn in *. by injection Hraise as <-.
Qed.

Lemma generate_raises_witness :
  (generate world_down ∅ (Some transcript_file) (lit "key") DEFAULT_PROMPTS (7 # 10)).2
  = Raise StopException /\
  (setup_azure_openai world_down ∅ (lit "key")).2 = Ok false.
Proof.
  assert ((generate world_down ∅ (Some transcript_file) (lit "key") DEFAULT_PROMPTS
             (7 # 10)).2 = Raise StopException) as Hraise by (vm_compute; reflexivity).
  split; [exact Hraise |].
  destruct (generate_raises _ _ _ _ _ _ _ Hraise)
    as (f & _ & _ & [(Hno & _) | (_ & Hprobe & _)]); [discriminate Hno | exact Hprobe].
Defined.

Lemma setup_not_outer w environ key ev :
  ev ∈ (setup_azure_openai w environ key).1 -> is_outer_report ev = false.
Proof.
  destruct (setup_cases w environ key) as [-> | [e ->]]; cbn;
    rewrite ?elem_of_cons, elem_of_nil.
  - by intros [-> | []].
  - by intros [-> | [-> | []]].
Qed.

Lemma pipeline_not_outer w prompts temp transcripts ev :
  ev ∈ (pipeline w prompts temp transcripts).1 -> is_outer_report ev = false.
Proof.
  unfold pipeline.
  intros [H | (planner & _ & H)]%rbind_elem; [by apply make_agent_elem in H as [? ->] |].
  apply rbind_elem in H as [H | (writer & _ & H)]; [by apply make_agent_elem in H as [? ->] |].
  apply rbind_elem in H as [H | (editor & _ & H)]; [by apply make_agent_elem in H as [? ->] |].
  apply rbind_elem in H as [H | (d1 & _ & H)]; [by apply pure_elem in H |].
  apply rbind_elem in H as [H | (plan & _ & H)]; [by apply new_Task_elem in H as -> |].
  apply rbind_elem in H as [H | (d2 & _ & H)]; [by apply pure_elem in H |].
  apply rbind_elem in H as [H | (write & _ & H)]; [by apply new_Task_elem in H as -> |].
  apply rbind_elem in H as [H | (d3 & _ & H)]; [by apply pure_elem in H |].
  apply rbind_elem in H as [H | (edit & _ & H)]; [by apply new_Task_elem in H as -> |].
  apply rbind_elem in H as [H | (crew & _ & H)]; [by apply new_Crew_elem in H as -> |].
  apply rbind_elem in H as [H | (? & _ & H)].
  { unfold crew_kickoff in H.
    apply rbind_elem in H as [H | (? & _ & H)];
      [by apply emit_elem in H as -> | by apply pure_elem in H]. }
  apply rbind_elem in H as [H | (? & _ & H)]; by apply emit_elem in H as ->.
Qed.

(** X18: the two outer [except] clauses of the generate action never
    run: whatever the services do, none of their six messages is put on
    the page. *)
Theorem outer_handlers_never_run (w : world) (environ : gmap string text)
    (uploaded_file : option UploadedFile) (key : text) (prompts : json) (temp : Q) :
  Forall (fun ev => is_outer_report ev = false)
         (generate w environ uploaded_file key prompts temp).1.
Proof.
  apply Forall_forall. intros ev Hev.
  destruct uploaded_file as [f |];
    [| apply st_error_elem in Hev as ->; reflexivity].
  destruct key as [| c key]; [apply st_error_elem in Hev as ->; reflexivity |].
  destruct (decoded f) as [transcripts |] eqn:Hdec.
  - destruct (generate_cases w environ f (c :: key) prompts temp transcripts
                ltac:(done) Hdec)
      as [[_ Hg] | [_ [[_ Hg] | [(e' & _ & Hg) | [_ Hg]]]]];
      rewrite Hg in Hev; cbn [fst] in Hev;
      apply elem_of_app in Hev as [Hev | Hev];
      try (by apply setup_not_outer in Hev).
    + by apply list_elem_of_singleton in Hev as ->.
    + apply elem_of_cons in Hev as [-> | Hev]; [done |]. by apply pipeline_not_outer in Hev.
    + apply elem_of_cons in Hev as [-> | Hev]; [done |].
      apply elem_of_app in Hev as [Hev | Hev]; [by apply pipeline_not_outer in Hev |].
      unfold AGENT_ERROR in Hev.
      apply elem_of_cons in Hev as [-> | Hev]; [done |].
      by apply list_elem_of_singleton in Hev as ->.
    + apply elem_of_cons in Hev as [-> | Hev]; [done |]. by apply pipeline_not_outer in Hev.
  - unfold generate, read_decode in Hev. cbn [truthy_str negb] in Hev.
    rewrite Hdec in Hev. by apply elem_of_nil in Hev.
Qed.

Lemma bind_eq {A B} (m : run A) (f : A -> run B) t a t' r :
  m = (t, Ok a) -> f a = (t', r) -> m ≫= f = (t ++ t', r).
Proof. intros -> Hf. unfold mbind, run_bind, rbind. by rewrite Hf. Qed.

Lemma make_agent_eq w prompts who temp :
  make_agent w prompts who temp = (a ← pure (agent_of prompts who temp); new_Agent w a).
Proof.
  unfold make_agent, agent_of.
  destruct (getitem2 prompts who "role") as [r | | |]; [| done..].
  destruct (getitem2 prompts who "goal") as [g | | |]; [| done..].
  destruct (getitem2 prompts who "backstory") as [b | | |]; [| done..].
  cbn [mbind outcome_bind obind]. by rewrite !pure_bind.
Qed.

Lemma make_agent_event w prompts who temp ev :
  ev ∈ (make_agent w prompts who temp).1 ->
  exists a, agent_of prompts who temp = Ok a /\ ev = NewAgent a.
Proof.
  rewrite make_agent_eq. intros [H | (a & Ha & H)]%rbind_elem; [by apply pure_elem in H |].
  apply new_Agent_elem in H. eauto.
Qed.

Lemma make_agent_result w prompts who temp a :
  (make_agent w prompts who temp).2 = Ok a -> agent_of prompts who temp = Ok a.
Proof.
  rewrite make_agent_eq, rbind_outcome. cbn [pure snd].
  destruct (agent_of prompts who temp) as [a' | | |]; [| done..].
  by intros ->%new_Agent_result.
Qed.

Lemma new_Crew_result w c c' : (new_Crew w c).2 = Ok c' -> c' = c.
Proof.
  unfold new_Crew, emit, pure, ret, mbind, run_bind. cbn.
  destruct (answer (Crew_init w c)); cbn; congruence.
Qed.

Lemma agent_of_settings prompts who temp a :
  agent_of prompts who temp = Ok a ->
  allow_delegation a = false /\ verbose a = true /\ temperature a = temp.
Proof.
  unfold agent_of.
  destruct (getitem2 prompts who "role") as [r | | |]; [| done..].
  destruct (getitem2 prompts who "goal") as [g | | |]; [| done..].
  destruct (getitem2 prompts who "backstory") as [b | | |]; [| done..].
  by intros [= <-].
Qed.

(** What the pipeline does, event by event. *)
Lemma pipeline_events w prompts temp transcripts ev :
  ev ∈ (pipeline w prompts temp transcripts).1 ->
  (exists who a, who ∈ ["planner"; "writer"; "editor"]%string /\
                 agent_of prompts who temp = Ok a /\ ev = NewAgent a) \/
  (exists t, ev = NewTask t) \/
  (exists planner writer editor d1 d2 d3,
     agent_of prompts "planner" temp = Ok planner /\
     agent_of prompts "writer" temp = Ok writer /\
     agent_of prompts "editor" temp = Ok editor /\
     (ev = NewCrew (crew_of planner writer editor d1 d2 d3) \/
      ev = Kickoff (crew_of planner writer editor d1 d2 d3))) \/
  ev = StSuccess ARTICLE_OK \/
  (exists result, ev = StMarkdown result).
Proof.
  unfold pipeline.
  intros [H | (planner & Hplanner%make_agent_result & H)]%rbind_elem.
  { apply make_agent_event in H as (a & Ha & ->). left. exists "planner"%string, a.
    split; [set_solver | done]. }
  apply rbind_elem in H as [H | (writer & Hwriter%make_agent_result & H)].
  { apply make_agent_event in H as (a & Ha & ->). left. exists "writer"%string, a.
    split; [set_solver | done]. }
  apply rbind_elem in H as [H | (editor & Heditor%make_agent_result & H)].
  { apply make_agent_event in H as (a & Ha & ->). left. exists "editor"%string, a.
    split; [set_solver | done]. }
  apply rbind_elem in H as [H | (d1 & _ & H)]; [by apply pure_elem in H |].
  apply rbind_elem in H as [H | (plan & Hplan%new_Task_result & H)];
    [apply new_Task_elem in H as ->; right; left; eauto |].
  apply rbind_elem in H as [H | (d2 & _ & H)]; [by apply pure_elem in H |].
  apply rbind_elem in H as [H | (write & Hwrite%new_Task_result & H)];
    [apply new_Task_elem in H as ->; right; left; eauto |].
  apply rbind_elem in H as [H | (d3 & _ & H)]; [by apply pure_elem in H |].
  apply rbind_elem in H as [H | (edit & Hedit%new_Task_result & H)];
    [apply new_Task_elem in H as ->; right; left; eauto |].
  subst plan write edit.
  apply rbind_elem in H as [H | (crew & Hcrew%new_Crew_result & H)].
  { apply new_Crew_elem in H as ->. right; right; left.
    exists planner, writer, editor, d1, d2, d3. eauto. }
  subst crew.
  apply rbind_elem in H as [H | (result & _ & H)].
  { unfold crew_kickoff in H.
    apply rbind_elem in H as [H | (? & _ & H)]; [| by apply pure_elem in H].
    apply emit_elem in H as ->. right; right; left.
    exists planner, writer, editor, d1, d2, d3. eauto. }
  apply rbind_elem in H as [H | (? & _ & H)]; apply emit_elem in H as ->.
  - right; right; right; left. done.
  - right; right; right; right. eauto.
Qed.

Lemma setup_true w environ key :
  (setup_azure_openai w environ key).2 = Ok true ->
  (setup_azure_openai w environ key).1 = [RequestsPost (probe_url environ) key] /\
  exists r, post w (probe_url environ) key = inr r /\ raise_for_status r = Ok tt.
Proof.
  unfold setup_azure_openai, requests_post.
  destruct (post w (probe_url environ) key) as [[msg | msg] | r];
    [by cbn.. |].
  unfold mbind, run_bind, rbind, emit, pure, answer.
  destruct (raise_for_status r) as [[] | | |] eqn:Hr; cbn; try done.
  - eauto.
  - unfold raise_for_status in Hr. destruct (_ && _); [| done].
    by injection Hr as <-.
Qed.

Lemma setup_events w environ key ev :
  ev ∈ (setup_azure_openai w environ key).1 ->
  ev = RequestsPost (probe_url environ) key \/ exists msg, ev = StError msg.
Proof.
  destruct (setup_cases w environ key) as [-> | [e ->]]; cbn;
    rewrite ?elem_of_cons, elem_of_nil.
  - intros [-> | []]. by left.
  - intros [-> | [-> | []]]; [by left | right; eauto].
Qed.

(** Where an event of the generate action comes from. *)
Lemma generate_events w environ uploaded_file key prompts temp ev :
  ev ∈ (generate w environ uploaded_file key prompts temp).1 ->
  (exists msg, ev = StError msg) \/
  exists f transcripts,
    uploaded_file = Some f /\ key <> [] /\ decoded f = Some transcripts /\
    (ev = RequestsPost (probe_url environ) key \/
     (setup_azure_openai w environ key).2 = Ok true /\
     (ev = StSuccess API_OK \/ ev ∈ (pipeline w prompts temp transcripts).1)).
Proof.
  intros Hev. destruct uploaded_file as [f |];
    [| apply st_error_elem in Hev as ->; left; eauto].
  destruct key as [| c key]; [apply st_error_elem in Hev as ->; left; eauto |].
  destruct (decoded f) as [transcripts |] eqn:Hdec.
  - assert (forall ev, ev ∈ (setup_azure_openai w environ (c :: key)).1 ->
              (exists msg, ev = StError msg) \/
              exists f0 transcripts0,
                Some f = Some f0 /\ c :: key <> [] /\ decoded f0 = Some transcripts0 /\
                (ev = RequestsPost (probe_url environ) (c :: key) \/
                 (setup_azure_openai w environ (c :: key)).2 = Ok true /\
                 (ev = StSuccess API_OK \/ ev ∈ (pipeline w prompts temp transcripts0).1)))
      as Hprobe.
    { intros ev' [-> | [msg ->]]%setup_events; [right | left; eauto].
      exists f, transcripts. eauto 10. }
    destruct (generate_cases w environ f (c :: key) prompts temp transcripts
                ltac:(done) Hdec)
      as [[_ Hg] | [Hok [[_ Hg] | [(e' & _ & Hg) | [_ Hg]]]]];
      rewrite Hg in Hev; cbn [fst] in Hev;
      apply elem_of_app in Hev as [Hev | Hev]; try (by apply Hprobe).
    + apply list_elem_of_singleton in Hev as ->. left; eauto.
    + right. exists f, transcripts. do 3 (split; [done |]). right. split; [done |].
      apply elem_of_cons in Hev as [-> | Hev]; eauto.
    + apply elem_of_cons in Hev as [-> | Hev].
      { right. exists f, transcripts. eauto 10. }
      apply elem_of_app in Hev as [Hev | Hev].
      { right. exists f, transcripts. eauto 10. }
      unfold AGENT_ERROR in Hev.
      apply elem_of_cons in Hev as [-> | Hev]; [left; eauto |].
      apply list_elem_of_singleton in Hev as ->. left; eauto.
    + right. exists f, transcripts. do 3 (split; [done |]). right. split; [done |].
      apply elem_of_cons in Hev as [-> | Hev]; eauto.
  - unfold generate, read_decode in Hev. cbn [truthy_str negb] in Hev.
    rewrite Hdec in Hev. by apply elem_of_nil in Hev.
Qed.

(** X19: the generate action goes over the network only with a file
    that decodes and a key; the key is sent to the chat-completions
    address of the deployment and nowhere else, the key vault is not
    used, and the crew runs only after the probe was answered with a
    status that is no error. *)
Theorem network_calls_guarded (w : world) (environ : gmap string text)
    (uploaded_file : option UploadedFile) (key : text) (prompts : json) (temp : Q)
    (ev : event) :
  is_network_call ev = true ->
  ev ∈ (generate w environ uploaded_file key prompts temp).1 ->
  exists f transcripts,
    uploaded_file = Some f /\ decoded f = Some transcripts /\ key <> [] /\
    (ev = RequestsPost (probe_url environ) key \/
     exists crew r,
       ev = Kickoff crew /\
       post w (probe_url environ) key = inr r /\ raise_for_status r = Ok tt).
Proof.
  intros Hnet [[msg ->] | (f & transcripts & -> & Hkey & Hdec & Hev)]%generate_events;
    [done |].
  exists f, transcripts. do 3 (split; [done |]).
  destruct Hev as [-> | [Hok [-> | Hev]]]; [by left | done |].
  destruct (setup_true w environ key Hok) as (_ & r & Hpost & Hr).
  apply pipeline_events in Hev
    as [(who & a & _ & _ & ->) | [[t ->] | [(p & wr & e & d1 & d2 & d3 & _ & _ & _ & [-> | ->])
                                           | [-> | [result ->]]]]]; try done.
  right. eauto.
Qed.

Lemma network_calls_guarded_witness :
  let t := (generate world_up ∅ (Some transcript_file) (lit "key")
              DEFAULT_PROMPTS (7 # 10)).1 in
  exists crew,
    t !! 9%nat = Some (Kickoff crew) /\
    exists r, post world_up (probe_url ∅) (lit "key") = inr r /\
              raise_for_status r = Ok tt.
Proof.
  intros t.
  destruct (t !! 9%nat) as [[| | | | | | | | crew] |] eqn:Hcrew;
    try (vm_compute in Hcrew; discriminate).
  exists crew. split; [reflexivity |].
  destruct (network_calls_guarded world_up ∅ (Some transcript_file) (lit "key")
              DEFAULT_PROMPTS (7 # 10) (Kickoff crew) eq_refl)
    as (f & tr & _ & _ & _ & [Hprobe | (c & r & _ & Hpost & Hr)]).
  - apply list_elem_of_lookup. exists 9%nat. exact Hcrew.
  - discriminate Hprobe.
  - exists r. split; [exact Hpost | exact Hr].
Defined.

(** X20: every agent the generate action builds is one of the planner,
    the writer and the editor of the prompts, with delegation off, verbose
    on and the temperature of the slider; the crew that is built and run
    has these three agents in this order, one task for each of them in the
    same order, and is verbose. *)
Theorem crew_of_three (w : world) (environ : gmap string text)
    (uploaded_file : option UploadedFile) (key : text) (prompts : json) (temp : Q) :
  (forall a,
     NewAgent a ∈ (generate w environ uploaded_file key prompts temp).1 ->
     allow_delegation a = false /\ verbose a = true /\ temperature a = temp /\
     exists who, who ∈ ["planner"; "writer"; "editor"]%string /\
                 getitem2 prompts who "role" = Ok (role a) /\
                 getitem2 prompts who "goal" = Ok (goal a) /\
                 getitem2 prompts who "backstory" = Ok (backstory a)) /\
  (forall crew,
     NewCrew crew ∈ (generate w environ uploaded_file key prompts temp).1 \/
     Kickoff crew ∈ (generate w environ uploaded_file key prompts temp).1 ->
     exists planner writer editor,
       agent_of prompts "planner" temp = Ok planner /\
       agent_of prompts "writer" temp = Ok writer /\
       agent_of prompts "editor" temp = Ok editor /\
       agents crew = [planner; writer; editor] /\
       map agent (tasks crew) = [planner; writer; editor] /\
       crew_verbose crew = true).
Proof.
  split.
  - intros a [[msg [=]] | (f & transcripts & _ & _ & _ & Hev)]%generate_events.
    destruct Hev as [[=] | [_ [[=] | Hev]]].
    apply pipeline_events in Hev
      as [(who & a' & Hwho & Ha & [= <-])
         | [[t [=]] | [(p & wr & e & d1 & d2 & d3 & _ & _ & _ & [[=] | [=]])
                      | [[=] | [result [=]]]]]].
    destruct (agent_of_settings _ _ _ _ Ha) as (? & ? & ?). do 3 (split; [done |]).
    exists who. split; [done |]. unfold agent_of in Ha.
    destruct (getitem2 prompts who "role") as [r | | |]; [| done..].
    destruct (getitem2 prompts who "goal") as [g | | |]; [| done..].
    destruct (getitem2 prompts who "backstory") as [b | | |]; [| done..].
    by injection Ha as <-.
  - intros crew Hcrew.
    assert (exists ev, (ev = NewCrew crew \/ ev = Kickoff crew) /\
                       ev ∈ (generate w environ uploaded_file key prompts temp).1)
      as (ev & Hshape & Hev) by (destruct Hcrew; eauto).
    apply generate_events in Hev as [[msg ->] | (f & transcripts & _ & _ & _ & Hev)];
      [by destruct Hshape |].
    destruct Hev as [-> | [_ [-> | Hev]]]; [by destruct Hshape.. |].
    apply pipeline_events in Hev
      as [(who & a' & _ & _ & ->)
         | [[t ->] | [(p & wr & e & d1 & d2 & d3 & Hp & Hwr & He & Hev)
                      | [-> | [result ->]]]]]; try (by destruct Hshape).
    exists p, wr, e. do 3 (split; [done |]).
    assert (crew = crew_of p wr e d1 d2 d3) as ->
      by (destruct Hshape as [->| ->], Hev as [? | ?]; congruence).
    done.
Qed.

Lemma crew_of_three_witness :
  let t := (generate world_up ∅ (Some transcript_file) (lit "key")
              DEFAULT_PROMPTS (3 # 10)).1 in
  exists crew,
    t !! 9%nat = Some (Kickoff crew) /\
    map temperature (agents crew) = [3 # 10; 3 # 10; 3 # 10]%Q /\
    map role (agents crew) = [JStr (lit "Content Planner"); JStr (lit "Content Writer");
                              JStr (lit "Editor")] /\
    map agent (tasks crew) = agents crew.
Proof.
  intros t.
  destruct (t !! 9%nat) as [[| | | | | | | | crew] |] eqn:Hcrew;
    try (vm_compute in Hcrew; discriminate).
  exists crew. split; [reflexivity |].
  destruct (crew_of_three world_up ∅ (Some transcript_file) (lit "key")
              DEFAULT_PROMPTS (3 # 10)) as [_ Hbuilt].
  destruct (Hbuilt crew) as (p & wr & e & Hp & Hwr & He & -> & -> & _).
  { right. apply list_elem_of_lookup. exists 9%nat. exact Hcrew. }
  vm_compute in Hp. injection Hp as <-.
  vm_compute in Hwr. injection Hwr as <-.
  vm_compute in He. injection He as <-.
  repeat split; reflexivity.
Defined.

(** X21: with a file that decodes, a key, a probe answered with a status
    that is no error, the prompts of the three agents and the three
    tasks in place and a crew library that does its work, the generate
    action probes, reports the connection, builds the three agents, the
    three tasks and the crew, runs the crew, reports success and shows
    the text the crew returned, in this order, and ends normally. *)
Theorem article_shown (w : world) (environ : gmap string text)
    (f : UploadedFile) (key : text) (prompts : json) (temp : Q)
    (transcripts : text) (r : response) (planner writer editor : Agent)
    (d1 d2 d3 : json) (result : text) :
  key <> [] -> decoded f = Some transcripts ->
  post w (probe_url environ) key = inr r -> raise_for_status r = Ok tt ->
  agent_of prompts "planner" temp = Ok planner ->
  agent_of prompts "writer" temp = Ok writer ->
  agent_of prompts "editor" temp = Ok editor ->
  plan_description prompts transcripts = Ok d1 ->
  write_description prompts = Ok d2 ->
  edit_description prompts = Ok d3 ->
  (forall a, Agent_init w a = inr tt) ->
  (forall t, Task_init w t = inr tt) ->
  (forall c, Crew_init w c = inr tt) ->
  kickoff w (crew_of planner writer editor d1 d2 d3) = inr result ->
  generate w environ (Some f) key prompts temp
  = ([RequestsPost (probe_url environ) key;
      StSuccess [Lit "API connection successful!"];
      NewAgent planner; NewAgent writer; NewAgent editor;
      NewTask {| description := d1; agent := planner |};
      NewTask {| description := d2; agent := writer |};
      NewTask {| description := d3; agent := editor |};
      NewCrew (crew_of planner writer editor d1 d2 d3);
      Kickoff (crew_of planner writer editor d1 d2 d3);
      StSuccess [Lit "Research article generated successfully!"];
      StMarkdown result],
     Ok tt).
Proof.
  intros Hkey Hdec Hpost Hr Hp Hwr He Hd1 Hd2 Hd3 HA HT HC Hkick.
  assert (pipeline w prompts temp transcripts
          = ([NewAgent planner; NewAgent writer; NewAgent editor;
              NewTask {| description := d1; agent := planner |};
              NewTask {| description := d2; agent := writer |};
              NewTask {| description := d3; agent := editor |};
              NewCrew (crew_of planner writer editor d1 d2 d3);
              Kickoff (crew_of planner writer editor d1 d2 d3);
              StSuccess [Lit "Research article generated successfully!"];
              StMarkdown result], Ok tt)) as Hpipe.
  { unfold pipeline.
    eapply (bind_eq _ _ [NewAgent planner] planner);
      [rewrite make_agent_eq, Hp, pure_bind; unfold new_Agent; by rewrite HA |].
    eapply (bind_eq _ _ [NewAgent writer] writer);
      [rewrite make_agent_eq, Hwr, pure_bind; unfold new_Agent; by rewrite HA |].
    eapply (bind_eq _ _ [NewAgent editor] editor);
      [rewrite make_agent_eq, He, pure_bind; unfold new_Agent; by rewrite HA |].
    rewrite Hd1, pure_bind.
    eapply (bind_eq _ _ [NewTask _] _); [unfold new_Task; by rewrite HT |].
    rewrite Hd2, pure_bind.
    eapply (bind_eq _ _ [NewTask _] _); [unfold new_Task; by rewrite HT |].
    rewrite Hd3, pure_bind.
    eapply (bind_eq _ _ [NewTask _] _); [unfold new_Task; by rewrite HT |].
    fold (crew_of planner writer editor d1 d2 d3).
    eapply (bind_eq _ _ [NewCrew _] _); [unfold new_Crew; by rewrite HC |].
    eapply (bind_eq _ _ [Kickoff _] _); [unfold crew_kickoff; by rewrite Hkick |].
    reflexivity. }
  assert (setup_azure_openai w environ key
          = ([RequestsPost (probe_url environ) key], Ok true)) as Hsetup.
  { unfold setup_azure_openai, requests_post. rewrite Hpost. cbn. by rewrite Hr. }
  destruct (generate_cases w environ f key prompts temp transcripts Hkey Hdec)
    as [[Hfalse _] | [_ [[_ ->] | [(e' & He' & _) | [Hun _]]]]];
    rewrite ?Hsetup, ?Hpipe in *; done.
Qed.

Lemma article_shown_witness :
  exists t,
    generate world_up ∅ (Some transcript_file) (lit "key") DEFAULT_PROMPTS (7 # 10)
    = (t, Ok tt) /\
    last t = Some (StMarkdown (lit "# Article")).
Proof.
  eexists. split.
  - eapply (article_shown world_up ∅ transcript_file (lit "key") DEFAULT_PROMPTS (7 # 10)
              (lit "hello")); try reflexivity.
    vm_compute. discriminate.
  - reflexivity.
Defined.

(** ** Prompts that can be stored *)

Lemma storable_members items :
  storable (JObj items) <-> Forall member_ok items /\ NoDup items.*1.
Proof.
  split; [| intros [? ?]; by apply members_loaded].
  unfold storable. cbn [well_formed no_surrogate_pairs].
  intros [[Hwf Hnd%bool_decide_eq_true]%andb_true_iff Hfree]. split; [| done].
  apply Forall_forall. intros kv Hkv%list_elem_of_In.
  rewrite forallb_forall in Hwf, Hfree.
  specialize (Hwf kv Hkv). specialize (Hfree kv Hkv).
  apply andb_true_iff in Hwf as [? ?], Hfree as [? ?]. by repeat split.
Qed.

Lemma storable_get items key v :
  storable (JObj items) -> dict_get items key = Some v -> storable v.
Proof.
  intros [Hitems _]%storable_members. induction Hitems as [| [k v'] items Hkv _ IH]; [done |].
  cbn [dict_get]. destruct (decide (key = k)); [| done].
  intros [= <-]. destruct Hkv as (_ & _ & ? & ?). by split.
Qed.

Lemma storable_set items key v :
  storable (JObj items) -> storable_text key -> storable v ->
  storable (JObj (dict_set key v items)).
Proof.
  intros [Hitems Hnd]%storable_members [? ?] [? ?]. apply storable_members.
  split; [apply dict_set_forall; [by repeat split | done] | by apply dict_set_nodup].
Qed.

Lemma storable_lit_field field :
  field ∈ ["role"; "goal"; "backstory"]%string -> storable_text (lit field).
Proof.
  intros H. repeat (apply elem_of_cons in H as [-> | H]; [by vm_compute |]).
  by apply elem_of_nil in H.
Qed.

Lemma render_field_storable ui agent field prompts prompts' :
  widget_ok ui -> field ∈ ["role"; "goal"; "backstory"]%string ->
  storable prompts -> render_field ui agent field prompts = Ok prompts' ->
  storable prompts'.
Proof.
  intros Hui Hfield Hp. unfold render_field, getitem, setitem.
  destruct prompts as [| | | | fields]; try done.
  destruct (dict_get fields (lit field)) as [v |] eqn:Hv; [| done].
  cbn [mbind outcome_bind obind]. destruct v as [| | s | |]; try done.
  cbn [widget_value mbind outcome_bind obind]. intros [= <-].
  apply storable_set; [done | by apply storable_lit_field |].
  apply (storable_get _ _ _ Hp) in Hv. destruct Hv as [? ?].
  destruct (Hui (agent ++ lit "_" ++ lit field) s) as [? ?]; by split.
Qed.

Lemma render_agent_storable ui agent prompts prompts' :
  widget_ok ui -> storable prompts -> render_agent ui agent prompts = Ok prompts' ->
  storable prompts'.
Proof.
  intros Hui Hp. unfold render_agent.
  destruct (render_field ui agent "role" prompts) as [p1 | | |] eqn:H1; try done.
  apply render_field_storable in H1; [| done | set_solver | done].
  cbn [mbind outcome_bind obind].
  destruct (render_field ui agent "goal" p1) as [p2 | | |] eqn:H2; try done.
  apply render_field_storable in H2; [| done | set_solver | done].
  cbn [mbind outcome_bind obind].
  intros H3. apply render_field_storable in H3; [done | done | set_solver | done].
Qed.

Lemma render_agents_storable ui items : forall items',
  widget_ok ui -> Forall member_ok items -> render_agents ui items = Ok items' ->
  Forall member_ok items' /\ items'.*1 = items.*1.
Proof.
  induction items as [| [agent prompts] items IH]; intros items' Hui Hitems.
  { by intros [= <-]. }
  apply Forall_cons in Hitems as [(Hk1 & Hk2 & Hv1 & Hv2) Hitems]. cbn [fst snd] in *.
  cbn [render_agents].
  destruct (if bool_decide (agent = lit "tasks") then Ok prompts
            else render_agent ui agent prompts) as [prompts' | | |] eqn:Hagent; try done.
  cbn [mbind outcome_bind obind].
  destruct (render_agents ui items) as [rest | | |] eqn:Hrest; try done.
  cbn [mbind outcome_bind obind]. intros [= <-].
  destruct (IH rest Hui Hitems eq_refl) as [Hrest' Hkeys].
  split; [| cbn; by rewrite Hkeys]. constructor; [| done].
  assert (storable prompts') as [? ?].
  { destruct (bool_decide (agent = lit "tasks")).
    - injection Hagent as <-. by split.
    - by apply (render_agent_storable ui agent prompts). }
  by repeat split.
Qed.

Lemma render_tasks_storable ui items : forall items',
  widget_ok ui -> Forall member_ok items -> render_tasks ui items = Ok items' ->
  Forall member_ok items' /\ items'.*1 = items.*1.
Proof.
  induction items as [| [task description] items IH]; intros items' Hui Hitems.
  { by intros [= <-]. }
  apply Forall_cons in Hitems as [(Hk1 & Hk2 & Hv1 & Hv2) Hitems]. cbn [fst snd] in *.
  cbn [render_tasks]. destruct description as [| | s | |]; try done.
  cbn [widget_value mbind outcome_bind obind].
  destruct (render_tasks ui items) as [rest | | |] eqn:Hrest; try done.
  cbn [mbind outcome_bind obind]. intros [= <-].
  destruct (IH rest Hui Hitems eq_refl) as [Hrest' Hkeys].
  split; [| cbn; by rewrite Hkeys]. constructor; [| done].
  destruct (Hui (task ++ lit "_description") s) as [? ?]; [by split |].
  by repeat split.
Qed.

Lemma render_prompts_storable ui prompts prompts' :
  widget_ok ui -> storable prompts -> render_prompts ui prompts = Ok prompts' ->
  storable prompts' /\ truthy prompts' = true.
Proof.
  intros Hui Hp. unfold render_prompts. destruct prompts as [| | | | items]; try done.
  apply storable_members in Hp as [Hitems Hnd].
  destruct (render_agents ui items) as [items' | | |] eqn:Hagents; try done.
  destruct (render_agents_storable ui items items' Hui Hitems Hagents) as [Hitems' Hkeys].
  cbn [mbind outcome_bind obind]. unfold getitem.
  destruct (dict_get items' (lit "tasks")) as [tasks |] eqn:Htasks; [| done].
  cbn [mbind outcome_bind obind]. destruct tasks as [| | | | ds]; try done.
  assert (storable (JObj items')) as Hp' by (apply storable_members; by rewrite Hkeys).
  pose proof (storable_get _ _ _ Hp' Htasks) as [Hds Hnd']%storable_members.
  destruct (render_tasks ui ds) as [ds' | | |] eqn:Hrender; try done.
  destruct (render_tasks_storable ui ds ds' Hui Hds Hrender) as [Hds' Hkeys'].
  cbn [mbind outcome_bind obind]. intros [= <-]. split.
  - apply storable_set; [done | by vm_compute |].
    apply storable_members. by rewrite Hkeys'.
  - unfold truthy. apply negb_true_iff, bool_decide_eq_false.
    destruct items' as [| [k v] items']; [done |]. cbn [dict_set]. by destruct (decide _).
Qed.

Lemma ascii_scalar s : forallb is_printable_ascii s = true -> is_scalar_text s = true.
Proof.
  unfold is_scalar_text. rewrite !forallb_forall. intros H c Hc. specialize (H c Hc).
  unfold is_printable_ascii in H. unfold is_scalar.
  apply andb_true_iff in H as [_ H%N.leb_le]. apply orb_true_iff. left.
  apply N.ltb_lt. lia.
Qed.

(** ** One run of the page *)

Lemma init_prompts_some config session :
  exists prompts,
    init_prompts config session !! "prompts" = Some prompts /\
    (session !! "prompts" = Some prompts \/
     session !! "prompts" = None /\
     prompts = if truthy config then config else DEFAULT_PROMPTS).
Proof.
  unfold init_prompts. destruct (session !! "prompts") as [p |] eqn:Hp.
  - exists p. split; [done | by left].
  - eexists. split; [apply lookup_insert_eq | by right].
Qed.

(** A run of the page that ends normally: what it read, what the fields
    gave, and the state it leaves. *)
Lemma page_ok w environ i st t st' :
  page w environ i st = (t, Ok st') ->
  exists config credential prompts prompts',
    load_config (files st) = Ok config /\
    (get_azure_credentials w environ).2 = Ok credential /\
    init_prompts config (session_state st) !! "prompts" = Some prompts /\
    render_prompts (widget i) prompts = Ok prompts' /\
    st' = {| files := if save_button i then save_config prompts' (files st)
                      else files st;
             session_state := <["prompts" := prompts']>
                                (init_prompts config (session_state st)) |}.
Proof.
  intros H%(f_equal snd). cbn [snd] in H. unfold page in H.
  rewrite rbind_outcome in H. cbn [pure snd] in H.
  destruct (load_config (files st)) as [config | | |]; try done.
  rewrite rbind_outcome in H.
  destruct (get_azure_credentials w environ).2 as [credential | | |]; try done.
  cbv zeta in H. rewrite rbind_outcome in H. cbn [pure snd] in H.
  destruct (init_prompts_some config (session_state st)) as (prompts & Hprompts & _).
  rewrite Hprompts in H.
  destruct (render_prompts (widget i) prompts) as [prompts' | | |] eqn:Hrender; try done.
  rewrite rbind_outcome in H.
  exists config, credential, prompts, prompts'. do 4 (split; [done |]).
  destruct (save_button i).
  - rewrite rbind_outcome in H. cbn [st_success emit snd ret] in H.
    rewrite rbind_outcome in H.
    match type of H with
    | match ?x with _ => _ end = _ => destruct x as [[] | | |]; try done
    end.
    rewrite !rbind_outcome in H. cbn in H. by injection H as <-.
  - cbn [ret snd] in H. rewrite rbind_outcome in H.
    match type of H with
    | match ?x with _ => _ end = _ => destruct x as [[] | | |]; try done
    end.
    rewrite !rbind_outcome in H. cbn in H. by injection H as <-.
Qed.

(** X22: a configuration file that is not JSON ends every run of the
    page at its first statement, with the decode error: no credential is
    looked up, nothing is put on the page, and so the file cannot be
    replaced from the page. *)
Theorem page_malformed_config (w : world) (environ : gmap string text)
    (i : inputs) (st : state) (f : text) (e : exn) :
  files st !! CONFIG_PATH = Some f -> loads f = Raise e ->
  page w environ i st = ([], Raise e) /\ exists msg, e = JSONDecodeError msg.
Proof.
  intros Hf Hloads. split; [| by apply (loads_error f)].
  unfold page, load_config, open_r. rewrite Hf. cbn [mbind outcome_bind obind].
  rewrite Hloads. destruct (loads_error f e Hloads) as [msg ->]. reflexivity.
Qed.

Lemma page_malformed_config_witness :
  let st := {| files := {[ CONFIG_PATH := lit "{'planner': 1}" ]}; session_state := ∅ |} in
  let i := {| upload := None; typed_key := []; slider := 7 # 10;
              widget := fun _ value => value;
              save_button := true; generate_button := false |} in
  exists e, page world_up ∅ i st = ([], Raise e).
Proof.
  intros st i. eexists.
  apply (page_malformed_config world_up ∅ i st (lit "{'planner': 1}")).
  - reflexivity.
  - vm_compute. reflexivity.
Defined.

(** X23: a run of the page that ends normally keeps the state such that
    the file holds Unicode text and the prompts can be stored, provided
    the widgets return such text.  When the save button was pressed, the
    file then holds the prompts of the session as the fields show them:
    [load_config] returns them, and a new session starts from them. *)
Theorem page_save_persists (w : world) (environ : gmap string text)
    (i : inputs) (st st' : state) (t : list event) :
  state_ok st -> widget_ok (widget i) ->
  page w environ i st = (t, Ok st') ->
  state_ok st' /\
  (save_button i = true ->
   exists prompts,
     session_state st' !! "prompts" = Some prompts /\
     load_config (files st') = Ok prompts /\
     init_prompts prompts ∅ !! "prompts" = Some prompts).
Proof.
  intros [Hfile Hsession] Hui
    (config & credential & prompts & prompts' & Hload & _ & Hprompts & Hrender & ->)%page_ok.
  assert (storable prompts) as Hp.
  { destruct (init_prompts_some config (session_state st)) as (p & Hp & Hfrom).
    rewrite Hprompts in Hp. injection Hp as <-.
    destruct Hfrom as [Hs | [_ ->]]; [by apply Hsession |].
    destruct (truthy config); [| by vm_compute].
    unfold load_config, open_r in Hload.
    destruct (files st !! CONFIG_PATH) as [f |] eqn:Hf; [| by injection Hload as <-].
    cbn [mbind outcome_bind obind] in Hload.
    destruct (loads f) as [v | e | |] eqn:Hloads; try done.
    - injection Hload as <-. apply (loads_loaded f); [by apply Hfile | done].
    - by destruct (loads_error f e Hloads) as [msg ->]. }
  destruct (render_prompts_storable _ _ _ Hui Hp Hrender) as [[Hwf Hfree] Htruthy].
  split; [split |]; cbn [files session_state].
  - intros f. destruct (save_button i); [| apply Hfile].
    unfold save_config. rewrite lookup_insert_eq. intros [= <-].
    apply ascii_scalar, dumps_ascii.
  - intros p. rewrite lookup_insert_eq. by intros [= <-].
  - intros ->. exists prompts'. split; [apply lookup_insert_eq |]. split.
    + unfold load_config. rewrite open_r_saved. cbn [mbind outcome_bind obind].
      by rewrite loads_dumps.
    + unfold init_prompts. rewrite lookup_empty, Htruthy. apply lookup_insert_eq.
Qed.

Lemma page_save_persists_witness :
  let st := {| files := ∅; session_state := ∅ |} in
  let i := {| upload := None; typed_key := []; slider := 7 # 10;
              widget := fun key value =>
                          if bool_decide (key = lit "editor_role") then [233; 128512]
                          else value;
              save_button := true; generate_button := false |} in
  exists t st' prompts,
    page world_up ∅ i st = (t, Ok st') /\
    session_state st' !! "prompts" = Some prompts /\
    load_config (files st') = Ok prompts /\
    getitem2 prompts "editor" "role" = Ok (JStr [233; 128512]).
Proof.
  intros st i.
  assert (state_ok st) as Hst.
  { split; intros x H; cbn in H; rewrite lookup_empty in H; discriminate H. }
  assert (widget_ok (widget i)) as Hui.
  { intros key value Hvalue. cbn. destruct (bool_decide _); [| exact Hvalue].
    split; reflexivity. }
  destruct (page world_up ∅ i st) as [t [st' | | |]] eqn:Hpage;
    try (vm_compute in Hpage; discriminate).
  destruct (page_save_persists world_up ∅ i st st' t Hst Hui Hpage) as [_ Hsaved].
  destruct (Hsaved eq_refl) as (prompts & Hsession & Hload & _).
  exists t, st', prompts. do 3 (split; [done |]).
  apply (f_equal snd) in Hpage. cbn [snd] in Hpage.
  vm_compute in Hpage. injection Hpage as <-.
  vm_compute in Hsession. injection Hsession as <-. vm_compute. reflexivity.
Defined.

Lemma credentials_events w environ ev :
  ev ∈ (get_azure_credentials w environ).1 ->
  (exists name,
     environ !! "AZURE_KEY_VAULT_NAME" = Some name /\ name <> [] /\
     truthy_str (environ !! "AZURE_OPENAI_API_KEY") = false /\
     ev = KeyVaultGetSecret (key_vault_uri name) SECRET_NAME) \/
  exists msg, ev = StError msg.
Proof.
  destruct (truthy_str (environ !! "AZURE_OPENAI_API_KEY")) eqn:Hkey.
  { unfold get_azure_credentials. cbv zeta. rewrite Hkey. by intros ?%elem_of_nil. }
  destruct (environ !! "AZURE_KEY_VAULT_NAME") as [[| c name] |] eqn:Hname.
  - unfold get_azure_credentials. cbv zeta. rewrite Hkey, Hname. by intros ?%elem_of_nil.
  - rewrite (vault_branch w environ (c :: name) Hkey Hname) by done.
    destruct (key_vault w _ _) as [fl | value]; cbn [fst];
      rewrite ?elem_of_cons, elem_of_nil.
    + intros [-> | [-> | []]]; [left | right; eauto]. exists (c :: name). eauto.
    + intros [-> | []]. left. exists (c :: name). eauto.
  - unfold get_azure_credentials. cbv zeta. rewrite Hkey, Hname. by intros ?%elem_of_nil.
Qed.

(** Where an event of a run of the page comes from. *)
Lemma page_events w environ i st ev :
  ev ∈ (page w environ i st).1 ->
  ev ∈ (get_azure_credentials w environ).1 \/
  (exists msg, ev = StSuccess msg /\ save_button i = true) \/
  (exists credential prompts,
     generate_button i = true /\
     (get_azure_credentials w environ).2 = Ok credential /\
     ev ∈ (generate w environ (upload i) (resolve_api_key credential (typed_key i))
             prompts (slider i)).1) \/
  exists body, ev = StMarkdown body.
Proof.
  unfold page.
  intros [H | (config & _ & H)]%rbind_elem; [by apply pure_elem in H |].
  apply rbind_elem in H as [H | (credential & Hcred & H)]; [by left |].
  cbv zeta in H.
  apply rbind_elem in H as [H | (prompts & _ & H)]; [by apply pure_elem in H |].
  apply rbind_elem in H as [H | (fs & _ & H)].
  { destruct (save_button i) eqn:Hsave; [| by apply elem_of_nil in H].
    apply rbind_elem in H as [H | (? & _ & H)]; [| by apply elem_of_nil in H].
    apply emit_elem in H as ->. right; left. eauto. }
  apply rbind_elem in H as [H | (? & _ & H)].
  { destruct (generate_button i) eqn:Hgen; [| by apply elem_of_nil in H].
    right; right; left. exists credential, prompts. done. }
  apply rbind_elem in H as [H | (? & _ & H)];
    [apply emit_elem in H as ->; right; right; right; eauto |].
  apply rbind_elem in H as [H | (? & _ & H)];
    [apply emit_elem in H as ->; right; right; right; eauto |].
  by apply elem_of_nil in H.
Qed.

(** X24: a run of the page goes over the network for two things only.
    One is the look-up of the secret in the key vault, made when the
    primary variable gives no key and a vault is named.  The other needs
    the generate button, an uploaded file and a key: the probe, sent with
    the credential that was found or else the stripped text of the key
    field, and the run of the crew. *)
Theorem page_network_calls (w : world) (environ : gmap string text)
    (i : inputs) (st : state) (ev : event) :
  is_network_call ev = true ->
  ev ∈ (page w environ i st).1 ->
  (exists name,
     truthy_str (environ !! "AZURE_OPENAI_API_KEY") = false /\
     environ !! "AZURE_KEY_VAULT_NAME" = Some name /\ name <> [] /\
     ev = KeyVaultGetSecret (lit "https://" ++ name ++ lit ".vault.azure.net/")
                            (lit "AZURE-OPENAI-API-KEY")) \/
  (generate_button i = true /\
   exists f credential,
     upload i = Some f /\
     (get_azure_credentials w environ).2 = Ok credential /\
     resolve_api_key credential (typed_key i) <> [] /\
     (ev = RequestsPost (probe_url environ) (resolve_api_key credential (typed_key i)) \/
      exists crew, ev = Kickoff crew)).
Proof.
  intros Hnet [H | [(msg & -> & _) | [(credential & prompts & Hgen & Hcred & H) | [body ->]]]]
    %page_events; try done.
  - apply credentials_events in H as [(name & Hname & Hne & Hkey & ->) | [msg ->]];
      [| done].
    left. exists name. done.
  - right. split; [done |].
    apply generate_events in H as [[msg ->] | (f & transcripts & Hf & Hkey & _ & Hev)];
      [done |].
    exists f, credential. do 3 (split; [done |]).
    destruct Hev as [-> | [_ [-> | Hev]]]; [by left | done |].
    apply pipeline_events in Hev
      as [(who & a & _ & _ & ->)
         | [[t ->] | [(p & wr & e & d1 & d2 & d3 & _ & _ & _ & [-> | ->])
                      | [-> | [result ->]]]]]; try done.
    right. eauto.
Qed.

Lemma page_network_calls_witness :
  let environ : gmap string text := {[ "AZURE_OPENAI_API_KEY" := lit "from-env" ]} in
  let i := {| upload := Some transcript_file; typed_key := lit "typed"; slider := 7 # 10;
              widget := fun _ value => value;
              save_button := false; generate_button := true |} in
  let t := (page world_up environ i {| files := ∅; session_state := ∅ |}).1 in
  exists url, t !! 0%nat = Some (RequestsPost url (lit "from-env")).
Proof.
  intros environ i t.
  destruct (t !! 0%nat) as [ev |] eqn:Hev; [| vm_compute in Hev; discriminate].
  assert (is_network_call ev = true) as Hnet
    by (vm_compute in Hev; injection Hev as <-; reflexivity).
  destruct (page_network_calls world_up environ i {| files := ∅; session_state := ∅ |}
              ev Hnet)
    as [(name & Hkey & _) | (_ & f & credential & _ & Hcred & _ & [-> | [crew ->]])].
  - apply list_elem_of_lookup. exists 0%nat. exact Hev.
  - vm_compute in Hkey. discriminate Hkey.
  - vm_compute in Hcred. injection Hcred as <-. eexists. reflexivity.
  - vm_compute in Hev. discriminate Hev.
Defined.

Ltac in_list := repeat first [apply list_elem_of_here | apply list_elem_of_further].

Lemma key_inj a s a' s' :
  is_suffix s -> is_suffix s' -> a ++ s = a' ++ s' -> a = a' /\ s = s'.
Proof.
  unfold is_suffix. intros Hs Hs' Heq.
  assert (s = s') as <-.
  { apply (f_equal reverse) in Heq. rewrite !reverse_app in Heq.
    repeat (apply elem_of_cons in Hs as [-> | Hs]);
      try (by apply elem_of_nil in Hs);
      repeat (apply elem_of_cons in Hs' as [-> | Hs']);
      try (by apply elem_of_nil in Hs'); try reflexivity;
      vm_compute in Heq; discriminate Heq. }
  split; [| done]. by apply app_inv_tail in Heq.
Qed.

Lemma agent_keys_elem items key :
  key ∈ agent_keys items ->
  exists a s, a ∈ items.*1 /\ is_suffix s /\ s <> lit "_description" /\ key = a ++ s.
Proof.
  induction items as [| [a v] items IH]; cbn [agent_keys flat_map fst].
  { by intros ?%elem_of_nil. }
  intros [H | H]%elem_of_app.
  - destruct (bool_decide (a = lit "tasks")); [by apply elem_of_nil in H |].
    exists a. unfold is_suffix.
    repeat (apply elem_of_cons in H as [-> | H];
            [eexists; split; [left |]; split; [| split; [| reflexivity]];
             [in_list | by vm_compute] |]).
    by apply elem_of_nil in H.
  - destruct (IH H) as (a' & s & Ha' & Hs). exists a', s. split; [by right | done].
Qed.

Lemma agent_keys_nodup items : NoDup items.*1 -> NoDup (agent_keys items).
Proof.
  induction items as [| [a v] items IH]; cbn [agent_keys flat_map fst].
  { constructor. }
  intros [Ha Hitems]%NoDup_cons. apply NoDup_app. split; [| split; [| by apply IH]].
  - destruct (bool_decide (a = lit "tasks")); [constructor |].
    repeat (apply NoDup_cons; split);
      rewrite ?elem_of_cons, ?elem_of_nil; try apply NoDup_nil_2;
      intros H; repeat (destruct H as [H | H]); try done;
      apply app_inv_head in H; vm_compute in H; discriminate H.
  - intros key Hkey Hrest.
    apply agent_keys_elem in Hrest as (a' & s' & Ha' & Hs' & _ & ->).
    destruct (bool_decide (a = lit "tasks")); [by apply elem_of_nil in Hkey |].
    assert (exists s, is_suffix s /\ a' ++ s' = a ++ s) as (s & Hs & Heq).
    { unfold is_suffix.
      repeat (apply elem_of_cons in Hkey as [Heq | Hkey];
              [eexists; split; [| exact Heq]; in_list |]).
      by apply elem_of_nil in Hkey. }
    apply key_inj in Heq as [-> _]; done.
Qed.

Lemma task_keys_nodup items : NoDup items.*1 -> NoDup (task_keys items).
Proof.
  induction items as [| [task d] items IH]; cbn [task_keys map fst].
  { constructor. }
  intros [Hd Hitems]%NoDup_cons. apply NoDup_cons. split; [| by apply IH].
  intros ([task' d'] & Heq & Hin)%list_elem_of_fmap. cbn [fst] in Heq.
  apply app_inv_tail in Heq as ->. apply Hd.
  apply list_elem_of_fmap. by exists (task', d').
Qed.

Lemma render_field_keys ui ui' agent field prompts :
  (forall value, ui (agent ++ lit "_" ++ lit field) value
                 = ui' (agent ++ lit "_" ++ lit field) value) ->
  render_field ui agent field prompts = render_field ui' agent field prompts.
Proof.
  intros Hsame. unfold render_field. destruct (getitem prompts (lit field)); try done.
  cbn [mbind outcome_bind obind]. destruct (widget_value a); try done.
  cbn [mbind outcome_bind obind]. by rewrite Hsame.
Qed.

Lemma render_agent_keys ui ui' agent prompts :
  (forall key value,
     key ∈ [agent ++ lit "_" ++ lit "role"; agent ++ lit "_" ++ lit "goal";
            agent ++ lit "_" ++ lit "backstory"] ->
     ui key value = ui' key value) ->
  render_agent ui agent prompts = render_agent ui' agent prompts.
Proof.
  intros Hsame. unfold render_agent.
  rewrite (render_field_keys ui ui' agent "role") by (intros; apply Hsame; in_list).
  destruct (render_field ui' agent "role" prompts) as [p1 | | |]; try done.
  cbn [mbind outcome_bind obind].
  rewrite (render_field_keys ui ui' agent "goal") by (intros; apply Hsame; in_list).
  destruct (render_field ui' agent "goal" p1) as [p2 | | |]; try done.
  cbn [mbind outcome_bind obind].
  apply render_field_keys. intros; apply Hsame; in_list.
Qed.

Lemma render_agents_keys ui ui' items :
  (forall key value, key ∈ agent_keys items -> ui key value = ui' key value) ->
  render_agents ui items = render_agents ui' items.
Proof.
  induction items as [| [agent prompts] items IH]; [done |].
  cbn [agent_keys flat_map fst render_agents]. intros Hsame.
  rewrite IH by (intros; apply Hsame, elem_of_app; by right).
  destruct (bool_decide (agent = lit "tasks")); [done |].
  rewrite (render_agent_keys ui ui'); [done |].
  intros; apply Hsame, elem_of_app; by left.
Qed.

Lemma render_tasks_keys ui ui' items :
  (forall key value, key ∈ task_keys items -> ui key value = ui' key value) ->
  render_tasks ui items = render_tasks ui' items.
Proof.
  induction items as [| [task d] items IH]; [done |].
  cbn [task_keys map fst render_tasks]. intros Hsame.
  rewrite IH by (intros; apply Hsame; by right).
  destruct (widget_value d); try done. cbn [mbind outcome_bind obind].
  rewrite Hsame by left. done.
Qed.

Lemma tasks_kept ui items items' :
  render_agents ui items = Ok items' ->
  dict_get items' (lit "tasks") = dict_get items (lit "tasks").
Proof.
  intros Hagents%render_agents_ok.
  pose proof (rendered_get items items' (lit "tasks")
                (fun kv kv' (H : agent_rendered ui kv kv') => proj1 H) Hagents) as Hget.
  destruct (dict_get items' (lit "tasks")) as [v' |]; [| done].
  by destruct Hget as (v & -> & ->%tasks_entry_kept).
Qed.

(** X25: with dicts that have no key twice, no two widgets of the prompt
    fields have the same key; and the fields depend on the widgets with
    these keys only. *)
Theorem widget_keys_distinct (prompts : json) :
  well_formed prompts = true ->
  NoDup (widget_keys prompts) /\
  forall ui ui',
    (forall key value, key ∈ widget_keys prompts -> ui key value = ui' key value) ->
    render_prompts ui prompts = render_prompts ui' prompts.
Proof.
  intros Hwf. destruct prompts as [| | | | items]; try (split; [constructor | done]).
  cbn [well_formed] in Hwf. apply andb_true_iff in Hwf as [Hitems Hnd%bool_decide_eq_true].
  split.
  - cbn [widget_keys]. apply NoDup_app. split; [by apply agent_keys_nodup |]. split.
    + intros key (a & s & _ & Hs & Hne & ->)%agent_keys_elem Htask.
      destruct (dict_get items (lit "tasks")) as [[| | | | ds] |];
        try (by apply elem_of_nil in Htask).
      apply list_elem_of_fmap in Htask as ([task d] & Heq & _). cbn [fst] in Heq.
      apply key_inj in Heq as [_ ?]; [done | done |]. unfold is_suffix. in_list.
    + destruct (dict_get items (lit "tasks")) as [[| | | | ds] |] eqn:Hget;
        try constructor.
      apply task_keys_nodup. clear Hnd.
      induction items as [| [k v] items IH]; [done |].
      cbn [forallb fst snd] in Hitems.
      apply andb_true_iff in Hitems as [[_ Hv]%andb_true_iff Hitems].
      cbn [dict_get] in Hget. destruct (decide (lit "tasks" = k)); [| by apply IH].
      injection Hget as ->. cbn [well_formed] in Hv.
      by apply andb_true_iff in Hv as [_ ?%bool_decide_eq_true].
  - intros ui ui' Hsame. cbn [widget_keys] in Hsame. cbn [render_prompts].
    rewrite (render_agents_keys ui ui')
      by (intros; apply Hsame, elem_of_app; by left).
    destruct (render_agents ui' items) as [items' | | |] eqn:Hagents; try done.
    cbn [mbind outcome_bind obind]. unfold getitem.
    rewrite (tasks_kept ui' items items' Hagents).
    destruct (dict_get items (lit "tasks")) as [[| | | | ds] |]; try done.
    cbn [mbind outcome_bind obind].
    rewrite (render_tasks_keys ui ui')
      by (intros; apply Hsame, elem_of_app; by right).
    done.
Qed.

Lemma widget_keys_distinct_witness :
  length (widget_keys DEFAULT_PROMPTS) = 12%nat /\
  NoDup (widget_keys DEFAULT_PROMPTS).
Proof.
  split; [reflexivity |].
  apply (widget_keys_distinct DEFAULT_PROMPTS). vm_compute. reflexivity.
Defined.
